(** * Pyro5 serializers: a shallow embedding of [Pyro5/serializers.py]

    The development follows the layout of the Python module:

    - host values ([pyobj]), exceptions and the error/log monad;
    - text helpers ([in], [startswith], [split], UTF-8 decoding);
    - [SerializerBase]: the two conversion registries, [class_to_dict],
      [dict_to_class], [make_exception], [recreate_classes] and the
      compression wrapper;
    - the [struct] layouts and the msgpack extension codec
      ([MsgpackSerializer.default] / [ext_hook]);
    - the marshal, JSON and msgpack adapters over the document trees of
      their codecs, with their calls ([dumpsCall] / [loadsCall]) and type
      replacements, and the serpent adapter over the [dumps] and [loads]
      of its library;
    - the tables of the serializers that are supported.

    What the serializers take from modules that are not part of the file
    ([errors], [core], [builtins], [sqlite3], [zlib], the clock, the
    machine's native layouts) is gathered in the class [Host]. *)

From Stdlib Require Import ZArith List String Ascii Strings.Byte Lia Bool.
From stdpp Require Import gmap strings list.

Import ListNotations.
Local Open Scope string_scope.
Local Open Scope Z_scope.

(** ** Exceptions and results *)

(** The exception classes that the serializers raise themselves or let
    through from the interpreter and the codecs. *)
Inductive exn_class : Type :=
  | SecurityError
  | SerializeError
  | ValueError
  | TypeError
  | AttributeError
  | KeyError
  | IndexError
  | ImportError
  | OverflowError
  | RecursionError
  | UnicodeDecodeError
  | StructError
  | OtherError (qualname : string).

Record exn : Type := Raise { exn_type : exn_class; exn_msg : string }.

Inductive result (A : Type) : Type :=
  | Ok (a : A)
  | Err (e : exn).
Arguments Ok {A} a.
Arguments Err {A} e.

Global Instance result_ret : MRet result := @Ok.

Global Instance result_bind : MBind result := fun A B k r =>
  match r with
  | Ok a => k a
  | Err e => Err e
  end.

Global Instance result_fmap : FMap result := fun A B f r =>
  match r with
  | Ok a => Ok (f a)
  | Err e => Err e
  end.

Definition raise {A} (c : exn_class) (msg : string) : result A :=
  Err (Raise c msg).

(** ** Text

    A [str] is held as the byte string of its UTF-8 encoding, a [bytes]
    value as a list of bytes.  The operations the serializers use on text
    ([in], [startswith], [endswith], [==], [split] on an ASCII separator,
    [+]) give the same answers on the encoding as on the code points. *)

Fixpoint startswith (s p : string) {struct p} : bool :=
  match p, s with
  | EmptyString, _ => true
  | String c p', String d s' => if Ascii.eqb c d then startswith s' p' else false
  | String _ _, EmptyString => false
  end.

(** [sub in s] *)
Fixpoint contains (sub s : string) : bool :=
  startswith s sub ||
  match s with
  | EmptyString => false
  | String _ s' => contains sub s'
  end.

Definition rev_string (s : string) : string :=
  string_of_list_ascii (rev (list_ascii_of_string s)).

Definition endswith (s p : string) : bool :=
  startswith (rev_string s) (rev_string p).

(** The text before the first [sep], and the text after it when there is
    one. *)
Fixpoint str_partition (sep : ascii) (s : string) : string * option string :=
  match s with
  | EmptyString => (EmptyString, None)
  | String c rest =>
      if Ascii.eqb c sep then (EmptyString, Some rest)
      else let (head, tail) := str_partition sep rest in (String c head, tail)
  end.

(** [s.split(sep, maxsplit)] for a one-character separator. *)
Fixpoint str_split (sep : ascii) (maxsplit : nat) (s : string) : list string :=
  match maxsplit with
  | O => [s]
  | S n =>
      match str_partition sep s with
      | (head, Some tail) => head :: str_split sep n tail
      | (head, None) => [head]
      end
  end.

Definition byte_in (lo hi : N) (b : byte) : bool :=
  ((lo <=? Byte.to_N b) && (Byte.to_N b <=? hi))%N.

Definition utf8_tail (b : byte) : bool := byte_in 0x80 0xBF b.

(** Well-formed UTF-8 as the strict decoder accepts it: shortest forms
    only, no surrogates, nothing above U+10FFFF. *)
Fixpoint utf8_valid (bs : list byte) : bool :=
  match bs with
  | [] => true
  | b0 :: r0 =>
      if byte_in 0x00 0x7F b0 then utf8_valid r0 else
      match r0 with
      | [] => false
      | b1 :: r1 =>
          if byte_in 0xC2 0xDF b0 then utf8_tail b1 && utf8_valid r1 else
          match r1 with
          | [] => false
          | b2 :: r2 =>
              if byte_in 0xE0 0xE0 b0
              then byte_in 0xA0 0xBF b1 && utf8_tail b2 && utf8_valid r2
              else if byte_in 0xE1 0xEC b0 || byte_in 0xEE 0xEF b0
              then utf8_tail b1 && utf8_tail b2 && utf8_valid r2
              else if byte_in 0xED 0xED b0
              then byte_in 0x80 0x9F b1 && utf8_tail b2 && utf8_valid r2
              else
              match r2 with
              | [] => false
              | b3 :: r3 =>
                  if byte_in 0xF0 0xF0 b0
                  then byte_in 0x90 0xBF b1 && utf8_tail b2 && utf8_tail b3
                       && utf8_valid r3
                  else if byte_in 0xF1 0xF3 b0
                  then utf8_tail b1 && utf8_tail b2 && utf8_tail b3
                       && utf8_valid r3
                  else if byte_in 0xF4 0xF4 b0
                  then byte_in 0x80 0x8F b1 && utf8_tail b2 && utf8_tail b3
                       && utf8_valid r3
                  else false
              end
          end
      end
  end.

(** [b.decode("utf-8")] *)
Definition decode_utf8 (bs : list byte) : result string :=
  if utf8_valid bs then Ok (string_of_list_byte bs)
  else raise UnicodeDecodeError "'utf-8' codec can't decode bytes".

(** [s.encode("ascii")] for text that is known to be ASCII, and the bytes
    of a text in general. *)
Definition encode_text (s : string) : list byte := list_byte_of_string s.

(** The code points of a text, each as a one-character text: a byte that
    is not a continuation byte starts a new character. *)
Fixpoint chars_of (s : string) : list string :=
  match s with
  | EmptyString => []
  | String c rest =>
      match chars_of rest with
      | [] => [String c EmptyString]
      | ch :: chs =>
          match ch with
          | String d _ =>
              if utf8_tail (byte_of_ascii d)
              then String c ch :: chs
              else String c EmptyString :: ch :: chs
          | EmptyString => String c EmptyString :: chs
          end
      end
  end.

(** ** Host values *)

(** A class is identified by its qualified name; [cls_bases] lists the
    qualified names of its proper ancestors in method resolution order. *)
Record pyclass : Type := PyClass {
  cls_module : string;
  cls_name : string;
  cls_bases : list string;
  cls_slots : option (list string)
}.

Definition qualname (c : pyclass) : string :=
  cls_module c ++ "." ++ cls_name c.

Definition mro (c : pyclass) : list string := qualname c :: cls_bases c.

(** [issubclass(c, base)], with [base] given by its qualified name. *)
Definition issubclass (c : pyclass) (base : string) : bool :=
  existsb (String.eqb base) (mro c).

(** An opaque [tzinfo] object.  [tz_truth] is its truth value in a
    condition: that of [__bool__] or of [__len__] when its class defines
    one of them, true otherwise. *)
Record tzinfo : Type := TzInfo {
  tz_name : string;
  tz_utcoffset : Z;
  tz_truth : bool
}.

Record datetime : Type := DateTime {
  dt_year : Z; dt_month : Z; dt_day : Z;
  dt_hour : Z; dt_minute : Z; dt_second : Z; dt_microsecond : Z;
  dt_tzinfo : option tzinfo
}.

(** Host values.  A [float] is held as its IEEE-754 binary64 bit pattern,
    a [complex] as the patterns of its two parts, a [uuid.UUID] as its
    128-bit integer, a [date] as its proleptic Gregorian ordinal, a
    [Decimal] as its text.  A dict is the list of its items in insertion
    order, a set the list of its elements in iteration order.  An instance
    of a class carries its class, its [args] (the [BaseException] slot,
    empty for other objects), its attribute dictionary when it has one,
    and the values of its filled slots. *)
#[warnings="-register-all"]
Inductive pyobj : Type :=
  | PNone
  | PBool (b : bool)
  | PInt (n : Z)
  | PFloat (bits : Z)
  | PComplex (re im : Z)
  | PStr (s : string)
  | PBytes (b : list byte)
  | PBytearray (b : list byte)
  | PList (l : list pyobj)
  | PTuple (l : list pyobj)
  | PSet (l : list pyobj)
  | PDict (d : list (pyobj * pyobj))
  | PUuid (n : Z)
  | PDatetime (dt : datetime)
  | PDate (ordinal : Z)
  | PDecimal (text : string)
  | PExtType (code : Z) (data : list byte)
  | PClass (c : pyclass)
  | PFunction (name : string)
  | PObject (c : pyclass) (args : list pyobj)
            (dict : option (list (string * pyobj)))
            (slots : list (string * pyobj)).

Abbreviation pydict := (list (pyobj * pyobj)).

(** *** Built-in classes and [type(obj)] *)

Definition builtin_class (name : string) (bases : list string) : pyclass :=
  PyClass "builtins" name bases None.

Definition type_of (o : pyobj) : pyclass :=
  match o with
  | PNone => builtin_class "NoneType" ["builtins.object"]
  | PBool _ => builtin_class "bool" ["builtins.int"; "builtins.object"]
  | PInt _ => builtin_class "int" ["builtins.object"]
  | PFloat _ => builtin_class "float" ["builtins.object"]
  | PComplex _ _ => builtin_class "complex" ["builtins.object"]
  | PStr _ => builtin_class "str" ["builtins.object"]
  | PBytes _ => builtin_class "bytes" ["builtins.object"]
  | PBytearray _ => builtin_class "bytearray" ["builtins.object"]
  | PList _ => builtin_class "list" ["builtins.object"]
  | PTuple _ => builtin_class "tuple" ["builtins.object"]
  | PSet _ => builtin_class "set" ["builtins.object"]
  | PDict _ => builtin_class "dict" ["builtins.object"]
  | PUuid _ => PyClass "uuid" "UUID" ["builtins.object"] None
  | PDatetime _ =>
      PyClass "datetime" "datetime" ["datetime.date"; "builtins.object"] None
  | PDate _ => PyClass "datetime" "date" ["builtins.object"] None
  | PDecimal _ => PyClass "decimal" "Decimal" ["builtins.object"] None
  | PExtType _ _ =>
      PyClass "msgpack" "ExtType" ["builtins.tuple"; "builtins.object"] None
  | PClass _ => builtin_class "type" ["builtins.object"]
  | PFunction _ =>
      builtin_class "builtin_function_or_method" ["builtins.object"]
  | PObject c _ _ _ => c
  end.

(** [isinstance(obj, clazz)], the class given by its qualified name. *)
Definition isinstance (o : pyobj) (clazz : string) : bool :=
  issubclass (type_of o) clazz.

(** [type(obj) is clazz] *)
Definition type_is (o : pyobj) (clazz : string) : bool :=
  String.eqb (qualname (type_of o)) clazz.

(** [numbers.Number] is an abstract base class: the numeric built-ins and
    [Decimal] are registered with it. *)
Definition isinstance_Number (o : pyobj) : bool :=
  match o with
  | PBool _ | PInt _ | PFloat _ | PComplex _ _ | PDecimal _ => true
  | _ => isinstance o "numbers.Number"
  end.

(** Truth value of an object in a condition. *)
Definition truthy (o : pyobj) : bool :=
  match o with
  | PNone => false
  | PBool b => b
  | PInt n => negb (Z.eqb n 0)
  | PFloat bits => negb (Z.eqb (Z.land bits (2 ^ 63 - 1)) 0)
  | PComplex re im =>
      negb (Z.eqb (Z.land re (2 ^ 63 - 1)) 0 && Z.eqb (Z.land im (2 ^ 63 - 1)) 0)
  | PStr s => negb (String.eqb s "")
  | PBytes b | PBytearray b => negb (Nat.eqb (length b) 0)
  | PList l | PTuple l | PSet l => negb (Nat.eqb (length l) 0)
  | PDict d => negb (Nat.eqb (length d) 0)
  | _ => true
  end.

(** Whether [hash(obj)] succeeds. *)
Fixpoint hashable (o : pyobj) : bool :=
  match o with
  | PList _ | PSet _ | PDict _ | PBytearray _ => false
  | PTuple l => forallb hashable l
  | _ => true
  end.

(** *** Numbers and the equality of keys *)

(** The number that a finite double is, as the pair [(m, e)] of
    [m * 2 ^ e]; [None] for an infinity and for a NaN. *)
Definition float_parts (bits : Z) : option (Z * Z) :=
  let exponent := Z.land (Z.shiftr bits 52) 0x7FF in
  let fraction := Z.land bits (2 ^ 52 - 1) in
  if exponent =? 0x7FF then None
  else
    let m := if exponent =? 0 then fraction else fraction + 2 ^ 52 in
    let e := if exponent =? 0 then - 1074 else exponent - 1075 in
    Some (if Z.testbit bits 63 then - m else m, e).

Definition is_nan (bits : Z) : bool :=
  (Z.land (Z.shiftr bits 52) 0x7FF =? 0x7FF)
  && negb (Z.land bits (2 ^ 52 - 1) =? 0).

(** The pattern of [float("nan")]. *)
Definition quiet_nan : Z := 0x7FF8000000000000.

(** [m * 2 ^ e = m' * 2 ^ e'] *)
Definition scaled_eq (m e m' e' : Z) : bool :=
  if e <=? e' then m =? m' * 2 ^ (e' - e) else m * 2 ^ (e - e') =? m'.

(** A real number among the host values, and [==] on two of them: the
    numbers are compared, whatever their types; a NaN equals nothing. *)
Inductive real : Type := Integer (n : Z) | Double (bits : Z).

Definition real_eq (x y : real) : bool :=
  match x, y with
  | Integer n, Integer n' => n =? n'
  | Integer n, Double b | Double b, Integer n =>
      match float_parts b with
      | Some (m, e) => scaled_eq n 0 m e
      | None => false
      end
  | Double b, Double b' =>
      match float_parts b, float_parts b' with
      | Some (m, e), Some (m', e') => scaled_eq m e m' e'
      | None, None => negb (is_nan b) && (b =? b')
      | _, _ => false
      end
  end.

(** The number that an object is, as its real and its imaginary part. *)
Definition number_of (o : pyobj) : option (real * real) :=
  match o with
  | PBool b => Some (Integer (if b then 1 else 0), Integer 0)
  | PInt n => Some (Integer n, Integer 0)
  | PFloat x => Some (Double x, Integer 0)
  | PComplex re im => Some (Double re, Double im)
  | _ => None
  end.

Fixpoint bytes_eqb (a b : list byte) : bool :=
  match a, b with
  | [], [] => true
  | x :: a, y :: b => Byte.eqb x y && bytes_eqb a b
  | _, _ => false
  end.

(** [k == k'] for two keys of a dict: [None], numbers, text, byte
    strings, extension values, dates, datetimes without [tzinfo], and
    tuples of such, element by element.  Numbers are equal as numbers
    ([1 == True == 1.0]); text and bytes are never equal. *)
Fixpoint key_eq (k k' : pyobj) : bool :=
  match number_of k, number_of k' with
  | Some (re, im), Some (re', im') => real_eq re re' && real_eq im im'
  | None, None =>
      match k, k' with
      | PNone, PNone => true
      | PStr s, PStr s' => String.eqb s s'
      | PBytes b, PBytes b' => bytes_eqb b b'
      | PExtType code data, PExtType code' data' =>
          (code =? code') && bytes_eqb data data'
      | PDate n, PDate n' => n =? n'
      | PDatetime (DateTime y mo d h mi sec us None),
        PDatetime (DateTime y' mo' d' h' mi' sec' us' None) =>
          (y =? y') && (mo =? mo') && (d =? d') && (h =? h') && (mi =? mi')
          && (sec =? sec') && (us =? us')
      | PTuple l, PTuple l' =>
          (fix elements (l l' : list pyobj) : bool :=
             match l, l' with
             | [], [] => true
             | x :: l, x' :: l' => key_eq x x' && elements l l'
             | _, _ => false
             end) l l'
      | _, _ => false
      end
  | _, _ => false
  end.

(** *** Dict access by a text key *)

Definition key_is (k : string) (key : pyobj) : bool :=
  match key with
  | PStr s => String.eqb s k
  | _ => false
  end.

(** [d.get(k)] as an option; [k in d] is [is_Some]. *)
Fixpoint dict_get (d : pydict) (k : string) : option pyobj :=
  match d with
  | [] => None
  | (key, v) :: rest => if key_is k key then Some v else dict_get rest k
  end.

(** [d[k]] *)
Definition getitem (d : pydict) (k : string) : result pyobj :=
  match dict_get d k with
  | Some v => Ok v
  | None => raise KeyError k
  end.

(** [d[k] = v]: an existing key keeps its position. *)
Fixpoint dict_set (d : pydict) (k : string) (v : pyobj) : pydict :=
  match d with
  | [] => [(PStr k, v)]
  | (key, w) :: rest =>
      if key_is k key then (key, v) :: rest else (key, w) :: dict_set rest k v
  end.

(** [d[k] = v] for a hashable key: a key of [d] that equals [k] keeps
    its place and stays the key. *)
Fixpoint dict_store (d : pydict) (k v : pyobj) : pydict :=
  match d with
  | [] => [(k, v)]
  | (key, w) :: rest =>
      if key_eq key k then (key, v) :: rest else (key, w) :: dict_store rest k v
  end.

(** The dict that is filled with the pairs one after the other. *)
Definition dict_of_pairs (pairs : pydict) : pydict :=
  fold_left (fun d kv => dict_store d (fst kv) (snd kv)) pairs [].

(** The instance dictionary as a dict value. *)
Definition dict_of_attrs (attrs : list (string * pyobj)) : pydict :=
  map (fun kv => (PStr (fst kv), snd kv)) attrs.

(** ** Logging

    [log.warning] appends to the log of the module's logger; [M] pairs the
    messages written by a computation with its result. *)
Record M (A : Type) : Type := Logged { log_of : list string; res_of : result A }.
Arguments Logged {A} log_of res_of.
Arguments log_of {A} m.
Arguments res_of {A} m.

Global Instance M_ret : MRet M := fun A a => Logged [] (Ok a).

Global Instance M_bind : MBind M := fun A B k m =>
  match res_of m with
  | Ok a => Logged (log_of m ++ log_of (k a))%list (res_of (k a))
  | Err e => Logged (log_of m) (Err e)
  end.

Global Instance M_fmap : FMap M := fun A B f m =>
  Logged (log_of m) (f <$> res_of m).

Definition lift {A} (r : result A) : M A := Logged [] r.

Definition log_warning (msg : string) : M unit := Logged [msg] (Ok tt).

Definition raiseM {A} (c : exn_class) (msg : string) : M A :=
  lift (raise c msg).

(** *** Iteration and attributes *)

(** The elements that [*obj], [tuple(obj)] or a [for] loop draw from an
    object. *)
Definition iterate (o : pyobj) : result (list pyobj) :=
  match o with
  | PList l | PTuple l | PSet l => Ok l
  | PDict d => Ok (map fst d)
  | PStr s => Ok (map PStr (chars_of s))
  | PBytes b | PBytearray b => Ok (map (fun x => PInt (Z.of_N (Byte.to_N x))) b)
  | PExtType code data => Ok [PInt code; PBytes data]
  | _ => raise TypeError "object is not iterable"
  end.

(** [d.items()] *)
Definition items (o : pyobj) : result pydict :=
  match o with
  | PDict d => Ok d
  | _ => raise AttributeError "object has no attribute 'items'"
  end.

Fixpoint attrs_get (attrs : list (string * pyobj)) (name : string)
  : option pyobj :=
  match attrs with
  | [] => None
  | (k, v) :: rest => if String.eqb k name then Some v else attrs_get rest name
  end.

Fixpoint attrs_set (attrs : list (string * pyobj)) (name : string) (v : pyobj)
  : list (string * pyobj) :=
  match attrs with
  | [] => [(name, v)]
  | (k, w) :: rest =>
      if String.eqb k name then (k, v) :: rest
      else (k, w) :: attrs_set rest name v
  end.

Definition BaseException : string := "builtins.BaseException".

(** [getattr(obj, name)] on an instance: [args] of an exception, then the
    instance dictionary, then the slots. *)
Definition getattr (o : pyobj) (name : string) : result pyobj :=
  match o with
  | PObject c args dict slots =>
      if String.eqb name "args" && issubclass c BaseException
      then Ok (PTuple args)
      else
        match from_option (fun d => attrs_get d name) None dict with
        | Some v => Ok v
        | None =>
            match attrs_get slots name with
            | Some v => Ok v
            | None => raise AttributeError name
            end
        end
  | _ => raise AttributeError name
  end.

(** [hasattr(obj, name)] *)
Definition hasattr (o : pyobj) (name : string) : bool :=
  match getattr o name with
  | Ok _ => true
  | Err _ => false
  end.

(** A [for] loop whose body rebinds one variable and may raise. *)
Fixpoint foldM {A B} (f : A -> B -> result A) (a : A) (l : list B) : result A :=
  match l with
  | [] => Ok a
  | x :: xs => a' ← f a x; foldM f a' xs
  end.

(** [str(obj.__class__)] *)
Definition class_str (c : pyclass) : string :=
  "<class '" ++
  (if String.eqb (cls_module c) "builtins" then cls_name c else qualname c)
  ++ "'>".

(** ** [SerializerBase] *)

(** The two class-level registries.  The outbound one is walked in
    insertion order with [isinstance]; the inbound one is looked up by the
    class name. *)
Record registries : Type := Registries {
  custom_class_to_dict_registry : list (pyclass * (pyobj -> result pyobj));
  custom_dict_to_class_registry : gmap string (string -> pydict -> result pyobj)
}.

Definition empty_registries : registries := Registries [] ∅.

Fixpoint assoc_set {V} (l : list (pyclass * V)) (clazz : pyclass) (v : V)
  : list (pyclass * V) :=
  match l with
  | [] => [(clazz, v)]
  | (c, w) :: rest =>
      if String.eqb (qualname c) (qualname clazz) then (c, v) :: rest
      else (c, w) :: assoc_set rest clazz v
  end.

(** [register_class_to_dict], without the mirroring into serpent's own
    registry. *)
Definition register_class_to_dict (reg : registries) (clazz : pyclass)
    (converter : pyobj -> result pyobj) : registries :=
  Registries (assoc_set (custom_class_to_dict_registry reg) clazz converter)
             (custom_dict_to_class_registry reg).

Definition unregister_class_to_dict (reg : registries) (clazz : pyclass)
  : registries :=
  Registries
    (filter (fun e => negb (String.eqb (qualname (fst e)) (qualname clazz)))
            (custom_class_to_dict_registry reg))
    (custom_dict_to_class_registry reg).

Definition register_dict_to_class (reg : registries) (classname : string)
    (converter : string -> pydict -> result pyobj) : registries :=
  Registries (custom_class_to_dict_registry reg)
             (<[classname := converter]> (custom_dict_to_class_registry reg)).

Definition unregister_dict_to_class (reg : registries) (classname : string)
  : registries :=
  Registries (custom_class_to_dict_registry reg)
             (delete classname (custom_dict_to_class_registry reg)).

(** The serializer objects that [dict_to_class] hands out. *)
Definition serializer_class (name : string) : pyclass :=
  PyClass "Pyro5.serializers" name
          ["Pyro5.serializers.SerializerBase"; "builtins.object"] None.

Definition new_serializer (name : string) : pyobj :=
  PObject (serializer_class name) [] (Some []) [].

(** What an assignment through a data descriptor does.  The value is
    stored, which gives the instance as it is afterwards; or it is refused,
    with one of the errors that the descriptors of the built-in types
    raise: [TypeError] for a value of a type the attribute does not take,
    [AttributeError] for an attribute that cannot be written,
    [ValueError] or [OverflowError] for a value out of range. *)
Inductive refusal : Type := NotThisType | NotWritable | NotThisValue | TooLarge.

Inductive assignment : Type :=
  | Assigned (o : pyobj)
  | Refused (why : refusal) (msg : string).

Definition refusal_class (why : refusal) : exn_class :=
  match why with
  | NotThisType => TypeError
  | NotWritable => AttributeError
  | NotThisValue => ValueError
  | TooLarge => OverflowError
  end.

Inductive byteorder : Type := LittleEndian | BigEndian.

(** What the native layouts depend on: the byte order of the machine and
    the size of a C [long]. *)
Record platform : Type := Platform {
  byte_order : byteorder;
  sizeof_long : nat
}.

(** What the serializers take from the rest of the process: the modules
    they import that are not part of this file, the clock and the machine. *)
Class Host : Type := {
  (** The attributes of the modules [errors], [builtins] and [sqlite3]
      ([None] when [sqlite3] cannot be imported). *)
  errors : gmap string pyobj;
  builtins : gmap string pyobj;
  sqlite3 : option (gmap string pyobj);
  (** [core.X.__new__(core.X)] followed by
      [x.__setstate_from_dict__(state)], for [X] one of [URI], [Proxy],
      [Daemon]; and [core._ExceptionWrapper(ex)]. *)
  core_setstate_from_dict : string -> pyobj -> result pyobj;
  core_ExceptionWrapper : pyobj -> result pyobj;
  (** The call [exceptiontype( *args )]. *)
  construct : pyclass -> list pyobj -> result pyobj;
  (** The data descriptors of the exception classes, [args] apart.  When
      the classes of [c.__mro__] hold a data descriptor under [name],
      [exception_descriptor c name] is its [__set__], applied to the
      instance and the value: such are [__cause__], [__context__],
      [__traceback__], [__suppress_context__], [__dict__] and [__class__]
      of every exception class, and the members that a built-in exception
      class adds ([errno] of [OSError] and the like).  It is [None] for a
      name that is an ordinary attribute. *)
  exception_descriptor : pyclass -> string
                         -> option (pyobj -> pyobj -> assignment);
  (** [obj.__getstate__()]; [None] when the object has no such method. *)
  getstate : pyobj -> option (result pyobj);
  (** [zlib.compress] and [zlib.decompress]. *)
  zlib_compress : list byte -> list byte;
  zlib_decompress : list byte -> result (list byte);
  (** The machine the native [struct] layouts are those of. *)
  machine : platform;
  (** [obj.timestamp()] of a datetime, as a double; the fields of the
      local time at a POSIX time given as a double (year, month, day, hour,
      minute, second, microsecond). *)
  timestamp : datetime -> result Z;
  localtime : Z -> result (Z * Z * Z * Z * Z * Z * Z);
  (** [obj.isoformat()] of a datetime and of a date; [str(obj)] of a float
      or of an instance. *)
  datetime_isoformat : datetime -> string;
  date_isoformat : Z -> string;
  host_str : pyobj -> string
}.

Section SerializerBase.

Context `{Host}.

Definition PyroError : string := "Pyro5.errors.PyroError".

(** Lines 19-27: the exception classes of [builtins], overridden by the
    [PyroError] classes of [errors], by their short names. *)
Definition classes_below (base : string) (ns : gmap string pyobj)
  : gmap string pyclass :=
  omap (fun t => match t with
                 | PClass c => if issubclass c base then Some c else None
                 | _ => None
                 end) ns.

Definition all_exceptions : gmap string pyclass :=
  classes_below PyroError errors ∪ classes_below BaseException builtins.

(** [getattr(module, name)] *)
Definition module_getattr (ns : gmap string pyobj) (name : string)
  : result pyobj :=
  match ns !! name with
  | Some t => Ok t
  | None => raise AttributeError name
  end.

(** [issubclass(t, base)] for an arbitrary first argument. *)
Definition issubclass_obj (t : pyobj) (base : string) : result (option pyclass) :=
  match t with
  | PClass c => Ok (if issubclass c base then Some c else None)
  | _ => raise TypeError "issubclass() arg 1 must be a class"
  end.

(** [setattr(obj, attr, value)] on an instance.  On an exception, the
    data descriptors of its class come first: [args] stores the tuple of
    the elements of the value, any other descriptor does what the host
    says.  A name without descriptor goes to the instance dictionary, or
    to a declared slot when the instance has no dictionary.  (Data
    descriptors of classes that are no exceptions are not modelled.) *)
Definition setattr (o : pyobj) (attr : pyobj) (value : pyobj) : result pyobj :=
  match attr with
  | PStr name =>
      match o with
      | PObject c args dict slots =>
          let store :=
            match dict with
            | Some d => Ok (PObject c args (Some (attrs_set d name value)) slots)
            | None =>
                if existsb (String.eqb name) (default [] (cls_slots c))
                then Ok (PObject c args None (attrs_set slots name value))
                else raise AttributeError name
            end in
          if issubclass c BaseException then
            if String.eqb name "args"
            then args' ← iterate value; Ok (PObject c args' dict slots)
            else
              match exception_descriptor c name with
              | Some assign =>
                  match assign o value with
                  | Assigned o' => Ok o'
                  | Refused why msg => raise (refusal_class why) msg
                  end
              | None => store
              end
          else store
      | _ => raise AttributeError name
      end
  | _ => raise TypeError "attribute name must be string"
  end.

(** [if hasattr(obj, "_pyroDaemon"): obj._pyroDaemon = None]; an
    assignment that is refused raises. *)
Definition assign_pyroDaemon (o : pyobj) : result pyobj :=
  if hasattr o "_pyroDaemon" then setattr o (PStr "_pyroDaemon") PNone
  else Ok o.

(** The object after that step, which is [o] itself when the assignment
    is refused. *)
Definition clear_pyroDaemon (o : pyobj) : pyobj :=
  if hasattr o "_pyroDaemon" then
    match setattr o (PStr "_pyroDaemon") PNone with
    | Ok o' => o'
    | Err _ => o
    end
  else o.

(** [vars(obj)].  [msgpack.ExtType] is a class over a named tuple that
    declares no slots of its own, so its instances have an instance
    dictionary, which is empty. *)
Definition vars (o : pyobj) : result pydict :=
  match o with
  | PObject _ _ (Some d) _ => Ok (dict_of_attrs d)
  | PExtType _ _ => Ok []
  | _ => raise TypeError "vars() argument must have __dict__ attribute"
  end.

Definition class_tag (o : pyobj) : pyobj := PStr (qualname (type_of o)).

(** [SerializerBase.class_to_dict]; [cls_name] is the name of the
    serializer class the method is called on. *)
Definition class_to_dict (cls_name : string) (reg : registries) (obj : pyobj)
  : result pyobj :=
  match find (fun e => isinstance obj (qualname (fst e)))
             (custom_class_to_dict_registry reg) with
  | Some (_, converter) => converter obj
  | None =>
      if existsb (type_is obj)
           ["builtins.set"; "builtins.dict"; "builtins.tuple"; "builtins.list"]
      then raise ValueError ("can't serialize type " ++ class_str (type_of obj)
                             ++ " into a dict")
      else
        obj ← assign_pyroDaemon obj;
        if isinstance obj BaseException then
          args ← getattr obj "args";
          attributes ← vars obj;
          Ok (PDict [(PStr "__class__", class_tag obj);
                     (PStr "__exception__", PBool true);
                     (PStr "args", args);
                     (PStr "attributes", PDict attributes)])
        else
          let by_vars :=
            match vars obj with
            | Ok value => Ok (PDict (dict_set value "__class__" (class_tag obj)))
            | Err (Raise TypeError _) =>
                match cls_slots (type_of obj) with
                | Some slots =>
                    value ← foldM (fun value slot =>
                                     v ← getattr obj slot;
                                     Ok (dict_set value slot v)) [] slots;
                    Ok (PDict (dict_set value "__class__" (class_tag obj)))
                | None =>
                    raise SerializeError
                      ("don't know how to serialize class "
                       ++ class_str (type_of obj) ++ " using serializer "
                       ++ cls_name
                       ++ ". Give it vars() or an appropriate __getstate__")
                end
            | Err e => Err e
            end in
          match getstate obj with
          | Some (Ok value) =>
              if isinstance value "builtins.dict" then Ok value else by_vars
          | Some (Err (Raise AttributeError _)) | None => by_vars
          | Some (Err e) => Err e
          end
  end.

(** [SerializerBase.make_exception] *)
Definition make_exception (exceptiontype : pyclass) (data : pydict)
  : result pyobj :=
  args ← getitem data "args";
  args ← iterate args;
  ex ← construct exceptiontype args;
  match dict_get data "attributes" with
  | Some attributes =>
      attributes ← items attributes;
      foldM (fun ex kv => setattr ex (fst kv) (snd kv)) ex attributes
  | None => Ok ex
  end.

(** [data.get("__class__", "<unknown>")], decoded when it is [bytes].  A
    name that is not text makes the membership test or a text method
    raise. *)
Definition classname_of (data : pydict) : result string :=
  match dict_get data "__class__" with
  | None => Ok "<unknown>"
  | Some (PStr s) => Ok s
  | Some (PBytes b) => decode_utf8 b
  | Some o =>
      if negb (hashable o) then raise TypeError "unhashable type"
      else
        match o with
        | PTuple l =>
            if existsb (key_is "__") l
            then raise TypeError "can only concatenate str to str"
            else raise AttributeError "startswith"
        | PExtType _ _ => raise AttributeError "startswith"
        | _ => raise TypeError "argument is not iterable"
        end
  end.

(** The last two lines of [dict_to_class]. *)
Definition unsupported (classname : string) : M pyobj :=
  _ ← log_warning ("unsupported serialized class: " ++ classname);
  raiseM SerializeError ("unsupported serialized class: " ++ classname).

(** [l[i]] *)
Definition index {A} (l : list A) (i : nat) : result A :=
  match nth_error l i with
  | Some x => Ok x
  | None => raise IndexError "list index out of range"
  end.

(** [SerializerBase.dict_to_class].  [depth] is the recursion depth that
    is left for the nested call on a wrapped exception. *)
Fixpoint dict_to_class (depth : nat) (reg : registries) (data : pydict)
  : M pyobj :=
  match depth with
  | O => raiseM RecursionError "maximum recursion depth exceeded"
  | S depth =>
  classname ← lift (classname_of data);
  match custom_dict_to_class_registry reg !! classname with
  | Some converter => lift (converter classname data)
  | None =>
  if contains "__" classname then
    raiseM SecurityError
      ("refused to deserialize types with double underscores in their name: "
       ++ classname)
  else if startswith classname "Pyro5.core." then
    if String.eqb classname "Pyro5.core.URI" then
      lift (state ← getitem data "state"; core_setstate_from_dict "URI" state)
    else if String.eqb classname "Pyro5.core.Proxy" then
      lift (state ← getitem data "state"; core_setstate_from_dict "Proxy" state)
    else if String.eqb classname "Pyro5.core.Daemon" then
      lift (state ← getitem data "state"; core_setstate_from_dict "Daemon" state)
    else unsupported classname
  else if startswith classname "Pyro5.util." then
    if String.eqb classname "Pyro5.util.SerpentSerializer" then
      mret (new_serializer "SerpentSerializer")
    else if String.eqb classname "Pyro5.util.MarshalSerializer" then
      mret (new_serializer "MarshalSerializer")
    else if String.eqb classname "Pyro5.util.JsonSerializer" then
      mret (new_serializer "JsonSerializer")
    else if String.eqb classname "Pyro5.util.MsgpackSerializer" then
      mret (new_serializer "MsgpackSerializer")
    else unsupported classname
  else if startswith classname "Pyro5.errors." then
    errortype ← lift (name ← index (str_split "." 2 classname) 2;
                      errortype ← module_getattr errors name;
                      issubclass_obj errortype PyroError);
    match errortype with
    | Some errortype => lift (make_exception errortype data)
    | None => unsupported classname
    end
  else if String.eqb classname "Pyro5.core._ExceptionWrapper" then
    ex ← lift (getitem data "exception");
    ex ← match ex with
         | PDict d =>
             if bool_decide (is_Some (dict_get d "__class__"))
             then dict_to_class depth reg d
             else mret ex
         | _ => mret ex
         end;
    lift (core_ExceptionWrapper ex)
  else if truthy (default (PBool false) (dict_get data "__exception__")) then
    match all_exceptions !! classname with
    | Some exceptiontype => lift (make_exception exceptiontype data)
    | None =>
        match str_split "." 1 classname with
        | [namespace; short_classname] =>
            if String.eqb namespace "builtins"
               || String.eqb namespace "exceptions" then
              exceptiontype ← lift (exceptiontype ←
                                      module_getattr builtins short_classname;
                                    issubclass_obj exceptiontype BaseException);
              match exceptiontype with
              | Some exceptiontype => lift (make_exception exceptiontype data)
              | None => unsupported classname
              end
            else if String.eqb namespace "sqlite3"
                    && endswith short_classname "Error" then
              match sqlite3 with
              | None => raiseM ImportError "No module named 'sqlite3'"
              | Some sqlite3 =>
                  exceptiontype ← lift (exceptiontype ←
                                          module_getattr sqlite3 short_classname;
                                        issubclass_obj exceptiontype BaseException);
                  match exceptiontype with
                  | Some exceptiontype =>
                      lift (make_exception exceptiontype data)
                  | None => unsupported classname
                  end
              end
            else unsupported classname
        | _ => raiseM ValueError
                 "not enough values to unpack (expected 2, got 1)"
        end
    end
  else unsupported classname
  end
  end.

(** [SerializerBase.recreate_classes].  The elements of a set are
    hashable, so none of them is or holds a dict and the set comprehension
    rebuilds the set from elements that come back unchanged. *)
Fixpoint recreate_classes (depth : nat) (reg : registries) (literal : pyobj)
  : M pyobj :=
  match literal with
  | PSet l => PSet <$> mapM (recreate_classes depth reg) l
  | PList l => PList <$> mapM (recreate_classes depth reg) l
  | PTuple l => PTuple <$> mapM (recreate_classes depth reg) l
  | PDict d =>
      if bool_decide (is_Some (dict_get d "__class__"))
      then dict_to_class depth reg d
      else PDict <$> mapM (fun kv => v ← recreate_classes depth reg (snd kv);
                                      mret (fst kv, v)) d
  | _ => mret literal
  end.

End SerializerBase.

(** *** The compression wrapper *)

Section Compression.

Context `{Host}.

(** The [dumps] and [loads] of the serializer at hand. *)
Variable dumps : pyobj -> result (list byte).
Variable loads : list byte -> M pyobj.

(** [SerializerBase.__compressdata] *)
Definition compressdata (data : list byte) (compress : bool)
  : list byte * bool :=
  if negb compress || (length data <? 200)%nat then (data, false)
  else
    let compressed := zlib_compress data in
    if (length compressed <? length data)%nat then (compressed, true)
    else (data, false).

(** [SerializerBase.serializeData] *)
Definition serializeData (data : pyobj) (compress : bool)
  : result (list byte * bool) :=
  data ← dumps data;
  Ok (compressdata data compress).

(** [SerializerBase.deserializeData] *)
Definition deserializeData (data : list byte) (compressed : bool) : M pyobj :=
  data ← lift (if compressed then zlib_decompress data else Ok data);
  loads data.

End Compression.

(** *** Calls through the compression wrapper *)

Section CallCompression.

Context `{Host}.

(** The [dumpsCall] and [loadsCall] of the serializer at hand. *)
Variable dumpsCall : pyobj -> pyobj -> pyobj -> pyobj -> result (list byte).
Variable loadsCall : list byte -> M (pyobj * pyobj * pyobj * pyobj).

(** [SerializerBase.serializeCall] *)
Definition serializeCall (obj method vargs kwargs : pyobj) (compress : bool)
  : result (list byte * bool) :=
  data ← dumpsCall obj method vargs kwargs;
  Ok (compressdata data compress).

(** [SerializerBase.deserializeCall] *)
Definition deserializeCall (data : list byte) (compressed : bool)
  : M (pyobj * pyobj * pyobj * pyobj) :=
  data ← lift (if compressed then zlib_decompress data else Ok data);
  loadsCall data.

End CallCompression.

(** ** [struct]: native layouts *)

Definition byte_of_Z (z : Z) : byte :=
  default Byte.x00 (Byte.of_N (Z.to_N (z mod 256))).

Definition Z_of_byte (b : byte) : Z := Z.of_N (Byte.to_N b).

(** The [n] low bytes of [z], least significant first, and back. *)
Fixpoint to_le (n : nat) (z : Z) : list byte :=
  match n with
  | O => []
  | S n => byte_of_Z z :: to_le n (z / 256)
  end.

Fixpoint of_le (bs : list byte) : Z :=
  match bs with
  | [] => 0
  | b :: bs => Z_of_byte b + 256 * of_le bs
  end.

Section Struct.

Variable plat : platform.

Definition native (bs : list byte) : list byte :=
  match byte_order plat with
  | LittleEndian => bs
  | BigEndian => rev bs
  end.

Definition struct_error {A} : result A :=
  raise StructError "unpack requires a buffer of the size of the format".

(** [struct.pack("d", x)]: the eight bytes of the double in memory. *)
Definition pack_d (x : Z) : list byte := native (to_le 8 x).

(** [struct.pack("dd", x, y)] *)
Definition pack_dd (x y : Z) : list byte := (pack_d x ++ pack_d y)%list.

(** [struct.pack("l", n)]: a signed C long in two's complement. *)
Definition pack_l (n : Z) : result (list byte) :=
  let bits := 8 * Z.of_nat (sizeof_long plat) in
  if (- 2 ^ (bits - 1) <=? n) && (n <? 2 ^ (bits - 1))
  then Ok (native (to_le (sizeof_long plat) (n mod 2 ^ bits)))
  else raise StructError "argument out of range".

(** [struct.unpack("d", data)[0]] *)
Definition unpack_d (data : list byte) : result Z :=
  if Nat.eqb (length data) 8 then Ok (of_le (native data))
  else struct_error.

(** [struct.unpack("dd", data)] *)
Definition unpack_dd (data : list byte) : result (Z * Z) :=
  if Nat.eqb (length data) 16
  then Ok (of_le (native (take 8 data)), of_le (native (drop 8 data)))
  else struct_error.

(** [struct.unpack("l", data)[0]] *)
Definition unpack_l (data : list byte) : result Z :=
  let bits := 8 * Z.of_nat (sizeof_long plat) in
  if Nat.eqb (length data) (sizeof_long plat)
  then let u := of_le (native data) in
       Ok (if u <? 2 ^ (bits - 1) then u else u - 2 ^ bits)
  else struct_error.

End Struct.

(** ** Text of numbers and identifiers *)

Definition digit_char (d : Z) : ascii := ascii_of_N (48 + Z.to_N d).

(** The decimal digits of a natural number, most significant first; the
    bit length bounds the number of digits. *)
Fixpoint digits_of (fuel : nat) (n : Z) (acc : string) : string :=
  match fuel with
  | O => acc
  | S fuel =>
      let acc := String (digit_char (n mod 10)) acc in
      if n <? 10 then acc else digits_of fuel (n / 10) acc
  end.

Definition str_of_nat (n : Z) : string :=
  digits_of (S (Z.to_nat (Z.log2 n))) n "".

(** [str(n)] for an [int]. *)
Definition str_of_int (n : Z) : string :=
  if n <? 0 then String "-" (str_of_nat (- n)) else str_of_nat n.

Definition hex_char (d : Z) : ascii :=
  nth (Z.to_nat d) (list_ascii_of_string "0123456789abcdef") "0"%char.

Fixpoint hex_of (digits : nat) (n : Z) (acc : string) : string :=
  match digits with
  | O => acc
  | S digits => hex_of digits (n / 16) (String (hex_char (n mod 16)) acc)
  end.

(** [str(u)] for a [uuid.UUID] with integer value [n]: 32 hexadecimal
    digits in groups of 8-4-4-4-12. *)
Definition str_of_uuid (n : Z) : string :=
  let hex := hex_of 32 n "" in
  substring 0 8 hex ++ "-" ++ substring 8 4 hex ++ "-" ++ substring 12 4 hex
  ++ "-" ++ substring 16 4 hex ++ "-" ++ substring 20 12 hex.

Definition is_space (b : byte) : bool :=
  byte_in 9 13 b || byte_in 32 32 b.

Definition digit_val (b : byte) : option Z :=
  if byte_in 48 57 b then Some (Z_of_byte b - 48) else None.

Inductive scan_state : Type := AtStart | AfterDigit | AfterUnderscore.

(** The digits of an integer literal: single underscores may separate
    digits, and only white space may follow the last digit. *)
Fixpoint scan_digits (acc : Z) (st : scan_state) (bs : list byte) : option Z :=
  match bs with
  | [] => match st with AfterDigit => Some acc | _ => None end
  | b :: rest =>
      match digit_val b with
      | Some d => scan_digits (10 * acc + d) AfterDigit rest
      | None =>
          match st with
          | AfterDigit =>
              if byte_in 95 95 b then scan_digits acc AfterUnderscore rest
              else if forallb is_space bs then Some acc else None
          | _ => None
          end
      end
  end.

Fixpoint skip_spaces (bs : list byte) : list byte :=
  match bs with
  | b :: rest => if is_space b then skip_spaces rest else bs
  | [] => []
  end.

(** [int(data)] for [bytes]: white space, an optional sign, decimal
    digits, white space. *)
Definition int_of_bytes (data : list byte) : result Z :=
  let body := skip_spaces data in
  let signed :=
    match body with
    | b :: rest =>
        if byte_in 45 45 b then (-1, rest)
        else if byte_in 43 43 b then (1, rest)
        else (1, body)
    | [] => (1, body)
    end in
  match scan_digits 0 AtStart (snd signed) with
  | Some n => Ok (fst signed * n)
  | None => raise ValueError "invalid literal for int() with base 10"
  end.

(** ** Dates, text of values, type replacements *)

(** The first and the last day a [date] can hold, as ordinals. *)
Definition min_ordinal : Z := 1.
Definition max_ordinal : Z := 3652059.

(** [datetime.date.fromordinal(n)]: the argument is taken as a C [int]
    first ([n] is within a C [long] where the serializers call it). *)
Definition date_fromordinal (n : Z) : result pyobj :=
  if n <? - 2 ^ 31
  then raise OverflowError "signed integer is less than minimum"
  else if 2 ^ 31 <=? n
  then raise OverflowError "signed integer is greater than maximum"
  else if (min_ordinal <=? n) && (n <=? max_ordinal) then Ok (PDate n)
  else raise ValueError "ordinal out of range".

Section Hooks.

Context `{Host}.

(** [datetime.datetime.fromtimestamp(t)]: local time, no [tzinfo]. *)
Definition datetime_fromtimestamp (t : Z) : result pyobj :=
  f ← localtime t;
  let '(year, month, day, hour, minute, second, microsecond) := f in
  Ok (PDatetime (DateTime year month day hour minute second microsecond None)).

(** [str(obj)] *)
Definition str (o : pyobj) : string :=
  match o with
  | PNone => "None"
  | PBool b => if b then "True" else "False"
  | PInt n => str_of_int n
  | PStr s => s
  | PUuid n => str_of_uuid n
  | PDecimal text => text
  | PDate d => date_isoformat d
  | _ => host_str o
  end.

(** [self.__type_replacements.get(type(obj), None)], applied when there
    is one.  The table is keyed by the class. *)
Definition replace (type_replacements : gmap string (pyobj -> result pyobj))
    (obj : pyobj) : result pyobj :=
  match type_replacements !! qualname (type_of obj) with
  | Some replacer => replacer obj
  | None => Ok obj
  end.

End Hooks.

(** ** Unpacking and subscripting *)

(** The name of a type as error messages give it. *)
Definition tp_name (o : pyobj) : string :=
  match o with
  | PDatetime _ | PDate _ | PDecimal _ => qualname (type_of o)
  | _ => cls_name (type_of o)
  end.

(** [obj, method, vargs, kwargs = value] *)
Definition unpack4 (value : pyobj) : result (pyobj * pyobj * pyobj * pyobj) :=
  match iterate value with
  | Ok [obj; method; vargs; kwargs] => Ok (obj, method, vargs, kwargs)
  | Ok l =>
      if (length l <? 4)%nat
      then raise ValueError ("not enough values to unpack (expected 4, got "
                             ++ str_of_int (Z.of_nat (length l)) ++ ")")
      else raise ValueError "too many values to unpack (expected 4)"
  | Err _ =>
      raise TypeError ("cannot unpack non-iterable " ++ tp_name value ++ " object")
  end.

(** [data[k]] for a text [k] on the value that a codec hands back. *)
Definition subscript (data : pyobj) (k : string) : result pyobj :=
  match data with
  | PDict d => getitem d k
  | PList _ => raise TypeError "list indices must be integers or slices, not str"
  | PTuple _ | PExtType _ _ =>
      raise TypeError "tuple indices must be integers or slices, not str"
  | PStr _ => raise TypeError "string indices must be integers"
  | PBytes _ | PBytearray _ =>
      raise TypeError "byte indices must be integers or slices, not str"
  | _ => raise TypeError ("'" ++ tp_name data ++ "' object is not subscriptable")
  end.

(** ** The codecs

    The wire documents of marshal, JSON and msgpack are held as the trees
    they denote; the byte grammar of each codec is its library's affair. *)

(** *** [marshal] *)
Module marshal.

(** [marshal.dumps]: the value as it is written, a bytearray as bytes. *)
Fixpoint dumps (o : pyobj) : result pyobj :=
  match o with
  | PNone | PBool _ | PInt _ | PFloat _ | PComplex _ _ | PStr _ | PBytes _ =>
      Ok o
  | PBytearray b => Ok (PBytes b)
  | PList l => PList <$> mapM dumps l
  | PTuple l => PTuple <$> mapM dumps l
  | PSet l => PSet <$> mapM dumps l
  | PDict d =>
      PDict <$> mapM (fun kv => k ← dumps (fst kv);
                                v ← dumps (snd kv);
                                Ok (k, v)) d
  | _ => raise ValueError "unmarshallable object"
  end.

(** [marshal.loads] *)
Definition loads (data : pyobj) : pyobj := data.

(** The nesting that [marshal.dumps] takes before it gives up with
    [ValueError].  The guard protects the stack of the interpreter; [dumps]
    above is the codec without it. *)
Definition MAX_STACK_DEPTH : nat := 2000.

End marshal.

(** *** [json] *)
Module json.

#[warnings="-register-all"]
Inductive value : Type :=
  | Null
  | Bool (b : bool)
  | Int (n : Z)
  | Float (bits : Z)
  | String (s : string)
  | Array (l : list value)
  | Object (members : list (string * value)).

Section Codec.

Context `{Host}.

(** The name of an object member for a dict key. *)
Definition key (k : pyobj) : result string :=
  match k with
  | PStr s => Ok s
  | PBool b => Ok (if b then "true" else "false")
  | PInt n => Ok (str_of_int n)
  | PFloat _ => Ok (host_str k)
  | PNone => Ok "null"
  | _ => raise TypeError "keys must be str, int, float, bool or None"
  end.

(** [json.dumps(o, default=default)]; [depth] is the recursion depth that
    is left.  Every NaN is written as the one token [NaN], which reads back
    as [float("nan")]. *)
Fixpoint dumps (depth : nat) (default : pyobj -> result pyobj) (o : pyobj)
  : result value :=
  match depth with
  | O => raise RecursionError "maximum recursion depth exceeded"
  | S depth =>
      match o with
      | PStr s => Ok (String s)
      | PNone => Ok Null
      | PBool b => Ok (Bool b)
      | PInt n => Ok (Int n)
      | PFloat x => Ok (Float (if is_nan x then quiet_nan else x))
      | PList l | PTuple l => Array <$> mapM (dumps depth default) l
      | PExtType code data =>
          Array <$> mapM (dumps depth default) [PInt code; PBytes data]
      | PDict d =>
          Object <$> mapM (fun kv => k ← key (fst kv);
                                     v ← dumps depth default (snd kv);
                                     Ok (k, v)) d
      | _ => o ← default o; dumps depth default o
      end
  end.

End Codec.

(** [json.loads]: an array is a list, an object a dict in which the last
    of several members of one name counts. *)
Fixpoint loads (v : value) : pyobj :=
  match v with
  | Null => PNone
  | Bool b => PBool b
  | Int n => PInt n
  | Float x => PFloat x
  | String s => PStr s
  | Array l => PList (map loads l)
  | Object members =>
      PDict (fold_left (fun d kv => dict_set d (fst kv) (loads (snd kv)))
                       members [])
  end.

End json.

(** *** [msgpack] *)
Module msgpack.

#[warnings="-register-all"]
Inductive value : Type :=
  | Nil
  | Bool (b : bool)
  | Int (n : Z)
  | Float (bits : Z)
  | Str (s : string)
  | Bin (b : list byte)
  | Array (l : list value)
  | Map (pairs : list (value * value))
  | Ext (code : Z) (data : list byte).

(** [msgpack.ExtType(code, data)] *)
Definition ExtType (code : Z) (data : list byte) : result pyobj :=
  if (0 <=? code) && (code <=? 127) then Ok (PExtType code data)
  else raise ValueError "code must be 0~127".

Definition DEFAULT_RECURSE_LIMIT : nat := 511.

Section Packer.

Variable default : pyobj -> result pyobj.

(** [Packer._pack]: [default] is tried once on an object that has no
    native form, and on an integer outside 64 bits; [levels] is the
    nesting limit plus one. *)
Fixpoint pack (levels : nat) (o : pyobj) : result value :=
  match levels with
  | O => raise ValueError "recursion limit exceeded."
  | S levels =>
      let native (o : pyobj) (otherwise : exn -> result value) :=
        match o with
        | PNone => Ok Nil
        | PBool b => Ok (Bool b)
        | PInt n =>
            if (- 2 ^ 63 <=? n) && (n <? 2 ^ 64) then Ok (Int n)
            else otherwise (Raise OverflowError "Integer value out of range")
        | PFloat x => Ok (Float x)
        | PBytes b | PBytearray b => Ok (Bin b)
        | PStr s => Ok (Str s)
        | PDict d =>
            Map <$> mapM (fun kv => k ← pack levels (fst kv);
                                    v ← pack levels (snd kv);
                                    Ok (k, v)) d
        | PExtType code data => Ok (Ext code data)
        | PList l | PTuple l => Array <$> mapM (pack levels) l
        | _ => otherwise (Raise TypeError "can not serialize object")
        end in
      native o (fun _ => o ← default o; native o Err)
  end.

(** [msgpack.packb(o, use_bin_type=True, default=default)] *)
Definition packb (o : pyobj) : result value :=
  pack (S DEFAULT_RECURSE_LIMIT) o.

End Packer.

Section Unpacker.

Variable object_hook : pydict -> M pyobj.
Variable ext_hook : Z -> list byte -> result pyobj.

(** [msgpack.unpackb(data, encoding="utf-8", object_hook=object_hook,
    ext_hook=ext_hook)]: an array is a list; a map is a dict, filled pair
    by pair as the pairs are unpacked (the last of several values under
    equal keys counts) and then handed to [object_hook].  The keyword
    [encoding] is one of the library before its version 1.0, which takes
    every hashable key ([strict_map_key] is off). *)
Fixpoint unpackb (v : value) : M pyobj :=
  match v with
  | Nil => mret PNone
  | Bool b => mret (PBool b)
  | Int n => mret (PInt n)
  | Float x => mret (PFloat x)
  | Str s => mret (PStr s)
  | Bin b => mret (PBytes b)
  | Array l => PList <$> mapM unpackb l
  | Map pairs =>
      d ← mapM (fun kv => k ← unpackb (fst kv);
                          v ← unpackb (snd kv);
                          if hashable k then mret (k, v)
                          else raiseM TypeError "unhashable type") pairs;
      object_hook (dict_of_pairs d)
  | Ext code data => lift (ext_hook code data)
  end.

End Unpacker.

End msgpack.

(** ** The serializers *)

(** The table of a serializer class that [register_type_replacement]
    fills, keyed by the class. *)
Abbreviation replacements := (gmap string (pyobj -> result pyobj)).

Module MarshalSerializer.
Section Methods.

Context `{Host}.

Definition serializer_id : Z := 3.

(** [MarshalSerializer.class_to_dict] *)
Definition class_to_dict (reg : registries) (obj : pyobj) : result pyobj :=
  match obj with
  | PUuid _ => Ok (PStr (str obj))
  | _ => class_to_dict "MarshalSerializer" reg obj
  end.

(** [MarshalSerializer.dumps] *)
Definition dumps (reg : registries) (data : pyobj) : result pyobj :=
  match marshal.dumps data with
  | Err (Raise ValueError _) | Err (Raise TypeError _) =>
      d ← class_to_dict reg data;
      marshal.dumps d
  | r => r
  end.

(** [MarshalSerializer.loads] *)
Definition loads (depth : nat) (reg : registries) (data : pyobj) : M pyobj :=
  recreate_classes depth reg (marshal.loads data).

(** [MarshalSerializer.dumpsCall]: the four parts as one tuple, written
    by [marshal.dumps] alone. *)
Definition dumpsCall (obj method vargs kwargs : pyobj) : result pyobj :=
  marshal.dumps (PTuple [obj; method; vargs; kwargs]).

(** [MarshalSerializer.loadsCall] *)
Definition loadsCall (depth : nat) (reg : registries) (data : pyobj)
  : M (pyobj * pyobj * pyobj * pyobj) :=
  call ← lift (unpack4 (marshal.loads data));
  let '(obj, method, vargs, kwargs) := call in
  vargs ← recreate_classes depth reg vargs;
  kwargs ← recreate_classes depth reg kwargs;
  mret (obj, method, vargs, kwargs).

End Methods.
End MarshalSerializer.

Module JsonSerializer.
Section Methods.

Context `{Host}.

Definition serializer_id : Z := 2.

(** [JsonSerializer.default].  A test [isinstance(obj, T)] for a built-in
    value class [T] is a match on the value: instances of subclasses of the
    value classes are not among the host values. *)
Definition default (type_replacements : replacements) (reg : registries)
    (obj : pyobj) : result pyobj :=
  obj ← replace type_replacements obj;
  match obj with
  | PSet l => Ok (PTuple l)
  | PUuid _ => Ok (PStr (str obj))
  | PDatetime dt => Ok (PStr (datetime_isoformat dt))
  | PDate d => Ok (PStr (date_isoformat d))
  | PDecimal _ => Ok (PStr (str obj))
  | _ => class_to_dict "JsonSerializer" reg obj
  end.

(** [JsonSerializer.dumps] *)
Definition dumps (depth : nat) (type_replacements : replacements)
    (reg : registries) (data : pyobj) : result json.value :=
  json.dumps depth (default type_replacements reg) data.

(** [JsonSerializer.loads] *)
Definition loads (depth : nat) (reg : registries) (data : json.value)
  : M pyobj :=
  recreate_classes depth reg (json.loads data).

(** [JsonSerializer.dumpsCall] *)
Definition dumpsCall (depth : nat) (type_replacements : replacements)
    (reg : registries) (obj method vargs kwargs : pyobj) : result json.value :=
  json.dumps depth (default type_replacements reg)
    (PDict [(PStr "object", obj); (PStr "method", method);
            (PStr "params", vargs); (PStr "kwargs", kwargs)]).

(** [JsonSerializer.loadsCall] *)
Definition loadsCall (depth : nat) (reg : registries) (data : json.value)
  : M (pyobj * pyobj * pyobj * pyobj) :=
  let data := json.loads data in
  params ← lift (subscript data "params");
  vargs ← recreate_classes depth reg params;
  kwargs ← lift (subscript data "kwargs");
  kwargs ← recreate_classes depth reg kwargs;
  obj ← lift (subscript data "object");
  method ← lift (subscript data "method");
  mret (obj, method, vargs, kwargs).

(** [JsonSerializer.register_type_replacement] *)
Definition register_type_replacement (type_replacements : replacements)
    (object_type : pyclass) (replacement_function : pyobj -> result pyobj)
  : replacements :=
  <[qualname object_type := replacement_function]> type_replacements.

End Methods.
End JsonSerializer.

Module MsgpackSerializer.
Section Methods.

Context `{Host}.

Definition serializer_id : Z := 6.

(** [MsgpackSerializer.default].  The condition [if obj.tzinfo:] takes
    the truth value of the attribute: [None] is false, a [tzinfo] object is
    what its class makes it. *)
Definition default (type_replacements : replacements) (reg : registries)
    (obj : pyobj) : result pyobj :=
  obj ← replace type_replacements obj;
  match obj with
  | PSet l => Ok (PTuple l)
  | PUuid _ => Ok (PStr (str obj))
  | PBytearray b => Ok (PBytes b)
  | PComplex real imag => msgpack.ExtType 0x30 (pack_dd machine real imag)
  | PDatetime dt =>
      if match dt_tzinfo dt with
         | Some tz => tz_truth tz
         | None => false
         end
      then raise SerializeError
                 "msgpack cannot serialize datetime with timezone info"
      else t ← timestamp dt; msgpack.ExtType 0x32 (pack_d machine t)
  | PDate d => data ← pack_l machine d; msgpack.ExtType 0x33 data
  | PDecimal _ => Ok (PStr (str obj))
  | _ =>
      if isinstance_Number obj
      then msgpack.ExtType 0x31 (encode_text (str obj))
      else class_to_dict "MsgpackSerializer" reg obj
  end.

(** [MsgpackSerializer.object_hook] *)
Definition object_hook (depth : nat) (reg : registries) (obj : pydict)
  : M pyobj :=
  if bool_decide (is_Some (dict_get obj "__class__"))
  then dict_to_class depth reg obj
  else mret (PDict obj).

(** [MsgpackSerializer.ext_hook] *)
Definition ext_hook (code : Z) (data : list byte) : result pyobj :=
  if code =? 0x30 then
    c ← unpack_dd machine data;
    Ok (PComplex (fst c) (snd c))
  else if code =? 0x31 then
    PInt <$> int_of_bytes data
  else if code =? 0x32 then
    t ← unpack_d machine data;
    datetime_fromtimestamp t
  else if code =? 0x33 then
    n ← unpack_l machine data;
    date_fromordinal n
  else raise SerializeError ("invalid ext code for msgpack: " ++ str (PInt code)).

(** [MsgpackSerializer.dumps] *)
Definition dumps (type_replacements : replacements) (reg : registries)
    (data : pyobj) : result msgpack.value :=
  msgpack.packb (default type_replacements reg) data.

(** [MsgpackSerializer.loads] *)
Definition loads (depth : nat) (reg : registries) (data : msgpack.value)
  : M pyobj :=
  msgpack.unpackb (object_hook depth reg) ext_hook data.

(** [MsgpackSerializer.dumpsCall] *)
Definition dumpsCall (type_replacements : replacements) (reg : registries)
    (obj method vargs kwargs : pyobj) : result msgpack.value :=
  msgpack.packb (default type_replacements reg)
                (PTuple [obj; method; vargs; kwargs]).

(** [MsgpackSerializer.loadsCall]: [unpackb] is called without
    [ext_hook], so an extension value is built by [msgpack.ExtType]. *)
Definition loadsCall (depth : nat) (reg : registries) (data : msgpack.value)
  : M (pyobj * pyobj * pyobj * pyobj) :=
  call ← msgpack.unpackb (object_hook depth reg) msgpack.ExtType data;
  lift (unpack4 call).

(** [MsgpackSerializer.register_type_replacement] *)
Definition register_type_replacement (type_replacements : replacements)
    (object_type : pyclass) (replacement_function : pyobj -> result pyobj)
  : replacements :=
  <[qualname object_type := replacement_function]> type_replacements.

End Methods.
End MsgpackSerializer.

Module SerpentSerializer.
Section Methods.

Context `{Host}.

(** The built-in [float] applied to a value. *)
Variable float : pyobj -> result pyobj.

Definition serializer_id : Z := 1.

(** [SerpentSerializer.dict_to_class]: serpent writes a float that has no
    literal as a record with the class name ["float"]. *)
Definition dict_to_class (depth : nat) (reg : registries) (data : pydict)
  : M pyobj :=
  if match dict_get data "__class__" with
     | Some (PStr s) => String.eqb s "float"
     | _ => false
     end
  then lift (value ← getitem data "value"; float value)
  else dict_to_class depth reg data.

(** The inherited [recreate_classes]: it reaches [dict_to_class] through
    [self], which is the method of this class. *)
Fixpoint recreate_classes (depth : nat) (reg : registries) (literal : pyobj)
  : M pyobj :=
  match literal with
  | PSet l => PSet <$> mapM (recreate_classes depth reg) l
  | PList l => PList <$> mapM (recreate_classes depth reg) l
  | PTuple l => PTuple <$> mapM (recreate_classes depth reg) l
  | PDict d =>
      if bool_decide (is_Some (dict_get d "__class__"))
      then dict_to_class depth reg d
      else PDict <$> mapM (fun kv => v ← recreate_classes depth reg (snd kv);
                                      mret (fst kv, v)) d
  | _ => mret literal
  end.

(** [serpent.dumps(data, module_in_classname=True)] and [serpent.loads],
    which are the library's affair. *)
Variable serpent_dumps : pyobj -> result (list byte).
Variable serpent_loads : list byte -> result pyobj.

(** [SerpentSerializer.dumps] *)
Definition dumps (data : pyobj) : result (list byte) := serpent_dumps data.

(** [SerpentSerializer.loads] *)
Definition loads (depth : nat) (reg : registries) (data : list byte) : M pyobj :=
  literal ← lift (serpent_loads data);
  recreate_classes depth reg literal.

(** [SerpentSerializer.dumpsCall] *)
Definition dumpsCall (obj method vargs kwargs : pyobj) : result (list byte) :=
  serpent_dumps (PTuple [obj; method; vargs; kwargs]).

(** [SerpentSerializer.loadsCall] *)
Definition loadsCall (depth : nat) (reg : registries) (data : list byte)
  : M (pyobj * pyobj * pyobj * pyobj) :=
  call ← lift (literal ← serpent_loads data; unpack4 literal);
  let '(obj, method, vargs, kwargs) := call in
  vargs ← recreate_classes depth reg vargs;
  kwargs ← recreate_classes depth reg kwargs;
  mret (obj, method, vargs, kwargs).

End Methods.
End SerpentSerializer.

(** ** The serializers that are supported *)

(** The outcome of the imports at the end of the module: whether [json]
    and [msgpack] can be imported, and the [__version__] of [serpent] when
    it can. *)
Record imports : Type := Imports {
  import_json : bool;
  import_serpent : option string;
  import_msgpack : bool
}.

Record supported : Type := Supported {
  _serializers : gmap string pyobj;
  _serializers_by_id : gmap Z pyobj
}.

(** [_ser = C(); _serializers[name] = _ser;
    _serializers_by_id[_ser.serializer_id] = _ser] *)
Definition add_serializer (t : supported) (name ser : string) (serializer_id : Z)
  : supported :=
  Supported (<[name := new_serializer ser]> (_serializers t))
            (<[serializer_id := new_serializer ser]> (_serializers_by_id t)).

(** [a < b] on tuples of integers. *)
Fixpoint tuple_lt (a b : list Z) : bool :=
  match a, b with
  | _, [] => false
  | [], _ :: _ => true
  | x :: a, y :: b =>
      if x <? y then true else if y <? x then false else tuple_lt a b
  end.

Section Supported.

(** The built-in [int] applied to a text. *)
Variable int : string -> result Z.

(** Lines 504-508: the version of serpent as a tuple of integers. *)
Definition serpent_version (version : string) : result (list Z) :=
  let ver :=
    if contains "-" version
    then List.hd "" (str_split "-" 1 version)
    else version in
  mapM int (str_split "." (String.length ver) ver).

(** Lines 491-524.  An exception other than [ImportError] ends the import
    of the module. *)
Definition supported_serializers (env : imports) : M supported :=
  let t := add_serializer (Supported ∅ ∅) "marshal" "MarshalSerializer"
                          MarshalSerializer.serializer_id in
  let t := if import_json env
           then add_serializer t "json" "JsonSerializer"
                               JsonSerializer.serializer_id
           else t in
  t ← match import_serpent env with
      | Some version =>
          ver ← lift (serpent_version version);
          if tuple_lt ver [1; 23]
          then raiseM (OtherError "builtins.RuntimeError")
                      "requires serpent 1.23 or better"
          else mret (add_serializer t "serpent" "SerpentSerializer"
                                    SerpentSerializer.serializer_id)
      | None =>
          _ ← log_warning "serpent serializer is not available"; mret t
      end;
  mret (if import_msgpack env
        then add_serializer t "msgpack" "MsgpackSerializer"
                            MsgpackSerializer.serializer_id
        else t).

End Supported.

(** [get_serializer] *)
Definition get_serializer (t : supported) (name : string) : result pyobj :=
  match _serializers t !! name with
  | Some ser => Ok ser
  | None =>
      raise SerializeError
            ("serializer '" ++ name ++ "' is unknown or not available")
  end.

(** [get_serializer_by_id] *)
Definition get_serializer_by_id (t : supported) (sid : Z) : result pyobj :=
  match _serializers_by_id t !! sid with
  | Some ser => Ok ser
  | None =>
      raise SerializeError
            ("no serializer available for id " ++ str_of_int sid)
  end.

(** ** A sample host

    A process in which the [errors] module holds the framework exceptions
    that the serializers name, [builtins] a few exception classes next to
    other attributes, and exceptions are built by the constructor of
    [BaseException], which keeps its arguments in [args]. *)
Module Sample.

Definition Exception_bases : list string :=
  ["builtins.Exception"; "builtins.BaseException"; "builtins.object"].

Definition error_class (name : string) (bases : list string) : pyclass :=
  PyClass "Pyro5.errors" name (bases ++ "Pyro5.errors.PyroError" :: Exception_bases)%list None.

Definition errors_module : gmap string pyobj :=
  list_to_map
    [("PyroError", PClass (PyClass "Pyro5.errors" "PyroError" Exception_bases None));
     ("CommunicationError", PClass (error_class "CommunicationError" []));
     ("ProtocolError",
      PClass (error_class "ProtocolError" ["Pyro5.errors.CommunicationError"]));
     ("SerializeError",
      PClass (error_class "SerializeError" ["Pyro5.errors.ProtocolError";
                                            "Pyro5.errors.CommunicationError"]));
     ("SecurityError", PClass (error_class "SecurityError" []))].

Definition builtins_module : gmap string pyobj :=
  list_to_map
    [("BaseException",
      PClass (builtin_class "BaseException" ["builtins.object"]));
     ("Exception",
      PClass (builtin_class "Exception"
                            ["builtins.BaseException"; "builtins.object"]));
     ("ValueError", PClass (builtin_class "ValueError" Exception_bases));
     ("KeyError",
      PClass (builtin_class "KeyError" ("builtins.LookupError" :: Exception_bases)));
     ("int", PClass (builtin_class "int" ["builtins.object"]));
     ("len", PFunction "len")].

(** [BaseException.__new__] and [__init__]. *)
Definition new_exception (c : pyclass) (args : list pyobj) : result pyobj :=
  Ok (PObject c args (Some []) []).

(** The data descriptors that every exception class has from
    [BaseException] and [object].  [__cause__] and [__context__] take
    [None] or an exception, [__traceback__] takes [None] (a traceback is
    not among the host values), [__suppress_context__] a boolean,
    [__dict__] a dict, of which the entries under text keys become the
    attributes, and [__class__] an exception class.  What they store, the
    instance dictionary apart, is kept with the slots. *)
Definition is_exception (o : pyobj) : bool :=
  match o with
  | PObject c _ _ _ => issubclass c "builtins.BaseException"
  | _ => false
  end.

Definition none_or_exception (o : pyobj) : bool :=
  match o with
  | PNone => true
  | _ => is_exception o
  end.

Definition store_member (o : pyobj) (name : string) (value : pyobj) : pyobj :=
  match o with
  | PObject c args dict slots => PObject c args dict (attrs_set slots name value)
  | _ => o
  end.

Definition text_entries (d : pydict) : list (string * pyobj) :=
  flat_map (fun kv => match fst kv with
                      | PStr s => [(s, snd kv)]
                      | _ => []
                      end) d.

Definition base_descriptor (name : string)
  : option (pyobj -> pyobj -> assignment) :=
  if String.eqb name "__cause__" then
    Some (fun o value =>
            if none_or_exception value
            then Assigned (store_member (store_member o "__cause__" value)
                                        "__suppress_context__" (PBool true))
            else Refused NotThisType
                   "exception cause must be None or derive from BaseException")
  else if String.eqb name "__context__" then
    Some (fun o value =>
            if none_or_exception value
            then Assigned (store_member o "__context__" value)
            else Refused NotThisType
                   "exception context must be None or derive from BaseException")
  else if String.eqb name "__traceback__" then
    Some (fun o value =>
            match value with
            | PNone => Assigned (store_member o "__traceback__" PNone)
            | _ => Refused NotThisType "__traceback__ must be a traceback or None"
            end)
  else if String.eqb name "__suppress_context__" then
    Some (fun o value =>
            match value with
            | PBool _ => Assigned (store_member o "__suppress_context__" value)
            | _ => Refused NotThisType "attribute value type must be bool"
            end)
  else if String.eqb name "__dict__" then
    Some (fun o value =>
            match o, value with
            | PObject c args _ slots, PDict d =>
                Assigned (PObject c args (Some (text_entries d)) slots)
            | _, _ => Refused NotThisType "__dict__ must be set to a dictionary"
            end)
  else if String.eqb name "__class__" then
    Some (fun o value =>
            match o, value with
            | PObject _ args dict slots, PClass c =>
                if issubclass c "builtins.BaseException"
                then Assigned (PObject c args dict slots)
                else Refused NotThisType
                       "__class__ assignment: object layout differs"
            | _, _ => Refused NotThisType "__class__ must be set to a class"
            end)
  else None.

#[local] Instance host : Host := {|
  errors := errors_module;
  builtins := builtins_module;
  sqlite3 := None;
  core_setstate_from_dict name state :=
    Ok (PObject (PyClass "Pyro5.core" name ["builtins.object"] None) []
                (Some [("state", state)]) []);
  core_ExceptionWrapper ex :=
    Ok (PObject (PyClass "Pyro5.core" "_ExceptionWrapper" ["builtins.object"] None)
                [] (Some [("exception", ex)]) []);
  construct := new_exception;
  exception_descriptor _ := base_descriptor;
  getstate _ := None;
  zlib_compress data := data;
  zlib_decompress data := Ok data;
  machine := Platform LittleEndian 8;
  timestamp _ := Ok 0;
  localtime _ := Ok (1970, 1, 1, 0, 0, 0, 0);
  datetime_isoformat _ := "1970-01-01T00:00:00";
  date_isoformat _ := "1970-01-01";
  host_str _ := "<object>"
|}.

(** The records and values that the examples below use. *)
Definition protocol_error_record : pydict :=
  [(PStr "__class__", PStr "Pyro5.errors.ProtocolError");
   (PStr "args", PTuple [PStr "bad request"]);
   (PStr "attributes", PDict [(PStr "extra", PInt 42)])].

Definition dotless_exception_record : pydict :=
  [(PStr "__class__", PStr "Foo"); (PStr "__exception__", PBool true)].

Definition fifty_bytes : list byte := repeat "x"%byte 50.

Definition sample_value : pyobj :=
  PDict [(PStr "ids", PSet [PInt 1; PInt (2 ^ 70)]);
         (PStr "names", PList [PStr "a"; PNone; PTuple [PBool true]])].

(** The binary64 pattern of [(-1)^sign * (1 + fraction / 2^52) * 2^exponent]. *)
Definition double (sign : bool) (exponent fraction : Z) : Z :=
  (if sign then 2 ^ 63 else 0) + (exponent + 1023) * 2 ^ 52 + fraction.

(** [3.0 = 1.5 * 2^1] and [4.0 = 1.0 * 2^2]. *)
Definition three : Z := double false 1 (2 ^ 51).
Definition four : Z := double false 2 0.

(** A mapping with keys that are no text: [{7: 3.0, 4.0: b"a", None:
    [2 ** 70], "names": [True]}]. *)
Definition keyed_value : pyobj :=
  PDict [(PInt 7, PFloat three);
         (PFloat four, PBytes ["a"%byte]);
         (PNone, PList [PInt (2 ^ 70)]);
         (PStr "names", PList [PBool true])].

(** The host [h] on another machine, and with another codec in the place
    of zlib. *)
Definition on_machine (h : Host) (plat : platform) : Host := {|
  errors := @errors h;
  builtins := @builtins h;
  sqlite3 := @sqlite3 h;
  core_setstate_from_dict := @core_setstate_from_dict h;
  core_ExceptionWrapper := @core_ExceptionWrapper h;
  construct := @construct h;
  exception_descriptor := @exception_descriptor h;
  getstate := @getstate h;
  zlib_compress := @zlib_compress h;
  zlib_decompress := @zlib_decompress h;
  machine := plat;
  timestamp := @timestamp h;
  localtime := @localtime h;
  datetime_isoformat := @datetime_isoformat h;
  date_isoformat := @date_isoformat h;
  host_str := @host_str h
|}.

Definition with_codec (h : Host) (compress : list byte -> list byte)
    (decompress : list byte -> result (list byte)) : Host := {|
  errors := @errors h;
  builtins := @builtins h;
  sqlite3 := @sqlite3 h;
  core_setstate_from_dict := @core_setstate_from_dict h;
  core_ExceptionWrapper := @core_ExceptionWrapper h;
  construct := @construct h;
  exception_descriptor := @exception_descriptor h;
  getstate := @getstate h;
  zlib_compress := compress;
  zlib_decompress := decompress;
  machine := @machine h;
  timestamp := @timestamp h;
  localtime := @localtime h;
  datetime_isoformat := @datetime_isoformat h;
  date_isoformat := @date_isoformat h;
  host_str := @host_str h
|}.

(** A toy codec: a run of one byte is written as the byte and the length
    of the run in two bytes, anything else is kept as it is. *)
Definition run_compress (data : list byte) : list byte :=
  match data with
  | b :: rest =>
      if forallb (Byte.eqb b) rest
      then [b; byte_of_Z (Z.of_nat (length data) / 256);
            byte_of_Z (Z.of_nat (length data))]
      else data
  | [] => []
  end.

Definition run_decompress (data : list byte) : result (list byte) :=
  match data with
  | [b; hi; lo] => Ok (repeat b (Z.to_nat (256 * Z_of_byte hi + Z_of_byte lo)))
  | _ => Ok data
  end.

(** The host [h] with another constructor call; and a constructor that
    builds exceptions as [new_exception] does and raises for any other
    class. *)
Definition with_construct (h : Host)
    (call : pyclass -> list pyobj -> result pyobj) : Host := {|
  errors := @errors h;
  builtins := @builtins h;
  sqlite3 := @sqlite3 h;
  core_setstate_from_dict := @core_setstate_from_dict h;
  core_ExceptionWrapper := @core_ExceptionWrapper h;
  construct := call;
  exception_descriptor := @exception_descriptor h;
  getstate := @getstate h;
  zlib_compress := @zlib_compress h;
  zlib_decompress := @zlib_decompress h;
  machine := @machine h;
  timestamp := @timestamp h;
  localtime := @localtime h;
  datetime_isoformat := @datetime_isoformat h;
  date_isoformat := @date_isoformat h;
  host_str := @host_str h
|}.

Definition guarded_construct (c : pyclass) (args : list pyobj) : result pyobj :=
  if issubclass c "builtins.BaseException"
     || issubclass c "Pyro5.errors.PyroError"
  then new_exception c args
  else raise (OtherError "constructed") (qualname c).

(** [int] on a text of ASCII characters. *)
Definition int_of_ascii (s : string) : result Z := int_of_bytes (encode_text s).

(** More values for the examples. *)
Definition protocol_error (attributes : list (string * pyobj)) : pyobj :=
  PObject (error_class "ProtocolError" ["Pyro5.errors.CommunicationError"])
          [PStr "bad request"] (Some attributes) [].

Definition circle : pyobj :=
  PObject (PyClass "shapes" "Circle" ["builtins.object"] None) []
          (Some [("radius", PInt 2); ("_pyroDaemon", PStr "daemon")]) [].

Definition point : pyobj :=
  PObject (PyClass "shapes" "Point" ["builtins.object"] (Some ["x"; "y"])) []
          None [("x", PInt 1); ("y", PInt 2)].

Definition three_hundred_bytes : list byte := repeat "x"%byte 300.

End Sample.

(** ** Vocabulary of the properties *)

(** A computation that does not end in [SecurityError]. *)
Definition no_security {A} (r : result A) : Prop :=
  forall msg, r <> Err (Raise SecurityError msg).

(** The ways in which lines 224-248 of [dict_to_class] find the
    exception type of a record by its name: a [PyroError] class of [errors]
    for [Pyro5.errors.<name>]; and, for a record with a true
    ["__exception__"] flag, the class that [all_exceptions] holds under the
    name, an exception class of [builtins] for [builtins.<short>] or
    [exceptions.<short>], and an exception class of [sqlite3] for
    [sqlite3.<short>] when [<short>] ends in ["Error"]. *)
Inductive resolves `{Host} (data : pydict) : string -> pyclass -> Prop :=
  | resolves_framework name c :
      contains "__" name = false ->
      errors !! name = Some (PClass c) ->
      issubclass c PyroError = true ->
      resolves data ("Pyro5.errors." ++ name) c
  | resolves_known classname c :
      truthy (default (PBool false) (dict_get data "__exception__")) = true ->
      contains "__" classname = false ->
      startswith classname "Pyro5.core." = false ->
      startswith classname "Pyro5.util." = false ->
      startswith classname "Pyro5.errors." = false ->
      all_exceptions !! classname = Some c ->
      resolves data classname c
  | resolves_builtin namespace short c :
      truthy (default (PBool false) (dict_get data "__exception__")) = true ->
      namespace = "builtins" \/ namespace = "exceptions" ->
      contains "__" short = false ->
      all_exceptions !! (namespace ++ "." ++ short) = None ->
      builtins !! short = Some (PClass c) ->
      issubclass c BaseException = true ->
      resolves data (namespace ++ "." ++ short) c
  | resolves_sqlite3 short module c :
      truthy (default (PBool false) (dict_get data "__exception__")) = true ->
      contains "__" short = false ->
      endswith short "Error" = true ->
      all_exceptions !! ("sqlite3." ++ short) = None ->
      sqlite3 = Some module ->
      module !! short = Some (PClass c) ->
      issubclass c BaseException = true ->
      resolves data ("sqlite3." ++ short) c.

(** The instance dictionary after the attributes [named] have been set
    one after the other. *)
Definition set_attributes (d named : list (string * pyobj))
  : list (string * pyobj) :=
  fold_left (fun d kv => attrs_set d (fst kv) (snd kv)) named d.

(** The text [s] is a decimal numeral of value [v]. *)
Inductive numeral : string -> Z -> Prop :=
  | numeral_digit d :
      0 <= d < 10 -> numeral (String (digit_char d) "") d
  | numeral_snoc s v d :
      numeral s v -> 0 <= d < 10 ->
      numeral (s ++ String (digit_char d) "") (10 * v + d).

(** The nesting height of a value: one for a scalar, one more than its
    highest element for a container. *)
Fixpoint height (v : pyobj) : nat :=
  match v with
  | PList l | PTuple l | PSet l => S (list_max (map height l))
  | PDict d =>
      S (list_max (map (fun kv => Nat.max (height (fst kv)) (height (snd kv))) d))
  | _ => 1
  end.

(** The value with every set and every tuple turned into the list of its
    elements, in their order. *)
Fixpoint listed (v : pyobj) : pyobj :=
  match v with
  | PList l | PTuple l | PSet l => PList (map listed l)
  | PDict d => PDict (map (fun kv => (fst kv, listed (snd kv))) d)
  | _ => v
  end.

(** A text key other than the class tag. *)
Definition plain_key (k : pyobj) : bool :=
  match k with
  | PStr s => negb (String.eqb s "__class__")
  | _ => false
  end.

Definition same_key (k k' : pyobj) : bool :=
  match k with
  | PStr s => key_is s k'
  | _ => false
  end.

Fixpoint unique_keys (d : pydict) : bool :=
  match d with
  | [] => true
  | (k, _) :: rest =>
      negb (existsb (fun kv => same_key k (fst kv)) rest) && unique_keys rest
  end.

(** The values of the canonical grammar that carry no class tag: [None],
    booleans, integers, text, byte strings when [bytes_ok], and lists,
    tuples, sets and mappings of such values, a mapping with pairwise
    different text keys. *)
Fixpoint plain (bytes_ok : bool) (v : pyobj) : bool :=
  match v with
  | PNone | PBool _ | PInt _ | PStr _ => true
  | PBytes _ => bytes_ok
  | PList l | PTuple l | PSet l => forallb (plain bytes_ok) l
  | PDict d =>
      forallb (fun kv => plain_key (fst kv) && plain bytes_ok (snd kv)) d
      && unique_keys d
  | _ => false
  end.

(** *** The canonical grammar *)

(** A dict as Python has it: no two keys are equal. *)
Fixpoint distinct_keys (d : pydict) : bool :=
  match d with
  | [] => true
  | (k, _) :: rest =>
      forallb (fun kv => negb (key_eq k (fst kv))) rest && distinct_keys rest
  end.

Definition scalar (v : pyobj) : bool :=
  match v with
  | PNone | PBool _ | PInt _ | PFloat _ | PStr _ | PBytes _ => true
  | _ => false
  end.

(** The three codecs that are modelled. *)
Inductive format : Type := Marshal | Json | Msgpack.

(** The keys that a format gives back as they were: marshal any key,
    msgpack a scalar (an array comes back as a list, which is no key), JSON
    a text (any other key is written as text). *)
Definition key_for (f : format) (k : pyobj) : bool :=
  match f with
  | Marshal => hashable k
  | Msgpack => scalar k
  | Json => match k with PStr _ => true | _ => false end
  end.

(** The values of the canonical grammar that carry no class tag, as far as
    format [f] takes them: [None], booleans, integers, floats (for JSON any
    but a NaN, which JSON writes as one token whatever its bits), text,
    byte strings (not for JSON, which has no form for them), and lists,
    tuples, sets and mappings of such values, a mapping without the key
    ["__class__"] and with keys that [f] gives back. *)
Fixpoint canonical (f : format) (v : pyobj) : bool :=
  match v with
  | PNone | PBool _ | PInt _ | PStr _ => true
  | PFloat x => match f with Json => negb (is_nan x) | _ => true end
  | PBytes _ => match f with Json => false | _ => true end
  | PList l | PTuple l | PSet l => forallb (canonical f) l
  | PDict d =>
      forallb (fun kv => key_for f (fst kv) && canonical f (fst kv)
                         && canonical f (snd kv)) d
      && distinct_keys d
      && negb (bool_decide (is_Some (dict_get d "__class__")))
  | _ => false
  end.

(** Whether a value holds a set or a tuple. *)
Fixpoint has_set_or_tuple (v : pyobj) : bool :=
  match v with
  | PTuple _ | PSet _ => true
  | PList l => existsb has_set_or_tuple l
  | PDict d => existsb (fun kv => has_set_or_tuple (snd kv)) d
  | _ => false
  end.

(** The JSON document of a value of the grammar. *)
Fixpoint to_json (v : pyobj) : json.value :=
  match v with
  | PBool b => json.Bool b
  | PInt n => json.Int n
  | PFloat x => json.Float x
  | PStr s => json.String s
  | PList l | PTuple l | PSet l => json.Array (map to_json l)
  | PDict d =>
      json.Object (map (fun kv => (match fst kv with PStr s => s | _ => "" end,
                                   to_json (snd kv))) d)
  | _ => json.Null
  end.

(** The msgpack document of a value of the grammar. *)
Fixpoint to_msgpack (v : pyobj) : msgpack.value :=
  match v with
  | PBool b => msgpack.Bool b
  | PInt n =>
      if (- 2 ^ 63 <=? n) && (n <? 2 ^ 64) then msgpack.Int n
      else msgpack.Ext 0x31 (encode_text (str_of_int n))
  | PFloat x => msgpack.Float x
  | PStr s => msgpack.Str s
  | PBytes b => msgpack.Bin b
  | PList l | PTuple l | PSet l => msgpack.Array (map to_msgpack l)
  | PDict d =>
      msgpack.Map (map (fun kv => (to_msgpack (fst kv), to_msgpack (snd kv))) d)
  | _ => msgpack.Nil
  end.

(** Membership in a list that is written out. *)
Ltac elem_of_literal := apply list_elem_of_In; simpl; tauto.

(** Whether no dict in the value, at any depth of lists, tuples, sets and
    dict values, has the key ["__class__"]. *)
Fixpoint untagged (v : pyobj) : bool :=
  match v with
  | PList l | PTuple l | PSet l => forallb untagged l
  | PDict d =>
      negb (bool_decide (is_Some (dict_get d "__class__")))
      && forallb (fun kv => untagged (snd kv)) d
  | _ => true
  end.

(** The value as [MsgpackSerializer.loadsCall] hands it back: as [listed],
    and with an integer outside 64 bits left as the extension value it was
    written as. *)
Fixpoint listed_ext (v : pyobj) : pyobj :=
  match v with
  | PInt n =>
      if (- 2 ^ 63 <=? n) && (n <? 2 ^ 64) then v
      else PExtType 0x31 (encode_text (str_of_int n))
  | PList l | PTuple l | PSet l => PList (map listed_ext l)
  | PDict d => PDict (map (fun kv => (fst kv, listed_ext (snd kv))) d)
  | _ => v
  end.

(** Whether every integer of the value fits the 64-bit forms of msgpack. *)
Fixpoint fits_int64 (v : pyobj) : bool :=
  match v with
  | PInt n => (- 2 ^ 63 <=? n) && (n <? 2 ^ 64)
  | PList l | PTuple l | PSet l => forallb fits_int64 l
  | PDict d => forallb (fun kv => fits_int64 (snd kv)) d
  | _ => true
  end.

(** The values that [json.dumps] writes without calling [default]. *)
Fixpoint json_native (v : pyobj) : bool :=
  match v with
  | PNone | PBool _ | PInt _ | PFloat _ | PStr _ => true
  | PList l | PTuple l => forallb json_native l
  | PDict d => forallb (fun kv => json_native (snd kv)) d
  | _ => false
  end.

(** The values that [msgpack.packb] writes without calling [default]. *)
Fixpoint msgpack_native (v : pyobj) : bool :=
  match v with
  | PNone | PBool _ | PFloat _ | PStr _ | PBytes _ | PBytearray _
  | PExtType _ _ => true
  | PInt n => (- 2 ^ 63 <=? n) && (n <? 2 ^ 64)
  | PList l | PTuple l => forallb msgpack_native l
  | PDict d =>
      forallb (fun kv => msgpack_native (fst kv) && msgpack_native (snd kv)) d
  | _ => false
  end.

(** The two ways a reconstruction ends: with nothing logged, or with the
    warning and the error of the last two lines of [dict_to_class]. *)
Definition quiet_or_unsupported (classname : string) (m : M pyobj) : Prop :=
  log_of m = []
  \/ m = Logged ["unsupported serialized class: " ++ classname]
                (raise SerializeError
                       ("unsupported serialized class: " ++ classname)).

(** A computation that does not end in an exception of class [c]. *)
Definition never_raises (c : exn_class) {A} (r : result A) : Prop :=
  forall msg, r <> Err (Raise c msg).

(** * Properties *)

(** ** Text *)

Lemma startswith_app s p : startswith s p = true -> exists r, s = (p ++ r)%string.
Proof.
  revert s. induction p as [|c p IH]; intros s Hs; simpl in *.
  - now exists s.
  - destruct s as [|d s]; simpl in Hs; [discriminate|].
    destruct (Ascii.eqb_spec c d) as [->|]; [|discriminate].
    destruct (IH _ Hs) as [r ->]. now exists r.
Qed.

Lemma startswith_weaken s sub r :
  startswith s sub = true -> startswith (s ++ r) sub = true.
Proof.
  revert s. induction sub as [|c sub IH]; intros s Hs; simpl in *; [easy|].
  destruct s as [|d s]; simpl in *; [discriminate|].
  destruct (Ascii.eqb c d); [now apply IH | discriminate].
Qed.

Lemma contains_app sub s r :
  contains sub s = true -> contains sub (s ++ r) = true.
Proof.
  induction s as [|d s IH]; intros Hs.
  - destruct sub; simpl in Hs; [|discriminate].
    destruct r; reflexivity.
  - change (contains sub (String d s))
      with (startswith (String d s) sub || contains sub s) in Hs.
    change (contains sub (String d s ++ r))
      with (startswith (String d s ++ r) sub || contains sub (s ++ r)).
    apply orb_true_iff in Hs as [Hs|Hs]; apply orb_true_iff.
    + left. now apply startswith_weaken.
    + right. now apply IH.
Qed.

Lemma startswith_contains sub s p :
  startswith s p = true -> contains sub p = true -> contains sub s = true.
Proof.
  intros Hs Hp. destruct (startswith_app _ _ Hs) as [r ->].
  now apply contains_app.
Qed.

Lemma str_partition_absent sep s :
  contains (String sep "") s = false -> str_partition sep s = (s, None).
Proof.
  induction s as [|c s IH]; intros Hs; [reflexivity|].
  change (contains (String sep "") (String c s))
    with (startswith (String c s) (String sep "") || contains (String sep "") s)
    in Hs.
  apply orb_false_iff in Hs as [Hc Hs]. simpl in Hc.
  rewrite Ascii.eqb_sym in Hc. simpl.
  destruct (Ascii.eqb c sep); [discriminate|]. now rewrite IH.
Qed.

Lemma str_split_absent sep n s :
  contains (String sep "") s = false -> str_split sep n s = [s].
Proof.
  intros Hs. destruct n; simpl; [reflexivity|].
  now rewrite str_partition_absent.
Qed.

Lemma string_app_cons c s t :
  (String c s ++ t)%string = String c (s ++ t)%string.
Proof. reflexivity. Qed.

Lemma string_app_assoc s t u : ((s ++ t) ++ u)%string = (s ++ t ++ u)%string.
Proof.
  induction s as [|c s IH]; [reflexivity|].
  now rewrite !string_app_cons, IH.
Qed.

Lemma string_app_nil_r s : (s ++ "")%string = s.
Proof.
  induction s as [|c s IH]; [reflexivity|]. now rewrite string_app_cons, IH.
Qed.

(** ** The two monads *)

Lemma lift_bind {A B} (a : A) (k : A -> M B) : lift (Ok a) ≫= k = k a.
Proof. unfold lift, mbind, M_bind; simpl. now destruct (k a). Qed.

Lemma lift_bind_err {A B} (e : exn) (k : A -> M B) :
  lift (Err e) ≫= k = lift (Err e).
Proof. reflexivity. Qed.

(** ** Native layouts *)

Lemma Z_of_byte_range b : 0 <= Z_of_byte b < 256.
Proof.
  unfold Z_of_byte. pose proof (Byte.to_N_bounded b). lia.
Qed.

Lemma Z_of_byte_of_Z z : Z_of_byte (byte_of_Z z) = z mod 256.
Proof.
  unfold Z_of_byte, byte_of_Z.
  pose proof (Z.mod_pos_bound z 256 eq_refl) as Hb.
  destruct (Byte.of_N (Z.to_N (z mod 256))) as [b|] eqn:E; simpl.
  - apply Byte.to_of_N in E. rewrite E. lia.
  - apply Byte.of_N_None_iff in E. lia.
Qed.

Lemma byte_of_Z_of_byte b : byte_of_Z (Z_of_byte b) = b.
Proof.
  unfold byte_of_Z. pose proof (Z_of_byte_range b) as Hb.
  rewrite Z.mod_small by exact Hb. unfold Z_of_byte.
  rewrite N2Z.id, Byte.of_to_N. reflexivity.
Qed.

Lemma length_to_le n z : length (to_le n z) = n.
Proof. revert z. induction n; intros z; simpl; [reflexivity | now rewrite IHn]. Qed.

Lemma of_le_to_le n z : of_le (to_le n z) = z mod 256 ^ Z.of_nat n.
Proof.
  revert z. induction n as [|n IH]; intros z.
  - simpl. now rewrite Z.mod_1_r.
  - cbn [to_le of_le]. rewrite Z_of_byte_of_Z, IH.
    rewrite Nat2Z.inj_succ, Z.pow_succ_r by lia.
    rewrite (Z.rem_mul_r z 256 (256 ^ Z.of_nat n)) by lia.
    reflexivity.
Qed.

Lemma of_le_to_le_small n z :
  0 <= z < 256 ^ Z.of_nat n -> of_le (to_le n z) = z.
Proof. intros Hz. rewrite of_le_to_le. now apply Z.mod_small. Qed.

Lemma native_involutive plat bs : native plat (native plat bs) = bs.
Proof. unfold native. destruct (byte_order plat); [reflexivity | apply rev_involutive]. Qed.

Lemma length_native plat bs : length (native plat bs) = length bs.
Proof. unfold native. destruct (byte_order plat); [reflexivity | apply length_rev]. Qed.

Lemma length_pack_d plat x : length (pack_d plat x) = 8%nat.
Proof. unfold pack_d. now rewrite length_native, length_to_le. Qed.

Lemma length_pack_dd plat x y : length (pack_dd plat x y) = 16%nat.
Proof. unfold pack_dd. now rewrite length_app, !length_pack_d. Qed.

Lemma unpack_d_pack_d plat x :
  0 <= x < 2 ^ 64 -> unpack_d plat (pack_d plat x) = Ok x.
Proof.
  intros Hx. unfold unpack_d. rewrite length_pack_d. simpl.
  unfold pack_d. rewrite native_involutive, of_le_to_le_small; [reflexivity|].
  exact Hx.
Qed.

Lemma unpack_dd_pack_dd plat x y :
  0 <= x < 2 ^ 64 -> 0 <= y < 2 ^ 64 ->
  unpack_dd plat (pack_dd plat x y) = Ok (x, y).
Proof.
  intros Hx Hy. unfold unpack_dd. rewrite length_pack_dd. simpl.
  unfold pack_dd.
  rewrite take_app_length' by (symmetry; apply length_pack_d).
  rewrite drop_app_length' by (symmetry; apply length_pack_d).
  unfold pack_d. rewrite !native_involutive, !of_le_to_le_small; [reflexivity| |];
    assumption.
Qed.

Lemma unpack_l_pack_l plat n data :
  (0 < sizeof_long plat)%nat ->
  pack_l plat n = Ok data -> unpack_l plat data = Ok n.
Proof.
  intros Hsize. unfold pack_l, unpack_l.
  set (bits := 8 * Z.of_nat (sizeof_long plat)).
  destruct ((- 2 ^ (bits - 1) <=? n) && (n <? 2 ^ (bits - 1))) eqn:Hrange;
    [|discriminate].
  intros [= <-]. rewrite length_native, length_to_le, Nat.eqb_refl.
  rewrite native_involutive, of_le_to_le.
  assert (Hpow : 256 ^ Z.of_nat (sizeof_long plat) = 2 ^ bits).
  { unfold bits. change 256 with (2 ^ 8). rewrite <- Z.pow_mul_r by lia. reflexivity. }
  rewrite Hpow, Z.mod_mod by (apply Z.pow_nonzero; lia).
  apply andb_true_iff in Hrange as [Hlo Hhi].
  apply Z.leb_le in Hlo. apply Z.ltb_lt in Hhi.
  assert (Hhalf : 2 ^ bits = 2 * 2 ^ (bits - 1)).
  { rewrite <- Z.pow_succ_r by (unfold bits; lia). f_equal. lia. }
  assert (0 < 2 ^ (bits - 1)) by (apply Z.pow_pos_nonneg; unfold bits; lia).
  f_equal. destruct (Z.ltb_spec (n mod 2 ^ bits) (2 ^ (bits - 1))) as [Hlt|Hge].
  - destruct (Z_lt_le_dec n 0) as [Hneg|Hpos].
    + rewrite <- (Z.mod_add n 1) in Hlt by lia.
      rewrite Z.mod_small in Hlt by lia. lia.
    + rewrite Z.mod_small by lia. reflexivity.
  - destruct (Z_lt_le_dec n 0) as [Hneg|Hpos].
    + rewrite <- (Z.mod_add n 1) by lia. rewrite Z.mod_small by lia. lia.
    + rewrite Z.mod_small in Hge by lia. lia.
Qed.

(** ** Decimal numerals *)

Lemma encode_text_app s t :
  encode_text (s ++ t) = (encode_text s ++ encode_text t)%list.
Proof.
  unfold encode_text, list_byte_of_string.
  induction s as [|c s IH]; [reflexivity|].
  rewrite string_app_cons. simpl. now f_equal.
Qed.

Lemma encode_text_cons c s :
  encode_text (String c s) = byte_of_ascii c :: encode_text s.
Proof. reflexivity. Qed.

Lemma digit_cases d : 0 <= d < 10 ->
  d = 0 \/ d = 1 \/ d = 2 \/ d = 3 \/ d = 4 \/ d = 5 \/ d = 6 \/ d = 7
  \/ d = 8 \/ d = 9.
Proof. lia. Qed.

Lemma digit_val_char d :
  0 <= d < 10 -> digit_val (byte_of_ascii (digit_char d)) = Some d.
Proof.
  intros Hd. destruct (digit_cases d Hd) as [->|[->|[->|[->|[->|[->|[->|[->|[->| ->]]]]]]]]];
    reflexivity.
Qed.

Lemma digit_char_plain d :
  0 <= d < 10 ->
  is_space (byte_of_ascii (digit_char d)) = false
  /\ byte_in 45 45 (byte_of_ascii (digit_char d)) = false
  /\ byte_in 43 43 (byte_of_ascii (digit_char d)) = false.
Proof.
  intros Hd. destruct (digit_cases d Hd) as [->|[->|[->|[->|[->|[->|[->|[->|[->| ->]]]]]]]]];
    repeat split; reflexivity.
Qed.

Lemma numeral_scan s v :
  numeral s v ->
  forall st rest,
    scan_digits 0 st (encode_text s ++ rest)
    = scan_digits v AfterDigit rest.
Proof.
  induction 1 as [d Hd|s v d Hs IH Hd]; intros st rest.
  - rewrite encode_text_cons. cbn [app scan_digits].
    rewrite digit_val_char by exact Hd. reflexivity.
  - rewrite encode_text_app, <- app_assoc, IH, encode_text_cons.
    cbn [app scan_digits].
    rewrite digit_val_char by exact Hd. reflexivity.
Qed.

Lemma numeral_head s v :
  numeral s v -> exists d s', 0 <= d < 10 /\ s = String (digit_char d) s'.
Proof.
  induction 1 as [d Hd|s v d Hs (d0 & s' & Hd0 & ->) Hd].
  - now exists d, "".
  - now exists d0, (s' ++ String (digit_char d) "").
Qed.

Lemma digits_of_numeral fuel : forall n acc,
  0 <= n < 2 ^ Z.of_nat fuel -> (1 <= fuel)%nat ->
  exists s, digits_of fuel n acc = s ++ acc /\ numeral s n.
Proof.
  induction fuel as [|fuel IH]; intros n acc Hn Hfuel; [lia|].
  cbn [digits_of]. destruct (Z.ltb_spec n 10) as [Hsmall|Hbig].
  - exists (String (digit_char (n mod 10)) ""). split; [reflexivity|].
    rewrite Z.mod_small by lia. constructor; lia.
  - rewrite Nat2Z.inj_succ, Z.pow_succ_r in Hn by lia.
    assert (Hq : 0 <= n / 10 < 2 ^ Z.of_nat fuel).
    { split; [apply Z.div_pos; lia|].
      apply Z.div_lt_upper_bound; lia. }
    assert (Hq1 : 1 <= n / 10) by (apply Z.div_le_lower_bound; lia).
    assert (Hfuel' : (1 <= fuel)%nat).
    { destruct fuel; [simpl in Hq; lia | lia]. }
    destruct (IH (n / 10) (String (digit_char (n mod 10)) acc) Hq Hfuel')
      as (s & Hs & Hnum).
    exists (s ++ String (digit_char (n mod 10)) ""). split.
    + rewrite Hs. now rewrite string_app_assoc.
    + replace n with (10 * (n / 10) + n mod 10) at 2
        by (symmetry; apply Z.div_mod; lia).
      constructor; [exact Hnum|]. apply Z.mod_pos_bound. lia.
Qed.

Lemma str_of_nat_numeral n : 0 <= n -> numeral (str_of_nat n) n.
Proof.
  intros Hn. unfold str_of_nat.
  destruct (digits_of_numeral (S (Z.to_nat (Z.log2 n))) n "") as (s & Hs & Hnum).
  - split; [exact Hn|]. rewrite Nat2Z.inj_succ, Z2Nat.id by apply Z.log2_nonneg.
    destruct (Z.eq_dec n 0) as [->|Hne]; [reflexivity|].
    apply Z.log2_spec. lia.
  - lia.
  - rewrite Hs, string_app_nil_r. exact Hnum.
Qed.

Lemma int_of_bytes_numeral s v :
  numeral s v -> int_of_bytes (encode_text s) = Ok v.
Proof.
  intros Hnum. destruct (numeral_head s v Hnum) as (d & s' & Hd & ->).
  destruct (digit_char_plain d Hd) as (Hsp & Hminus & Hplus).
  unfold int_of_bytes. rewrite encode_text_cons.
  cbn [skip_spaces]. rewrite Hsp, Hminus, Hplus. cbn [snd fst].
  rewrite <- encode_text_cons.
  rewrite <- (app_nil_r (encode_text _)), (numeral_scan _ _ Hnum). simpl.
  f_equal. lia.
Qed.

Lemma int_of_bytes_minus rest :
  int_of_bytes (byte_of_ascii "-" :: rest)
  = match scan_digits 0 AtStart rest with
    | Some n => Ok (-1 * n)
    | None => raise ValueError "invalid literal for int() with base 10"
    end.
Proof. reflexivity. Qed.

Lemma int_of_bytes_str_of_int n :
  int_of_bytes (encode_text (str_of_int n)) = Ok n.
Proof.
  unfold str_of_int. destruct (Z.ltb_spec n 0) as [Hneg|Hpos].
  - assert (Hnum : numeral (str_of_nat (- n)) (- n))
      by (apply str_of_nat_numeral; lia).
    rewrite encode_text_cons, int_of_bytes_minus.
    rewrite <- (app_nil_r (encode_text _)), (numeral_scan _ _ Hnum). simpl.
    f_equal. lia.
  - apply int_of_bytes_numeral, str_of_nat_numeral, Hpos.
Qed.

(** ** Attributes *)

Lemma attrs_get_set_eq d k v : attrs_get (attrs_set d k v) k = Some v.
Proof.
  induction d as [|[k' w] d IH]; simpl.
  - now rewrite String.eqb_refl.
  - destruct (String.eqb k' k) eqn:E; simpl; rewrite E; [reflexivity | exact IH].
Qed.

Lemma attrs_get_set_ne d k k' v :
  k <> k' -> attrs_get (attrs_set d k v) k' = attrs_get d k'.
Proof.
  intros Hne. induction d as [|[k0 w] d IH]; simpl.
  - destruct (String.eqb_spec k k'); [contradiction | reflexivity].
  - destruct (String.eqb_spec k0 k) as [->|]; simpl.
    + destruct (String.eqb_spec k k'); [contradiction | reflexivity].
    + destruct (String.eqb k0 k'); [reflexivity | exact IH].
Qed.

Lemma set_attributes_other named : forall d k,
  ~ In k (map fst named) ->
  attrs_get (set_attributes d named) k = attrs_get d k.
Proof.
  induction named as [|[k0 v0] named IH]; intros d k Hk; [reflexivity|].
  simpl in *. unfold set_attributes in *. simpl.
  rewrite IH by tauto. apply attrs_get_set_ne. tauto.
Qed.

Lemma set_attributes_get named : forall d k v,
  List.NoDup (map fst named) -> In (k, v) named ->
  attrs_get (set_attributes d named) k = Some v.
Proof.
  induction named as [|[k0 v0] named IH]; intros d k v Hnd Hin; [easy|].
  simpl in Hnd. inversion Hnd as [|? ? Hk0 Hnd']; subst.
  unfold set_attributes in *. simpl. destruct Hin as [Heq|Hin].
  - inversion Heq; subst. 
    change (attrs_get (set_attributes (attrs_set d k v) named) k = Some v).
    rewrite set_attributes_other by exact Hk0.
    apply attrs_get_set_eq.
  - now apply IH.
Qed.

Section Assignment.
Context `{Host}.

(** A name that is not [args] and has no data descriptor in the class is
    written to the instance dictionary. *)
Lemma setattr_ordinary c args d slots name value :
  name <> "args" -> exception_descriptor c name = None ->
  setattr (PObject c args (Some d) slots) (PStr name) value
  = Ok (PObject c args (Some (attrs_set d name value)) slots).
Proof.
  intros Hname Hdesc. cbn [setattr]. rewrite Hdesc.
  destruct (String.eqb_spec name "args") as [->|_]; [contradiction|].
  now destruct (issubclass c BaseException).
Qed.

(** What a data descriptor refuses, [setattr] raises. *)
Lemma setattr_refused c args dict slots name assign value why msg :
  issubclass c BaseException = true ->
  name <> "args" ->
  exception_descriptor c name = Some assign ->
  assign (PObject c args dict slots) value = Refused why msg ->
  setattr (PObject c args dict slots) (PStr name) value
  = raise (refusal_class why) msg.
Proof.
  intros Hexc Hname Hdesc Hrefused. cbn [setattr]. rewrite Hexc, Hdesc, Hrefused.
  now destruct (String.eqb_spec name "args") as [->|_]; [contradiction|].
Qed.

Lemma foldM_setattr c args slots named : forall d,
  ~ In "args" (map fst named) ->
  (forall name, In name (map fst named) -> exception_descriptor c name = None) ->
  foldM (fun ex kv => setattr ex (fst kv) (snd kv))
        (PObject c args (Some d) slots) (dict_of_attrs named)
  = Ok (PObject c args (Some (set_attributes d named)) slots).
Proof.
  induction named as [|[k v] named IH]; intros d Hargs Hdesc; [reflexivity|].
  simpl in Hargs. cbn [dict_of_attrs map foldM fst snd].
  rewrite setattr_ordinary; [| tauto | apply Hdesc; now left].
  change (foldM (fun ex kv => setattr ex (fst kv) (snd kv))
        (PObject c args (Some (attrs_set d k v)) slots) (dict_of_attrs named)
  = Ok (PObject c args (Some (set_attributes d ((k,v) :: named))) slots)).
  rewrite IH; [reflexivity | tauto |]. intros name Hin. apply Hdesc. now right.
Qed.

End Assignment.

(** ** Reconstruction *)

Section Reconstruction.

Context `{Host}.

Lemma dict_to_class_registered depth reg data classname converter :
  classname_of data = Ok classname ->
  custom_dict_to_class_registry reg !! classname = Some converter ->
  dict_to_class (S depth) reg data = lift (converter classname data).
Proof.
  intros Hname Hreg. cbn [dict_to_class].
  rewrite Hname, lift_bind, Hreg. reflexivity.
Qed.

Lemma dict_to_class_gate depth reg data classname :
  classname_of data = Ok classname ->
  custom_dict_to_class_registry reg !! classname = None ->
  contains "__" classname = true ->
  dict_to_class (S depth) reg data
  = raiseM SecurityError
      ("refused to deserialize types with double underscores in their name: "
       ++ classname).
Proof.
  intros Hname Hreg Hmark. cbn [dict_to_class].
  rewrite Hname, lift_bind, Hreg, Hmark. reflexivity.
Qed.

Lemma no_security_ok {A} (a : A) : no_security (Ok a).
Proof. intros msg; discriminate. Qed.

Lemma no_security_raise {A} c msg :
  c <> SecurityError -> no_security (@raise A c msg).
Proof. intros Hc m Heq. apply Hc. now inversion Heq. Qed.

Lemma no_security_err {A B} (e : exn) :
  no_security (@Err A e) -> no_security (@Err B e).
Proof. intros He msg Heq. apply (He msg). now inversion Heq. Qed.

Lemma no_security_bind {A B} (r : result A) (k : A -> result B) :
  no_security r -> (forall a, no_security (k a)) -> no_security (r ≫= k).
Proof.
  intros Hr Hk. destruct r as [a|e]; simpl; [apply Hk|].
  now apply (no_security_err (A:=A)).
Qed.

Lemma no_security_fmap {A B} (f : A -> B) (r : result A) :
  no_security r -> no_security (f <$> r).
Proof.
  intros Hr. destruct r as [a|e]; simpl; [apply no_security_ok|].
  now apply (no_security_err (A:=A)).
Qed.

Lemma no_security_bindM {A B} (m : M A) (k : A -> M B) :
  no_security (res_of m) -> (forall a, no_security (res_of (k a))) ->
  no_security (res_of (m ≫= k)).
Proof.
  intros Hm Hk. unfold mbind, M_bind. destruct (res_of m) as [a|e]; simpl.
  - apply Hk.
  - now apply (no_security_err (A:=A)).
Qed.

Lemma no_security_getitem d k : no_security (getitem d k).
Proof.
  unfold getitem. destruct (dict_get d k);
    [apply no_security_ok | now apply no_security_raise].
Qed.

Lemma no_security_iterate o : no_security (iterate o).
Proof.
  destruct o; simpl;
    first [apply no_security_ok | now apply no_security_raise].
Qed.

Lemma no_security_items o : no_security (items o).
Proof.
  destruct o; simpl;
    first [apply no_security_ok | now apply no_security_raise].
Qed.

Lemma no_security_setattr o attr v : no_security (setattr o attr v).
Proof.
  unfold setattr.
  repeat case_match;
    first [apply no_security_ok | now apply no_security_raise
          | apply no_security_raise; now destruct why | idtac].
  apply no_security_bind; [apply no_security_iterate|].
  intros; apply no_security_ok.
Qed.

Lemma no_security_foldM {A B} (f : A -> B -> result A) l :
  (forall a b, no_security (f a b)) -> forall a, no_security (foldM f a l).
Proof.
  intros Hf. induction l as [|x l IH]; intros a; simpl.
  - apply no_security_ok.
  - apply no_security_bind; [apply Hf | exact IH].
Qed.

Lemma no_security_module_getattr ns name :
  no_security (module_getattr ns name).
Proof.
  unfold module_getattr. destruct (ns !! name);
    [apply no_security_ok | now apply no_security_raise].
Qed.

Lemma no_security_issubclass_obj t base : no_security (issubclass_obj t base).
Proof.
  destruct t; simpl;
    first [apply no_security_ok | now apply no_security_raise].
Qed.

Lemma no_security_index {A} (l : list A) i : no_security (index l i).
Proof.
  unfold index. destruct (nth_error l i);
    [apply no_security_ok | now apply no_security_raise].
Qed.

Lemma no_security_unsupported classname :
  no_security (res_of (unsupported classname)).
Proof. now apply no_security_raise. Qed.

Lemma no_security_make_exception exceptiontype data :
  (forall c args, no_security (construct c args)) ->
  no_security (make_exception exceptiontype data).
Proof.
  intros Hc. unfold make_exception.
  apply no_security_bind; [apply no_security_getitem | intros args].
  apply no_security_bind; [apply no_security_iterate | intros args'].
  apply no_security_bind; [apply Hc | intros ex].
  destruct (dict_get data "attributes") as [attributes|];
    [|apply no_security_ok].
  apply no_security_bind; [apply no_security_items | intros d].
  apply no_security_foldM. intros; apply no_security_setattr.
Qed.

(** A record whose ["__class__"] entry is no text ends in the error of the
    first operation applied to the entry, before the registry is read; that
    error is never [SecurityError]. *)
Lemma dict_to_class_nameless depth reg data e :
  classname_of data = Err e ->
  dict_to_class (S depth) reg data = lift (Err e)
  /\ exn_type e <> SecurityError.
Proof.
  intros Hname. split.
  - cbn [dict_to_class]. rewrite Hname. reflexivity.
  - unfold classname_of, decode_utf8, raise in Hname.
    repeat case_match; inversion Hname; simpl; discriminate.
Qed.

Lemma dict_to_class_no_gate depth reg data classname :
  classname_of data = Ok classname ->
  custom_dict_to_class_registry reg !! classname = None ->
  contains "__" classname = false ->
  (forall c args, no_security (construct c args)) ->
  (forall name state, no_security (core_setstate_from_dict name state)) ->
  no_security (res_of (dict_to_class (S depth) reg data)).
Proof.
  intros Hname Hreg Hmark Hc Hs. cbn [dict_to_class].
  rewrite Hname, lift_bind, Hreg, Hmark.
  destruct (startswith classname "Pyro5.core.") eqn:Hcore.
  { repeat case_match; try apply no_security_unsupported;
      (apply no_security_bind; [apply no_security_getitem | intros; apply Hs]). }
  destruct (startswith classname "Pyro5.util.") eqn:Hutil.
  { repeat case_match; try apply no_security_unsupported; apply no_security_ok. }
  destruct (startswith classname "Pyro5.errors.") eqn:Herr.
  { apply no_security_bindM.
    - simpl. apply no_security_bind; [apply no_security_index | intros name].
      apply no_security_bind; [apply no_security_module_getattr | intros t].
      apply no_security_issubclass_obj.
    - intros [c|]; [|apply no_security_unsupported].
      simpl. now apply no_security_make_exception. }
  destruct (String.eqb classname "Pyro5.core._ExceptionWrapper") eqn:Hwrap.
  { apply String.eqb_eq in Hwrap. subst classname. discriminate Hcore. }
  assert (Hres : forall ns short,
             no_security (res_of
               (lift (module_getattr ns short ≫= λ exceptiontype : pyobj,
                        issubclass_obj exceptiontype BaseException)
                ≫= λ exceptiontype : option pyclass,
                     match exceptiontype with
                     | Some exceptiontype0 =>
                         lift (make_exception exceptiontype0 data)
                     | None => unsupported classname
                     end))).
  { intros ns short. apply no_security_bindM.
    - simpl. apply no_security_bind; [apply no_security_module_getattr|].
      intros; apply no_security_issubclass_obj.
    - intros [c|]; [|apply no_security_unsupported].
      simpl. now apply no_security_make_exception. }
  repeat case_match; try apply no_security_unsupported; try apply Hres;
    try (now apply no_security_raise).
  simpl. now apply no_security_make_exception.
Qed.

(** C1.  For a record whose type name is [classname] (the text under
    ["__class__"], decoded when it is bytes, ["<unknown>"] when absent),
    [dict_to_class] looks the name up in the inbound registry first:
    - when a converter is registered, the outcome is the converter's
      outcome on the name and the record, with nothing logged and no other
      check made;
    - when none is registered and the name contains ["__"], the outcome is
      [SecurityError];
    - when none is registered and the name has no ["__"], no
      [SecurityError] comes out of [dict_to_class] unless a constructor or
      a state restorer of the host raises one;
    and the same in terms of the registry operations: after
    [register_dict_to_class] the converter decides, after
    [unregister_dict_to_class] a name with ["__"] is refused. *)
Theorem dict_to_class_registry_precedes_gate
    (depth : nat) (reg : registries) (data : pydict) (classname : string) :
  classname_of data = Ok classname ->
  (forall converter,
     custom_dict_to_class_registry reg !! classname = Some converter ->
     dict_to_class (S depth) reg data = lift (converter classname data))
  /\ (custom_dict_to_class_registry reg !! classname = None ->
      contains "__" classname = true ->
      dict_to_class (S depth) reg data
      = raiseM SecurityError
          ("refused to deserialize types with double underscores in their name: "
           ++ classname))
  /\ (custom_dict_to_class_registry reg !! classname = None ->
      contains "__" classname = false ->
      (forall c args, no_security (construct c args)) ->
      (forall name state, no_security (core_setstate_from_dict name state)) ->
      no_security (res_of (dict_to_class (S depth) reg data)))
  /\ (forall converter,
      dict_to_class (S depth) (register_dict_to_class reg classname converter) data
      = lift (converter classname data))
  /\ (contains "__" classname = true ->
      dict_to_class (S depth) (unregister_dict_to_class reg classname) data
      = raiseM SecurityError
          ("refused to deserialize types with double underscores in their name: "
           ++ classname)).
Proof.
  intros Hname. repeat split.
  - intros converter Hreg. now apply dict_to_class_registered.
  - intros Hreg Hmark. now apply dict_to_class_gate.
  - intros Hreg Hmark Hc Hs. now apply dict_to_class_no_gate with classname.
  - intros converter. apply dict_to_class_registered; [exact Hname|].
    simpl. apply lookup_insert_eq.
  - intros Hmark. apply dict_to_class_gate; [exact Hname| |exact Hmark].
    simpl. apply lookup_delete_eq.
Qed.

(** C2, where the code departs from it.  A record that carries a true
    ["__exception__"] flag and whose type name has no dot, is not
    registered, has no ["__"] and is not the short name of a known
    exception, is not refused with [SerializeError]: the unpacking of
    [classname.split('.', 1)] raises [ValueError], and nothing is logged. *)
Theorem dict_to_class_dotless depth reg data classname :
  classname_of data = Ok classname ->
  custom_dict_to_class_registry reg !! classname = None ->
  contains "__" classname = false ->
  contains "." classname = false ->
  all_exceptions !! classname = None ->
  truthy (default (PBool false) (dict_get data "__exception__")) = true ->
  dict_to_class (S depth) reg data
  = raiseM ValueError "not enough values to unpack (expected 2, got 1)".
Proof.
  intros Hname Hreg Hmark Hdot Hexc Hflag.
  assert (Hprefix : forall p, contains "." p = true ->
                              startswith classname p = false).
  { intros p Hp. destruct (startswith classname p) eqn:Hs; [|reflexivity].
    rewrite (startswith_contains "." _ _ Hs Hp) in Hdot. discriminate. }
  cbn [dict_to_class].
  rewrite Hname, lift_bind, Hreg, Hmark, !Hprefix by reflexivity.
  destruct (String.eqb_spec classname "Pyro5.core._ExceptionWrapper") as [->|_];
    [discriminate Hdot|].
  rewrite Hflag, Hexc, str_split_absent by exact Hdot. reflexivity.
Qed.

Lemma errors_name_facts name :
  contains "__" ("Pyro5.errors." ++ name) = contains "__" name
  /\ startswith ("Pyro5.errors." ++ name) "Pyro5.core." = false
  /\ startswith ("Pyro5.errors." ++ name) "Pyro5.util." = false
  /\ startswith ("Pyro5.errors." ++ name) "Pyro5.errors." = true
  /\ str_split "." 2 ("Pyro5.errors." ++ name) = ["Pyro5"; "errors"; name].
Proof. repeat split; reflexivity. Qed.

Lemma dict_to_class_missing_error_class depth reg data name :
  classname_of data = Ok ("Pyro5.errors." ++ name) ->
  custom_dict_to_class_registry reg !! ("Pyro5.errors." ++ name) = None ->
  contains "__" name = false ->
  errors !! name = None ->
  dict_to_class (S depth) reg data = raiseM AttributeError name.
Proof.
  intros Hname Hreg Hmark Hmiss.
  destruct (errors_name_facts name) as (Hm & Hcore & Hutil & Herr & Hsplit).
  cbn [dict_to_class].
  rewrite Hname, lift_bind, Hreg, Hm, Hmark, Hcore, Hutil, Herr, Hsplit.
  unfold index, module_getattr. simpl. rewrite Hmiss. reflexivity.
Qed.

Lemma dict_to_class_framework_error depth reg data name errortype :
  classname_of data = Ok ("Pyro5.errors." ++ name) ->
  custom_dict_to_class_registry reg !! ("Pyro5.errors." ++ name) = None ->
  contains "__" name = false ->
  errors !! name = Some (PClass errortype) ->
  issubclass errortype PyroError = true ->
  dict_to_class (S depth) reg data = lift (make_exception errortype data).
Proof.
  intros Hname Hreg Hmark Hcls Hsub.
  destruct (errors_name_facts name) as (Hm & Hcore & Hutil & Herr & Hsplit).
  cbn [dict_to_class].
  rewrite Hname, lift_bind, Hreg, Hm, Hmark, Hcore, Hutil, Herr, Hsplit.
  unfold index, module_getattr. simpl. rewrite Hcls. simpl. rewrite Hsub.
  exact (lift_bind (Some errortype) _).
Qed.

(** What does hold of the closed world: a name that is not registered, not
    marked, not on the white list and not under [Pyro5.errors.], in a record
    without the exception flag, is logged and refused. *)
Lemma dict_to_class_unsupported depth reg data classname :
  classname_of data = Ok classname ->
  custom_dict_to_class_registry reg !! classname = None ->
  contains "__" classname = false ->
  classname ∉ ["Pyro5.core.URI"; "Pyro5.core.Proxy"; "Pyro5.core.Daemon";
               "Pyro5.util.SerpentSerializer"; "Pyro5.util.MarshalSerializer";
               "Pyro5.util.JsonSerializer"; "Pyro5.util.MsgpackSerializer"] ->
  startswith classname "Pyro5.errors." = false ->
  truthy (default (PBool false) (dict_get data "__exception__")) = false ->
  dict_to_class (S depth) reg data
  = Logged ["unsupported serialized class: " ++ classname]
           (raise SerializeError ("unsupported serialized class: " ++ classname)).
Proof.
  intros Hname Hreg Hmark Hwhite Herr Hflag. cbn [dict_to_class].
  rewrite Hname, lift_bind, Hreg, Hmark, Herr, Hflag.
  assert (Hne : forall n, n ∈ ["Pyro5.core.URI"; "Pyro5.core.Proxy"; "Pyro5.core.Daemon";
               "Pyro5.util.SerpentSerializer"; "Pyro5.util.MarshalSerializer";
               "Pyro5.util.JsonSerializer"; "Pyro5.util.MsgpackSerializer"] ->
               String.eqb classname n = false).
  { intros n Hn. apply String.eqb_neq. intros ->. contradiction. }
  rewrite !Hne by elem_of_literal.
  destruct (startswith classname "Pyro5.core.") eqn:Hcore; [reflexivity|].
  destruct (startswith classname "Pyro5.util."); [reflexivity|].
  destruct (String.eqb_spec classname "Pyro5.core._ExceptionWrapper") as [->|_];
    [discriminate Hcore | reflexivity].
Qed.

Lemma make_exception_steps exceptiontype data args positional attributes :
  dict_get data "args" = Some args ->
  iterate args = Ok positional ->
  dict_get data "attributes" = Some (PDict attributes) ->
  make_exception exceptiontype data
  = (ex ← construct exceptiontype positional;
     foldM (fun ex kv => setattr ex (fst kv) (snd kv)) ex attributes).
Proof.
  intros Hargs Hpos Hattr. unfold make_exception, getitem.
  rewrite Hargs. simpl. rewrite Hpos. simpl. rewrite Hattr. reflexivity.
Qed.

(** C9.  When [type(obj)] is exactly [set], [dict], [tuple] or [list] and
    no class of the outbound registry matches [obj], [class_to_dict] gives
    no record: it raises [ValueError] (not [SerializeError]) with the
    message ["can't serialize type <class ...> into a dict"]. *)
Theorem class_to_dict_bare_container
    (cls_name : string) (reg : registries) (obj : pyobj) :
  existsb (type_is obj)
    ["builtins.set"; "builtins.dict"; "builtins.tuple"; "builtins.list"] = true ->
  (forall clazz converter,
     In (clazz, converter) (custom_class_to_dict_registry reg) ->
     isinstance obj (qualname clazz) = false) ->
  class_to_dict cls_name reg obj
  = raise ValueError ("can't serialize type " ++ class_str (type_of obj)
                      ++ " into a dict").
Proof.
  intros Hbare Hnone. unfold class_to_dict.
  assert (Hfind : find (fun e => isinstance obj (qualname (fst e)))
                       (custom_class_to_dict_registry reg) = None).
  { induction (custom_class_to_dict_registry reg) as [|[clazz conv] l IH];
      [reflexivity|].
    simpl. rewrite (Hnone clazz conv) by now left.
    apply IH. intros c k Hin. apply (Hnone c k). now right. }
  rewrite Hfind, Hbare. reflexivity.
Qed.

End Reconstruction.

Lemma dict_to_class_registry_precedes_gate_witness :
  dict_to_class (H := Sample.host) 1 empty_registries
                [(PStr "__class__", PStr "os__system")]
  = raiseM SecurityError
      "refused to deserialize types with double underscores in their name: os__system"
  /\ dict_to_class (H := Sample.host) 1
       (register_dict_to_class empty_registries "my__type"
                               (fun _ data => Ok (PDict data)))
       [(PStr "__class__", PStr "my__type")]
     = mret (PDict [(PStr "__class__", PStr "my__type")]).
Proof.
  split.
  - apply (dict_to_class_registry_precedes_gate (H := Sample.host) 0
             empty_registries [(PStr "__class__", PStr "os__system")]
             "os__system" eq_refl); reflexivity.
  - apply (dict_to_class_registry_precedes_gate (H := Sample.host) 0
             empty_registries [(PStr "__class__", PStr "my__type")]
             "my__type" eq_refl).
Defined.

Lemma dict_to_class_dotless_witness :
  dict_to_class (H := Sample.host) 1 empty_registries Sample.dotless_exception_record
  = raiseM ValueError "not enough values to unpack (expected 2, got 1)".
Proof.
  apply (dict_to_class_dotless (H := Sample.host) 0 empty_registries
           Sample.dotless_exception_record "Foo"); reflexivity.
Defined.

(** ** The compression wrapper and the extension codec *)

Section Comp.
Context `{Host}.

(** C5.  When [dumps] gives the payload, [serializeData] gives a pair
    [(out, flag)]: the payload itself with flag [False] when [compress] is
    false or the payload is shorter than 200 bytes; otherwise the flag is
    [True] exactly when the compressed form is strictly shorter than the
    payload, and [out] is the compressed form when the flag is [True], the
    payload when it is [False].  A payload of 50 bytes comes back as it is
    with flag [False]. *)
Theorem serializeData_compression
    (dumps : pyobj -> result (list byte)) (value : pyobj) (compress : bool)
    (payload : list byte) :
  dumps value = Ok payload ->
  exists out flag,
    serializeData dumps value compress = Ok (out, flag)
    /\ (compress = false \/ (length payload < 200)%nat ->
        out = payload /\ flag = false)
    /\ (compress = true -> (200 <= length payload)%nat ->
        (flag = true <-> (length (zlib_compress payload) < length payload)%nat)
        /\ (flag = true -> out = zlib_compress payload)
        /\ (flag = false -> out = payload))
    /\ (length payload = 50%nat -> out = payload /\ flag = false).
Proof.
  intros Hdumps. unfold serializeData. rewrite Hdumps. simpl.
  unfold compressdata.
  destruct compress; simpl.
  - destruct (Nat.ltb_spec (length payload) 200) as [Hshort|Hlong].
    + exists payload, false. repeat split; auto; try lia; try discriminate.
    + destruct (Nat.ltb_spec (length (zlib_compress payload)) (length payload))
        as [Hless|Hmore].
      * exists (zlib_compress payload), true.
        repeat split; auto; try lia; try discriminate.
      * exists payload, false.
        repeat split; auto; try lia; try discriminate.
  - exists payload, false. repeat split; auto; try lia; try discriminate.
Qed.

End Comp.

Lemma serializeData_compression_witness :
  serializeData (H := Sample.host) (fun _ => Ok Sample.fifty_bytes) PNone true
  = Ok (Sample.fifty_bytes, false).
Proof.
  destruct (serializeData_compression (H := Sample.host)
              (fun _ => Ok Sample.fifty_bytes) PNone true Sample.fifty_bytes eq_refl)
    as (out & flag & Heq & _ & _ & Hfifty).
  destruct (Hfifty eq_refl) as [-> ->]. exact Heq.
Defined.

Section Ext.
Context `{Host}.

Lemma replace_none repl obj :
  repl !! qualname (type_of obj) = None -> replace repl obj = Ok obj.
Proof. intros Hnone. unfold replace. now rewrite Hnone. Qed.

Lemma default_replaced repl reg obj :
  MsgpackSerializer.default repl reg obj
  = (obj ← replace repl obj; MsgpackSerializer.default ∅ reg obj).
Proof.
  unfold MsgpackSerializer.default.
  destruct (replace repl obj) as [o|e]; [|reflexivity]. simpl.
  unfold replace at 1. now rewrite lookup_empty.
Qed.

Lemma pack_by_default default levels o code data :
  match o with
  | PComplex _ _ | PDatetime _ | PDate _ | PUuid _ | PDecimal _ => True
  | _ => False
  end ->
  default o = Ok (PExtType code data) ->
  msgpack.pack default (S levels) o = Ok (msgpack.Ext code data).
Proof.
  intros Ho Hd. destruct o; try contradiction;
    cbn [msgpack.pack]; rewrite Hd; reflexivity.
Qed.

Lemma pack_default_fails default levels o e :
  match o with
  | PComplex _ _ | PDatetime _ | PDate _ | PUuid _ | PDecimal _ => True
  | _ => False
  end ->
  default o = Err e ->
  msgpack.pack default (S levels) o = Err e.
Proof.
  intros Ho Hd. destruct o; try contradiction;
    cbn [msgpack.pack]; rewrite Hd; reflexivity.
Qed.

(** C6.  An object that reaches the extension encoding as the complex
    number [real + imag j] (after the type replacement, if any) is encoded
    by [MsgpackSerializer.default] as the extension value with tag [0x30]
    and a payload of two 8-byte doubles, the real part and then the
    imaginary part; [ext_hook] on tag [0x30] and that payload gives back the
    same complex number, and so do [dumps] followed by [loads].  ([real]
    and [imag] are binary64 patterns; 3+4i is the witness below.) *)
Theorem complex_extension_roundtrip
    (type_replacements : replacements) (reg : registries) (obj : pyobj)
    (real imag : Z) :
  replace type_replacements obj = Ok (PComplex real imag) ->
  0 <= real < 2 ^ 64 -> 0 <= imag < 2 ^ 64 ->
  MsgpackSerializer.default type_replacements reg obj
  = Ok (PExtType 0x30 (pack_d machine real ++ pack_d machine imag)%list)
  /\ length (pack_d machine real) = 8%nat
  /\ length (pack_d machine imag) = 8%nat
  /\ unpack_d machine (pack_d machine real) = Ok real
  /\ unpack_d machine (pack_d machine imag) = Ok imag
  /\ MsgpackSerializer.ext_hook 0x30
       (pack_d machine real ++ pack_d machine imag)%list
     = Ok (PComplex real imag)
  /\ (obj = PComplex real imag ->
      forall depth,
        MsgpackSerializer.dumps type_replacements reg obj
        = Ok (msgpack.Ext 0x30 (pack_d machine real ++ pack_d machine imag)%list)
        /\ MsgpackSerializer.loads depth reg
             (msgpack.Ext 0x30 (pack_d machine real ++ pack_d machine imag)%list)
           = mret (PComplex real imag)).
Proof.
  intros Hrepl Hreal Himag.
  assert (Hdefault : MsgpackSerializer.default type_replacements reg obj
            = Ok (PExtType 0x30 (pack_d machine real ++ pack_d machine imag)%list)).
  { unfold MsgpackSerializer.default. rewrite Hrepl. reflexivity. }
  assert (Hhook : MsgpackSerializer.ext_hook 0x30
                    (pack_d machine real ++ pack_d machine imag)%list
                  = Ok (PComplex real imag)).
  { unfold MsgpackSerializer.ext_hook. simpl.
    change (pack_d machine real ++ pack_d machine imag)%list
      with (pack_dd machine real imag).
    now rewrite unpack_dd_pack_dd. }
  repeat apply conj; try assumption.
  - apply length_pack_d.
  - apply length_pack_d.
  - now apply unpack_d_pack_d.
  - now apply unpack_d_pack_d.
  - intros -> depth. split.
    + unfold MsgpackSerializer.dumps, msgpack.packb.
      now apply pack_by_default.
    + unfold MsgpackSerializer.loads. cbn [msgpack.unpackb].
      now rewrite Hhook.
Qed.

(** C7, where the code departs from it.  [MsgpackSerializer.default]
    tests the truth value of [obj.tzinfo], not whether there is one.  For
    an object that reaches the encoding as a datetime [dt] (after the type
    replacement, if any):
    - when [dt] carries a [tzinfo] that is true in a condition, [default]
      (and [dumps] on the datetime) raises [SerializeError];
    - when it carries none, the outcome is the extension value with tag
      [0x32] and the 8-byte double of [dt.timestamp()];
    - but when it carries a [tzinfo] that is false in a condition (an
      instance of a class whose [__bool__] or [__len__] makes it so), no
      error is raised: the outcome is that same extension value, which
      [ext_hook] reads back as a datetime without [tzinfo], and the
      offset is dropped. *)
Theorem datetime_tzinfo_truth_value
    (type_replacements : replacements) (reg : registries) (obj : pyobj)
    (dt : datetime) :
  replace type_replacements obj = Ok (PDatetime dt) ->
  (forall tz, dt_tzinfo dt = Some tz -> tz_truth tz = true ->
     MsgpackSerializer.default type_replacements reg obj
     = raise SerializeError
             "msgpack cannot serialize datetime with timezone info"
     /\ (obj = PDatetime dt ->
         MsgpackSerializer.dumps type_replacements reg obj
         = raise SerializeError
                 "msgpack cannot serialize datetime with timezone info"))
  /\ (dt_tzinfo dt = None ->
      forall t, timestamp dt = Ok t ->
        MsgpackSerializer.default type_replacements reg obj
        = Ok (PExtType 0x32 (pack_d machine t))
        /\ length (pack_d machine t) = 8%nat
        /\ (obj = PDatetime dt ->
            MsgpackSerializer.dumps type_replacements reg obj
            = Ok (msgpack.Ext 0x32 (pack_d machine t))))
  /\ (forall tz t,
        dt_tzinfo dt = Some tz -> tz_truth tz = false ->
        timestamp dt = Ok t ->
        MsgpackSerializer.default type_replacements reg obj
        = Ok (PExtType 0x32 (pack_d machine t))
        /\ (obj = PDatetime dt ->
            MsgpackSerializer.dumps type_replacements reg obj
            = Ok (msgpack.Ext 0x32 (pack_d machine t)))
        /\ (forall depth v,
              MsgpackSerializer.loads depth reg
                (msgpack.Ext 0x32 (pack_d machine t)) = mret v ->
              exists dt', v = PDatetime dt' /\ dt_tzinfo dt' = None)).
Proof.
  intros Hrepl.
  assert (Hdefault : MsgpackSerializer.default type_replacements reg obj
            = if match dt_tzinfo dt with
                 | Some tz => tz_truth tz
                 | None => false
                 end
              then raise SerializeError
                         "msgpack cannot serialize datetime with timezone info"
              else t ← timestamp dt;
                   msgpack.ExtType 0x32 (pack_d machine t)).
  { unfold MsgpackSerializer.default. rewrite Hrepl. reflexivity. }
  split; [|split].
  - intros tz Htz Htruth. rewrite Htz, Htruth in Hdefault.
    split; [exact Hdefault|].
    intros ->. unfold MsgpackSerializer.dumps, msgpack.packb.
    now apply pack_default_fails.
  - intros Hnaive t Ht. rewrite Hnaive, Ht in Hdefault.
    split; [exact Hdefault|]. split; [apply length_pack_d|].
    intros ->. unfold MsgpackSerializer.dumps, msgpack.packb.
    now apply pack_by_default.
  - intros tz t Htz Htruth Ht. rewrite Htz, Htruth, Ht in Hdefault.
    split; [exact Hdefault|]. split.
    + intros ->. unfold MsgpackSerializer.dumps, msgpack.packb.
      now apply pack_by_default.
    + intros depth v. unfold MsgpackSerializer.loads. cbn [msgpack.unpackb].
      unfold MsgpackSerializer.ext_hook. simpl.
      destruct (unpack_d machine (pack_d machine t)) as [t'|e]; [|discriminate].
      simpl. unfold datetime_fromtimestamp.
      destruct (localtime t') as [[[[[[[y mo] d] h] mi] sec] us]|e];
        [|discriminate].
      intros [= <-]. eexists. split; reflexivity.
Qed.

(** C8.  [ext_hook] decides by the tag alone: on [0x30] it unpacks two
    doubles into a complex number, on [0x31] it parses the payload as an
    integer literal (the decimal text of any integer gives that integer
    back), on [0x32] it unpacks a double and gives the local datetime at
    that time, without [tzinfo], on [0x33] it unpacks a C long and gives
    the date of that ordinal; and for any other tag it raises
    [SerializeError] naming the tag, whatever the payload. *)
Theorem ext_hook_dispatch (code : Z) (data : list byte) :
  (code = 0x30 ->
   MsgpackSerializer.ext_hook code data
   = (c ← unpack_dd machine data; Ok (PComplex (fst c) (snd c))))
  /\ (code = 0x31 ->
      MsgpackSerializer.ext_hook code data = (PInt <$> int_of_bytes data))
  /\ (code = 0x32 ->
      MsgpackSerializer.ext_hook code data
      = (t ← unpack_d machine data; datetime_fromtimestamp t))
  /\ (code = 0x33 ->
      MsgpackSerializer.ext_hook code data
      = (n ← unpack_l machine data; date_fromordinal n))
  /\ (code ∉ [0x30; 0x31; 0x32; 0x33] ->
      MsgpackSerializer.ext_hook code data
      = raise SerializeError
              ("invalid ext code for msgpack: " ++ str_of_int code))
  /\ (forall v, MsgpackSerializer.ext_hook 0x30 data = Ok v ->
        exists real imag, v = PComplex real imag)
  /\ (forall v, MsgpackSerializer.ext_hook 0x31 data = Ok v ->
        exists n, v = PInt n)
  /\ (forall n, MsgpackSerializer.ext_hook 0x31 (encode_text (str_of_int n))
                = Ok (PInt n))
  /\ (forall v, MsgpackSerializer.ext_hook 0x32 data = Ok v ->
        exists dt, v = PDatetime dt /\ dt_tzinfo dt = None)
  /\ (forall v, MsgpackSerializer.ext_hook 0x33 data = Ok v ->
        exists n, v = PDate n /\ unpack_l machine data = Ok n).
Proof.
  unfold MsgpackSerializer.ext_hook. repeat apply conj.
  - intros ->. reflexivity.
  - intros ->. reflexivity.
  - intros ->. reflexivity.
  - intros ->. reflexivity.
  - intros Hcode.
    assert (code <> 0x30 /\ code <> 0x31 /\ code <> 0x32 /\ code <> 0x33)
      as (H0 & H1 & H2 & H3) by (repeat split; intros ->; apply Hcode; set_solver).
    apply Z.eqb_neq in H0, H1, H2, H3. now rewrite H0, H1, H2, H3.
  - simpl. intros v. destruct (unpack_dd machine data) as [[re im]|e];
      [|discriminate]. intros [= <-]. now exists re, im.
  - simpl. intros v. destruct (int_of_bytes data) as [n|e]; [|discriminate].
    intros [= <-]. now exists n.
  - intros n. simpl. now rewrite int_of_bytes_str_of_int.
  - simpl. intros v. destruct (unpack_d machine data) as [t|e]; [|discriminate].
    simpl. unfold datetime_fromtimestamp.
    destruct (localtime t) as [[[[[[[y mo] d] h] mi] sec] us]|e]; [|discriminate].
    intros [= <-]. eexists. split; reflexivity.
  - simpl. intros v. destruct (unpack_l machine data) as [n|e]; [|discriminate].
    simpl. unfold date_fromordinal.
    destruct (n <? - 2 ^ 31); [discriminate|].
    destruct (2 ^ 31 <=? n); [discriminate|].
    destruct ((min_ordinal <=? n) && (n <=? max_ordinal)); [|discriminate].
    intros [= <-]. now exists n.
Qed.

Lemma loads_text depth reg s :
  MarshalSerializer.loads depth reg (PStr s) = mret (PStr s)
  /\ JsonSerializer.loads depth reg (json.String s) = mret (PStr s)
  /\ MsgpackSerializer.loads depth reg (msgpack.Str s) = mret (PStr s).
Proof. repeat split; reflexivity. Qed.

Lemma marshal_dumps_uuid reg n :
  MarshalSerializer.dumps reg (PUuid n) = Ok (PStr (str_of_uuid n)).
Proof.
  unfold MarshalSerializer.dumps. cbn [marshal.dumps raise].
  unfold MarshalSerializer.class_to_dict. cbn [mbind result_bind str marshal.dumps].
  reflexivity.
Qed.

Lemma pack_uuid default levels n s :
  default (PUuid n) = Ok (PStr s) ->
  msgpack.pack default (S levels) (PUuid n) = Ok (msgpack.Str s).
Proof. intros Hd. cbn [msgpack.pack]. rewrite Hd. reflexivity. Qed.

(** C10.  A [uuid.UUID] [u] is written as the text [str(u)] by the three
    adapters, and read back as that text: [MarshalSerializer.class_to_dict]
    and [dumps] give the text before the outbound registry is consulted;
    [JsonSerializer.default] and [MsgpackSerializer.default] give it for an
    object that reaches them as [u] (after the type replacement, if any),
    and [dumps] on [u] itself gives the text document; [loads] of that
    document is the text, not a UUID. *)
Theorem uuid_serialized_as_text
    (depth : nat) (reg : registries) (json_replacements : replacements)
    (msgpack_replacements : replacements) (obj : pyobj) (n : Z) :
  replace json_replacements obj = Ok (PUuid n) ->
  replace msgpack_replacements obj = Ok (PUuid n) ->
  (MarshalSerializer.class_to_dict reg (PUuid n) = Ok (PStr (str_of_uuid n))
   /\ MarshalSerializer.dumps reg (PUuid n) = Ok (PStr (str_of_uuid n))
   /\ MarshalSerializer.loads depth reg (PStr (str_of_uuid n))
      = mret (PStr (str_of_uuid n)))
  /\ (JsonSerializer.default json_replacements reg obj
      = Ok (PStr (str_of_uuid n))
      /\ (obj = PUuid n ->
          JsonSerializer.dumps (2 + depth) json_replacements reg obj
          = Ok (json.String (str_of_uuid n)))
      /\ JsonSerializer.loads depth reg (json.String (str_of_uuid n))
         = mret (PStr (str_of_uuid n)))
  /\ (MsgpackSerializer.default msgpack_replacements reg obj
      = Ok (PStr (str_of_uuid n))
      /\ (obj = PUuid n ->
          MsgpackSerializer.dumps msgpack_replacements reg obj
          = Ok (msgpack.Str (str_of_uuid n)))
      /\ MsgpackSerializer.loads depth reg (msgpack.Str (str_of_uuid n))
         = mret (PStr (str_of_uuid n))).
Proof.
  intros Hjson Hmsgpack.
  destruct (loads_text depth reg (str_of_uuid n)) as (Hl1 & Hl2 & Hl3).
  assert (Hjd : JsonSerializer.default json_replacements reg obj
                = Ok (PStr (str_of_uuid n))).
  { unfold JsonSerializer.default. rewrite Hjson. reflexivity. }
  assert (Hmd : MsgpackSerializer.default msgpack_replacements reg obj
                = Ok (PStr (str_of_uuid n))).
  { unfold MsgpackSerializer.default. rewrite Hmsgpack. reflexivity. }
  repeat apply conj; try assumption.
  - reflexivity.
  - apply marshal_dumps_uuid.
  - intros ->. unfold JsonSerializer.dumps. cbn [Nat.add json.dumps].
    rewrite Hjd. reflexivity.
  - intros ->. unfold MsgpackSerializer.dumps, msgpack.packb.
    now apply pack_uuid.
Qed.

End Ext.

(** ** Round trips *)

Lemma plain_induction (bytes_ok : bool) (P : pyobj -> Prop) :
  P PNone ->
  (forall b, P (PBool b)) ->
  (forall n, P (PInt n)) ->
  (forall s, P (PStr s)) ->
  (bytes_ok = true -> forall b, P (PBytes b)) ->
  (forall l, forallb (plain bytes_ok) l = true -> Forall P l -> P (PList l)) ->
  (forall l, forallb (plain bytes_ok) l = true -> Forall P l -> P (PTuple l)) ->
  (forall l, forallb (plain bytes_ok) l = true -> Forall P l -> P (PSet l)) ->
  (forall d,
     forallb (fun kv => plain_key (fst kv) && plain bytes_ok (snd kv)) d = true ->
     unique_keys d = true ->
     Forall (fun kv => P (snd kv)) d -> P (PDict d)) ->
  forall v, plain bytes_ok v = true -> P v.
Proof.
  intros Hnone Hbool Hint Hstr Hbytes Hlist Htuple Hset Hdict.
  fix IH 1. intros v Hv.
  destruct v; try discriminate Hv.
  - apply Hnone.
  - apply Hbool.
  - apply Hint.
  - apply Hstr.
  - apply Hbytes. exact Hv.
  - apply Hlist; [exact Hv|]. simpl in Hv.
    induction l as [|x l IHl]; constructor.
    + apply IH. simpl in Hv. now apply andb_true_iff in Hv as [Hx _].
    + apply IHl. simpl in Hv. now apply andb_true_iff in Hv as [_ Hl].
  - apply Htuple; [exact Hv|]. simpl in Hv.
    induction l as [|x l IHl]; constructor.
    + apply IH. simpl in Hv. now apply andb_true_iff in Hv as [Hx _].
    + apply IHl. simpl in Hv. now apply andb_true_iff in Hv as [_ Hl].
  - apply Hset; [exact Hv|]. simpl in Hv.
    induction l as [|x l IHl]; constructor.
    + apply IH. simpl in Hv. now apply andb_true_iff in Hv as [Hx _].
    + apply IHl. simpl in Hv. now apply andb_true_iff in Hv as [_ Hl].
  - simpl in Hv. apply andb_true_iff in Hv as [Hall Huniq].
    apply Hdict; [exact Hall | exact Huniq |]. clear Huniq.
    induction d as [|[k x] d IHd]; constructor.
    + simpl. apply IH. simpl in Hall.
      apply andb_true_iff in Hall as [Hkx _].
      now apply andb_true_iff in Hkx as [_ Hx].
    + apply IHd. simpl in Hall. now apply andb_true_iff in Hall as [_ Hd].
Qed.

(** ** Traversals *)

Lemma mapM_result_ext {A B} (f : A -> result B) (g : A -> B) l :
  Forall (fun x => f x = Ok (g x)) l -> mapM f l = Ok (map g l).
Proof.
  induction 1 as [|x l Hx _ IH]; [reflexivity|].
  cbn [mapM map]. rewrite Hx. cbn [mbind result_bind]. rewrite IH. reflexivity.
Qed.

Lemma mapM_M_ext {A B} (f : A -> M B) (g : A -> B) l :
  Forall (fun x => f x = mret (g x)) l -> mapM f l = mret (map g l).
Proof.
  induction 1 as [|x l Hx _ IH]; [reflexivity|].
  cbn [mapM map]. rewrite Hx.
  change (@mret M M_ret B (g x)) with (lift (Ok (g x))). rewrite lift_bind.
  rewrite IH.
  change (@mret M M_ret (list B) (map g l)) with (lift (Ok (map g l))).
  now rewrite lift_bind.
Qed.

Lemma fmap_M_ret {A B} (f : A -> B) (a : A) : f <$> (mret a : M A) = mret (f a).
Proof. reflexivity. Qed.

Lemma height_elem l x : In x l -> (height x <= list_max (map height l))%nat.
Proof.
  induction l as [|y l IH]; [easy|]. intros [->|Hin]; simpl; [lia|].
  specialize (IH Hin). lia.
Qed.

Lemma plain_key_get d :
  forallb (fun kv => plain_key (fst kv)) d = true ->
  dict_get d "__class__" = None.
Proof.
  induction d as [|[k v] d IH]; [reflexivity|]. simpl.
  intros Hall. apply andb_true_iff in Hall as [Hk Hd].
  destruct k; try discriminate Hk. simpl in *.
  rewrite negb_true_iff in Hk. rewrite Hk. now apply IH.
Qed.

Lemma plain_keys_only bytes_ok d :
  forallb (fun kv => plain_key (fst kv) && plain bytes_ok (snd kv)) d = true ->
  forallb (fun kv => plain_key (fst kv)) d = true.
Proof.
  induction d as [|[k v] d IH]; [reflexivity|]. simpl.
  intros Hall. apply andb_true_iff in Hall as [Hkv Hd].
  apply andb_true_iff in Hkv as [Hk _]. now rewrite Hk, IH.
Qed.

Section RoundTrip.
Context `{Host}.

Lemma recreate_classes_plain bytes_ok depth reg v :
  plain bytes_ok v = true -> recreate_classes depth reg v = mret v.
Proof.
  revert v. apply plain_induction; try reflexivity.
  - intros l _ IH. cbn [recreate_classes].
    rewrite (mapM_M_ext _ id) by exact IH. now rewrite map_id.
  - intros l _ IH. cbn [recreate_classes].
    rewrite (mapM_M_ext _ id) by exact IH. now rewrite map_id.
  - intros l _ IH. cbn [recreate_classes].
    rewrite (mapM_M_ext _ id) by exact IH. now rewrite map_id.
  - intros d Hall _ IH. cbn [recreate_classes].
    rewrite (plain_key_get d) by (eapply plain_keys_only; exact Hall).
    rewrite bool_decide_eq_false_2 by (intros [? ?]; discriminate).
    rewrite (mapM_M_ext _ id); [now rewrite map_id|].
    eapply Forall_impl; [exact IH|]. intros [k x] Hx. simpl in *.
    rewrite Hx. reflexivity.
Qed.

Lemma json_default_set repl reg l :
  repl !! "builtins.set" = None ->
  JsonSerializer.default repl reg (PSet l) = Ok (PTuple l).
Proof.
  intros Hset. unfold JsonSerializer.default.
  now rewrite (replace_none repl (PSet l) Hset).
Qed.

Lemma msgpack_default_set repl reg l :
  repl !! "builtins.set" = None ->
  MsgpackSerializer.default repl reg (PSet l) = Ok (PTuple l).
Proof.
  intros Hset. unfold MsgpackSerializer.default.
  now rewrite (replace_none repl (PSet l) Hset).
Qed.

Lemma msgpack_default_int repl reg n :
  repl !! "builtins.int" = None ->
  MsgpackSerializer.default repl reg (PInt n)
  = Ok (PExtType 0x31 (encode_text (str_of_int n))).
Proof.
  intros Hint. unfold MsgpackSerializer.default.
  now rewrite (replace_none repl (PInt n) Hint).
Qed.

Lemma marshal_dumps_plain v :
  plain true v = true -> marshal.dumps v = Ok v.
Proof.
  revert v. apply plain_induction; try reflexivity.
  - intros l _ IH. cbn [marshal.dumps].
    rewrite (mapM_result_ext _ id) by exact IH. now rewrite map_id.
  - intros l _ IH. cbn [marshal.dumps].
    rewrite (mapM_result_ext _ id) by exact IH. now rewrite map_id.
  - intros l _ IH. cbn [marshal.dumps].
    rewrite (mapM_result_ext _ id) by exact IH. now rewrite map_id.
  - intros d Hall _ IH. cbn [marshal.dumps].
    rewrite (mapM_result_ext _ id); [now rewrite map_id|].
    apply plain_keys_only in Hall.
    induction IH as [|[k x] d Hx _ IHd]; constructor.
    + simpl in *. apply andb_true_iff in Hall as [Hk _].
      destruct k; try discriminate Hk. cbn [marshal.dumps mbind result_bind].
      rewrite Hx. reflexivity.
    + apply IHd. simpl in Hall. now apply andb_true_iff in Hall as [_ Hd].
Qed.

Lemma json_dumps_plain repl reg v :
  repl !! "builtins.set" = None ->
  plain false v = true ->
  forall depth, (2 * height v <= depth)%nat ->
  JsonSerializer.dumps depth repl reg v = Ok (to_json v).
Proof.
  intros Hset. revert v. unfold JsonSerializer.dumps.
  apply (plain_induction false
    (fun v => forall depth, (2 * height v <= depth)%nat ->
       json.dumps depth (JsonSerializer.default repl reg) v = Ok (to_json v))).
  - intros [|depth] Hd; [simpl in Hd; lia | reflexivity].
  - intros b [|depth] Hd; [simpl in Hd; lia | reflexivity].
  - intros n [|depth] Hd; [simpl in Hd; lia | reflexivity].
  - intros s [|depth] Hd; [simpl in Hd; lia | reflexivity].
  - discriminate.
  - intros l _ IH [|depth] Hd; [simpl in Hd; lia|].
    cbn [json.dumps to_json].
    rewrite (mapM_result_ext _ to_json); [reflexivity|].
    rewrite List.Forall_forall in IH |- *. intros x Hx. apply IH; [exact Hx|].
    pose proof (height_elem l x Hx). cbn [height] in Hd. lia.
  - intros l _ IH [|depth] Hd; [simpl in Hd; lia|].
    cbn [json.dumps to_json].
    rewrite (mapM_result_ext _ to_json); [reflexivity|].
    rewrite List.Forall_forall in IH |- *. intros x Hx. apply IH; [exact Hx|].
    pose proof (height_elem l x Hx). cbn [height] in Hd. lia.
  - intros l _ IH [|[|depth]] Hd; [cbn [height] in Hd; lia..|].
    cbn [json.dumps]. rewrite (json_default_set repl reg l Hset).
    cbn [mbind result_bind json.dumps to_json].
    rewrite (mapM_result_ext _ to_json); [reflexivity|].
    rewrite List.Forall_forall in IH |- *. intros x Hx. apply IH; [exact Hx|].
    pose proof (height_elem l x Hx). cbn [height] in Hd. lia.
  - intros d Hall _ IH [|depth] Hd; [simpl in Hd; lia|].
    cbn [json.dumps to_json].
    rewrite (mapM_result_ext _ (fun kv => (match fst kv with PStr s => s | _ => "" end,
                                   to_json (snd kv)))); [reflexivity|].
    apply plain_keys_only in Hall.
    rewrite List.Forall_forall in IH |- *. intros [k x] Hx.
    rewrite forallb_forall in Hall. specialize (Hall _ Hx). simpl in Hall.
    destruct k; try discriminate Hall. cbn [fst snd json.key mbind result_bind].
    rewrite (IH _ Hx); [reflexivity|].
    cbn [height] in Hd.
    assert (Hle : (Nat.max (height (PStr s)) (height x)
                   <= list_max (map (fun kv => Nat.max (height (fst kv)) (height (snd kv))) d))%nat).
    { clear -Hx. induction d as [|y d IHd]; [easy|]. destruct Hx as [->|Hx]; simpl; [lia|].
      specialize (IHd Hx). simpl in IHd. lia. }
    simpl in Hle |- *. lia.
Qed.

Lemma dict_set_fresh acc k v :
  forallb (fun e => negb (key_is k (fst e))) acc = true ->
  dict_set acc k v = (acc ++ [(PStr k, v)])%list.
Proof.
  induction acc as [|[k' w] acc IH]; [reflexivity|]. simpl.
  intros Hall. apply andb_true_iff in Hall as [Hk Hacc].
  rewrite negb_true_iff in Hk. rewrite Hk. now rewrite IH.
Qed.

Lemma json_loads_members {J} (h : pyobj -> J) (g : J -> pyobj) d : forall acc,
  forallb (fun kv => plain_key (fst kv)) d = true ->
  unique_keys d = true ->
  forallb (fun kv => forallb (fun e => negb (same_key (fst kv) (fst e))) acc) d
  = true ->
  fold_left (fun a m => dict_set a (fst m) (g (snd m)))
            (map (fun kv => (match fst kv with PStr s => s | _ => "" end,
                             h (snd kv))) d) acc
  = (acc ++ map (fun kv => (fst kv, g (h (snd kv)))) d)%list.
Proof.
  induction d as [|[k x] d IH]; intros acc Hkeys Huniq Hfresh.
  - simpl. now rewrite app_nil_r.
  - simpl in *.
    apply andb_true_iff in Hkeys as [Hk Hkeys].
    apply andb_true_iff in Huniq as [Hnew Huniq].
    apply andb_true_iff in Hfresh as [Hfk Hfresh].
    destruct k as [| | | | |s| | | | | | | | | | | | | |]; try discriminate Hk.
    simpl in *. rewrite dict_set_fresh by exact Hfk.
    rewrite IH; [now rewrite <- app_assoc | exact Hkeys | exact Huniq |].
    clear IH. rewrite negb_true_iff in Hnew.
    induction d as [|[k' x'] d IHd]; [reflexivity|]. simpl in *.
    apply orb_false_iff in Hnew as [Hne Hnew].
    apply andb_true_iff in Hfresh as [Hf Hfresh].
    apply andb_true_iff in Hkeys as [Hk' Hkeys].
    apply andb_true_iff in Huniq as [_ Huniq].
    rewrite forallb_app, Hf. simpl.
    destruct k'; try discriminate Hk'. simpl in *.
    rewrite String.eqb_sym in Hne. rewrite Hne. simpl.
    now apply IHd.
Qed.

Lemma forallb_nil_acc {A} (d : list A) (f : A -> pyobj) :
  forallb (fun kv => forallb (fun e : pyobj * pyobj => negb (same_key (f kv) (fst e))) []) d
  = true.
Proof. induction d; simpl; auto. Qed.

Lemma json_loads_plain v :
  plain false v = true -> json.loads (to_json v) = listed v.
Proof.
  revert v. apply plain_induction; try reflexivity.
  - discriminate.
  - intros l _ IH. cbn [to_json json.loads listed]. f_equal.
    rewrite map_map. apply map_ext_Forall. exact IH.
  - intros l _ IH. cbn [to_json json.loads listed]. f_equal.
    rewrite map_map. apply map_ext_Forall. exact IH.
  - intros l _ IH. cbn [to_json json.loads listed]. f_equal.
    rewrite map_map. apply map_ext_Forall. exact IH.
  - intros d Hall Huniq IH. cbn [to_json json.loads listed]. f_equal.
    rewrite (json_loads_members to_json json.loads d []);
      [| now apply plain_keys_only in Hall | exact Huniq | apply forallb_nil_acc].
    simpl. apply map_ext_Forall.
    eapply Forall_impl; [exact IH|]. intros [k x] Hx. simpl in *. now rewrite Hx.
Qed.

Lemma msgpack_pack_plain repl reg v :
  repl !! "builtins.set" = None ->
  repl !! "builtins.int" = None ->
  plain true v = true ->
  forall levels, (height v <= levels)%nat ->
  msgpack.pack (MsgpackSerializer.default repl reg) levels v
  = Ok (to_msgpack v).
Proof.
  intros Hset Hint. revert v.
  apply (plain_induction true
    (fun v => forall levels, (height v <= levels)%nat ->
       msgpack.pack (MsgpackSerializer.default repl reg) levels v
       = Ok (to_msgpack v))).
  - intros [|levels] Hd; [simpl in Hd; lia | reflexivity].
  - intros b [|levels] Hd; [simpl in Hd; lia | reflexivity].
  - intros n [|levels] Hd; [simpl in Hd; lia |].
    cbn [msgpack.pack to_msgpack].
    destruct ((- 2 ^ 63 <=? n) && (n <? 2 ^ 64)); [reflexivity|].
    rewrite (msgpack_default_int repl reg n Hint). reflexivity.
  - intros s [|levels] Hd; [simpl in Hd; lia | reflexivity].
  - intros _ b [|levels] Hd; [simpl in Hd; lia | reflexivity].
  - intros l _ IH [|levels] Hd; [simpl in Hd; lia|].
    cbn [msgpack.pack to_msgpack].
    rewrite (mapM_result_ext _ to_msgpack); [reflexivity|].
    rewrite List.Forall_forall in IH |- *. intros x Hx. apply IH; [exact Hx|].
    pose proof (height_elem l x Hx). cbn [height] in Hd. lia.
  - intros l _ IH [|levels] Hd; [simpl in Hd; lia|].
    cbn [msgpack.pack to_msgpack].
    rewrite (mapM_result_ext _ to_msgpack); [reflexivity|].
    rewrite List.Forall_forall in IH |- *. intros x Hx. apply IH; [exact Hx|].
    pose proof (height_elem l x Hx). cbn [height] in Hd. lia.
  - intros l _ IH [|levels] Hd; [simpl in Hd; lia|].
    cbn [msgpack.pack]. rewrite (msgpack_default_set repl reg l Hset).
    cbn [mbind result_bind to_msgpack].
    rewrite (mapM_result_ext _ to_msgpack); [reflexivity|].
    rewrite List.Forall_forall in IH |- *. intros x Hx. apply IH; [exact Hx|].
    pose proof (height_elem l x Hx). cbn [height] in Hd. lia.
  - intros d Hall _ IH [|levels] Hd; [simpl in Hd; lia|].
    cbn [msgpack.pack to_msgpack].
    rewrite (mapM_result_ext _ (fun kv => (to_msgpack (fst kv), to_msgpack (snd kv))));
      [reflexivity|].
    apply plain_keys_only in Hall.
    rewrite List.Forall_forall in IH |- *. intros [k x] Hx.
    rewrite forallb_forall in Hall. specialize (Hall _ Hx). simpl in Hall.
    destruct k; try discriminate Hall. cbn [fst snd].
    cbn [height] in Hd.
    assert (Hle : (Nat.max (height (PStr s)) (height x)
                   <= list_max (map (fun kv => Nat.max (height (fst kv)) (height (snd kv))) d))%nat).
    { clear -Hx. induction d as [|y d IHd]; [easy|]. destruct Hx as [->|Hx]; simpl; [lia|].
      specialize (IHd Hx). simpl in IHd. lia. }
    destruct levels as [|levels]; [simpl in Hle; lia|].
    assert (Hkey : msgpack.pack (MsgpackSerializer.default repl reg) (S levels)
                     (PStr s) = Ok (msgpack.Str s)) by reflexivity.
    rewrite Hkey. cbn [mbind result_bind].
    specialize (IH _ Hx (S levels)). cbn [snd] in IH.
    rewrite IH; [reflexivity|]. simpl in Hle |- *. lia.
Qed.

Lemma mapM_M_map {A J B} (f : J -> M B) (h : A -> J) (g : A -> B) l :
  Forall (fun x => f (h x) = mret (g x)) l ->
  mapM f (map h l) = mret (map g l).
Proof.
  induction 1 as [|x l Hx _ IH]; [reflexivity|].
  cbn [mapM map]. rewrite Hx.
  change (@mret M M_ret B (g x)) with (lift (Ok (g x))). rewrite lift_bind.
  cbn [map] in IH. rewrite IH.
  change (@mret M M_ret (list B) (map g l)) with (lift (Ok (map g l))).
  now rewrite lift_bind.
Qed.

Lemma ext_hook_int n :
  MsgpackSerializer.ext_hook 0x31 (encode_text (str_of_int n)) = Ok (PInt n).
Proof.
  unfold MsgpackSerializer.ext_hook. simpl. now rewrite int_of_bytes_str_of_int.
Qed.

(** *** Dicts with different keys *)

Lemma dict_store_fresh acc k v :
  forallb (fun e => negb (key_eq (fst e) k)) acc = true ->
  dict_store acc k v = (acc ++ [(k, v)])%list.
Proof.
  induction acc as [|[k' w] acc IH]; [reflexivity|]. simpl.
  intros Hall. apply andb_true_iff in Hall as [Hk Hacc].
  rewrite negb_true_iff in Hk. rewrite Hk. now rewrite IH.
Qed.

Lemma fold_dict_store d : forall acc,
  distinct_keys d = true ->
  forallb (fun e => forallb (fun kv => negb (key_eq (fst e) (fst kv))) d) acc
  = true ->
  fold_left (fun a kv => dict_store a (fst kv) (snd kv)) d acc = (acc ++ d)%list.
Proof.
  induction d as [|[k x] d IH]; intros acc Hd Hacc.
  - simpl. now rewrite app_nil_r.
  - simpl in Hd. apply andb_true_iff in Hd as [Hk Hd].
    cbn [fold_left fst snd]. rewrite dict_store_fresh.
    + rewrite IH; [now rewrite <- app_assoc | exact Hd |].
      rewrite forallb_app. apply andb_true_iff. split.
      * rewrite forallb_forall in Hacc |- *. intros e He.
        specialize (Hacc e He). simpl in Hacc.
        now apply andb_true_iff in Hacc as [_ Hrest].
      * simpl. now rewrite Hk.
    + rewrite forallb_forall in Hacc |- *. intros e He.
      specialize (Hacc e He). simpl in Hacc.
      now apply andb_true_iff in Hacc as [Hhead _].
Qed.

(** A dict that is filled with pairs of different keys holds the pairs. *)
Lemma dict_of_pairs_distinct d : distinct_keys d = true -> dict_of_pairs d = d.
Proof. intros Hd. unfold dict_of_pairs. now rewrite fold_dict_store. Qed.

Lemma distinct_keys_values (g : pyobj -> pyobj) d :
  distinct_keys (map (fun kv => (fst kv, g (snd kv))) d) = distinct_keys d.
Proof.
  induction d as [|[k x] d IH]; [reflexivity|]. simpl. rewrite IH. f_equal.
  clear IH. induction d as [|[k' x'] d IH]; [reflexivity|].
  simpl. now rewrite IH.
Qed.

Lemma dict_get_values (g : pyobj -> pyobj) d name :
  dict_get d name = None ->
  dict_get (map (fun kv => (fst kv, g (snd kv))) d) name = None.
Proof.
  induction d as [|[k x] d IH]; [reflexivity|]. simpl.
  destruct (key_is name k); [discriminate | exact IH].
Qed.

Lemma key_eq_text s s' : key_eq (PStr s) (PStr s') = String.eqb s s'.
Proof. reflexivity. Qed.

Lemma same_key_text s s' : same_key (PStr s) (PStr s') = String.eqb s s'.
Proof. apply String.eqb_sym. Qed.

Lemma unique_keys_distinct d :
  forallb (fun kv => plain_key (fst kv)) d = true ->
  unique_keys d = true -> distinct_keys d = true.
Proof.
  induction d as [|[k x] d IH]; [reflexivity|].
  cbn [forallb unique_keys distinct_keys fst]. intros Hkeys Huniq.
  apply andb_true_iff in Hkeys as [Hk Hkeys].
  apply andb_true_iff in Huniq as [Hnew Huniq].
  rewrite IH by assumption. rewrite andb_true_r.
  destruct k; try discriminate Hk. clear IH Huniq Hk.
  rewrite negb_true_iff in Hnew.
  induction d as [|[k' x'] d IHd]; [reflexivity|].
  cbn [forallb existsb fst] in *.
  apply orb_false_iff in Hnew as [Hne Hnew].
  apply andb_true_iff in Hkeys as [Hk' Hkeys].
  rewrite IHd by assumption. rewrite andb_true_r.
  destruct k'; try discriminate Hk'.
  rewrite same_key_text in Hne. now rewrite key_eq_text, Hne.
Qed.

Lemma text_keys_plain d :
  forallb (fun kv => key_for Json (fst kv)) d = true ->
  dict_get d "__class__" = None ->
  forallb (fun kv => plain_key (fst kv)) d = true.
Proof.
  induction d as [|[k x] d IH]; [reflexivity|]. simpl.
  intros Hkeys Hget. apply andb_true_iff in Hkeys as [Hk Hkeys].
  destruct k; try discriminate Hk. simpl in *.
  destruct (String.eqb s "__class__"); [discriminate Hget|].
  now apply IH.
Qed.

Lemma distinct_keys_unique d :
  forallb (fun kv => key_for Json (fst kv)) d = true ->
  distinct_keys d = true -> unique_keys d = true.
Proof.
  induction d as [|[k x] d IH]; [reflexivity|].
  cbn [forallb unique_keys distinct_keys fst]. intros Hkeys Hdist.
  apply andb_true_iff in Hkeys as [Hk Hkeys].
  apply andb_true_iff in Hdist as [Hnew Hdist].
  rewrite IH by assumption. rewrite andb_true_r.
  destruct k; try discriminate Hk. clear IH Hdist Hk.
  rewrite negb_true_iff.
  induction d as [|[k' x'] d IHd]; [reflexivity|].
  cbn [forallb existsb fst] in *.
  apply andb_true_iff in Hnew as [Hne Hnew].
  apply andb_true_iff in Hkeys as [Hk' Hkeys].
  rewrite IHd by assumption. rewrite orb_false_r.
  destruct k'; try discriminate Hk'.
  rewrite negb_true_iff, key_eq_text in Hne. now rewrite same_key_text, Hne.
Qed.

(** *** Induction over the grammar *)

Lemma canonical_induction (f : format) (P : pyobj -> Prop) :
  P PNone ->
  (forall b, P (PBool b)) ->
  (forall n, P (PInt n)) ->
  (forall s, P (PStr s)) ->
  (forall x, canonical f (PFloat x) = true -> P (PFloat x)) ->
  (forall b, canonical f (PBytes b) = true -> P (PBytes b)) ->
  (forall l, Forall P l -> P (PList l)) ->
  (forall l, Forall P l -> P (PTuple l)) ->
  (forall l, Forall P l -> P (PSet l)) ->
  (forall d,
     forallb (fun kv => key_for f (fst kv)) d = true ->
     distinct_keys d = true ->
     dict_get d "__class__" = None ->
     Forall (fun kv => P (fst kv) /\ P (snd kv)) d -> P (PDict d)) ->
  forall v, canonical f v = true -> P v.
Proof.
  intros Hnone Hbool Hint Hstr Hfloat Hbytes Hlist Htuple Hset Hdict.
  fix IH 1. intros v Hv.
  destruct v; try discriminate Hv.
  - apply Hnone.
  - apply Hbool.
  - apply Hint.
  - now apply Hfloat.
  - apply Hstr.
  - now apply Hbytes.
  - apply Hlist. simpl in Hv.
    induction l as [|x l IHl]; constructor.
    + apply IH. simpl in Hv. now apply andb_true_iff in Hv as [Hx _].
    + apply IHl. simpl in Hv. now apply andb_true_iff in Hv as [_ Hl].
  - apply Htuple. simpl in Hv.
    induction l as [|x l IHl]; constructor.
    + apply IH. simpl in Hv. now apply andb_true_iff in Hv as [Hx _].
    + apply IHl. simpl in Hv. now apply andb_true_iff in Hv as [_ Hl].
  - apply Hset. simpl in Hv.
    induction l as [|x l IHl]; constructor.
    + apply IH. simpl in Hv. now apply andb_true_iff in Hv as [Hx _].
    + apply IHl. simpl in Hv. now apply andb_true_iff in Hv as [_ Hl].
  - cbn [canonical] in Hv.
    apply andb_true_iff in Hv as [Hv Htag].
    apply andb_true_iff in Hv as [Hall Hdist].
    rewrite negb_true_iff in Htag.
    apply Hdict; [| exact Hdist | |].
    + clear -Hall. induction d as [|[k x] d IHd]; [reflexivity|]. simpl in *.
      apply andb_true_iff in Hall as [Hkx Hd].
      apply andb_true_iff in Hkx as [Hkx _].
      apply andb_true_iff in Hkx as [Hk _]. now rewrite Hk, IHd.
    + destruct (dict_get d "__class__") eqn:E; [|reflexivity].
      rewrite bool_decide_eq_true_2 in Htag by eauto. discriminate.
    + clear Hdist Htag.
      induction d as [|[k x] d IHd]; constructor.
      * simpl in Hall. apply andb_true_iff in Hall as [Hkx _].
        apply andb_true_iff in Hkx as [Hkx Hx].
        apply andb_true_iff in Hkx as [_ Hk].
        split; apply IH; assumption.
      * apply IHd. simpl in Hall. now apply andb_true_iff in Hall as [_ Hd].
Qed.

Lemma scalar_listed k : scalar k = true -> listed k = k.
Proof. now destruct k. Qed.

Lemma scalar_hashable k : scalar k = true -> hashable k = true.
Proof. now destruct k. Qed.

(** A plain value is a value of the grammar, for every format that takes
    its byte strings. *)
Lemma plain_canonical (f : format) bytes_ok v :
  (f = Json -> bytes_ok = false) ->
  plain bytes_ok v = true -> canonical f v = true.
Proof.
  intros Hbytes. revert v. apply plain_induction; try reflexivity.
  - intros Hb b. destruct f; try reflexivity. rewrite Hbytes in Hb by reflexivity.
    discriminate.
  - intros l _ IH. cbn [canonical]. apply forallb_forall.
    rewrite List.Forall_forall in IH. exact IH.
  - intros l _ IH. cbn [canonical]. apply forallb_forall.
    rewrite List.Forall_forall in IH. exact IH.
  - intros l _ IH. cbn [canonical]. apply forallb_forall.
    rewrite List.Forall_forall in IH. exact IH.
  - intros d Hall Huniq IH. cbn [canonical].
    pose proof (plain_keys_only _ _ Hall) as Hkeys.
    rewrite (unique_keys_distinct d Hkeys Huniq), (plain_key_get d Hkeys).
    rewrite bool_decide_eq_false_2 by (intros [? ?]; discriminate).
    rewrite !andb_true_r. apply forallb_forall. intros [k x] Hx.
    rewrite List.Forall_forall in IH. specialize (IH _ Hx). cbn [snd] in IH.
    rewrite forallb_forall in Hkeys. specialize (Hkeys _ Hx).
    cbn [fst snd] in *.
    destruct k; try discriminate Hkeys. rewrite IH.
    now destruct f.
Qed.

(** *** The adapters on the grammar *)

Lemma recreate_classes_canonical f depth reg v :
  canonical f v = true -> recreate_classes depth reg v = mret v.
Proof.
  revert v. apply canonical_induction; try reflexivity.
  - intros l IH. cbn [recreate_classes].
    rewrite (mapM_M_ext _ id) by exact IH. now rewrite map_id.
  - intros l IH. cbn [recreate_classes].
    rewrite (mapM_M_ext _ id) by exact IH. now rewrite map_id.
  - intros l IH. cbn [recreate_classes].
    rewrite (mapM_M_ext _ id) by exact IH. now rewrite map_id.
  - intros d _ _ Htag IH. cbn [recreate_classes]. rewrite Htag.
    rewrite bool_decide_eq_false_2 by (intros [? ?]; discriminate).
    rewrite (mapM_M_ext _ id); [now rewrite map_id|].
    eapply Forall_impl; [exact IH|]. intros [k x] [_ Hx]. simpl in *.
    rewrite Hx. reflexivity.
Qed.

Lemma canonical_listed f v :
  canonical f v = true -> canonical f (listed v) = true.
Proof.
  intros Hv.
  enough (canonical f v = true /\ canonical f (listed v) = true) as [_ Hl]
    by exact Hl.
  revert v Hv. apply canonical_induction; try (split; reflexivity).
  - intros x Hx. now split.
  - intros b Hb. now split.
  - intros l IH. rewrite List.Forall_forall in IH.
    cbn [listed canonical]. split; apply forallb_forall; intros y Hy.
    + now apply IH.
    + apply in_map_iff in Hy as (x & <- & Hx). now apply IH.
  - intros l IH. rewrite List.Forall_forall in IH.
    cbn [listed canonical]. split; apply forallb_forall; intros y Hy.
    + now apply IH.
    + apply in_map_iff in Hy as (x & <- & Hx). now apply IH.
  - intros l IH. rewrite List.Forall_forall in IH.
    cbn [listed canonical]. split; apply forallb_forall; intros y Hy.
    + now apply IH.
    + apply in_map_iff in Hy as (x & <- & Hx). now apply IH.
  - intros d Hkeys Hdist Htag IH. rewrite List.Forall_forall in IH.
    rewrite forallb_forall in Hkeys.
    cbn [listed canonical].
    rewrite distinct_keys_values, Hdist, (dict_get_values _ _ _ Htag), Htag.
    rewrite bool_decide_eq_false_2 by (intros [? ?]; discriminate).
    rewrite !andb_true_r. split; apply forallb_forall; intros y Hy.
    + destruct y as [k x]. destruct (IH _ Hy) as [[Hk _] [Hx _]].
      specialize (Hkeys _ Hy). cbn [fst snd] in *. now rewrite Hkeys, Hk, Hx.
    + apply in_map_iff in Hy as ([k x] & <- & Hx).
      destruct (IH _ Hx) as [[Hk _] [_ Hlx]].
      specialize (Hkeys _ Hx). cbn [fst snd] in *. now rewrite Hkeys, Hk, Hlx.
Qed.

Lemma marshal_dumps_canonical v :
  canonical Marshal v = true -> marshal.dumps v = Ok v.
Proof.
  revert v. apply canonical_induction; try reflexivity.
  - intros l IH. cbn [marshal.dumps].
    rewrite (mapM_result_ext _ id) by exact IH. now rewrite map_id.
  - intros l IH. cbn [marshal.dumps].
    rewrite (mapM_result_ext _ id) by exact IH. now rewrite map_id.
  - intros l IH. cbn [marshal.dumps].
    rewrite (mapM_result_ext _ id) by exact IH. now rewrite map_id.
  - intros d _ _ _ IH. cbn [marshal.dumps].
    rewrite (mapM_result_ext _ id); [now rewrite map_id|].
    eapply Forall_impl; [exact IH|]. intros [k x] [Hk Hx]. simpl in *.
    now rewrite Hk, Hx.
Qed.

Lemma height_pair d k x :
  In (k, x) d ->
  (Nat.max (height k) (height x)
   <= list_max (map (fun kv => Nat.max (height (fst kv)) (height (snd kv))) d))%nat.
Proof.
  induction d as [|y d IHd]; [easy|]. intros [->|Hx]; simpl; [lia|].
  specialize (IHd Hx). simpl in IHd. lia.
Qed.

Lemma json_dumps_canonical repl reg v :
  repl !! "builtins.set" = None ->
  canonical Json v = true ->
  forall depth, (2 * height v <= depth)%nat ->
  JsonSerializer.dumps depth repl reg v = Ok (to_json v).
Proof.
  intros Hset. revert v. unfold JsonSerializer.dumps.
  apply (canonical_induction Json
    (fun v => forall depth, (2 * height v <= depth)%nat ->
       json.dumps depth (JsonSerializer.default repl reg) v = Ok (to_json v))).
  - intros [|depth] Hd; [simpl in Hd; lia | reflexivity].
  - intros b [|depth] Hd; [simpl in Hd; lia | reflexivity].
  - intros n [|depth] Hd; [simpl in Hd; lia | reflexivity].
  - intros s [|depth] Hd; [simpl in Hd; lia | reflexivity].
  - intros x Hx [|depth] Hd; [simpl in Hd; lia|].
    cbn [canonical] in Hx. rewrite negb_true_iff in Hx.
    cbn [json.dumps to_json]. now rewrite Hx.
  - discriminate.
  - intros l IH [|depth] Hd; [simpl in Hd; lia|].
    cbn [json.dumps to_json].
    rewrite (mapM_result_ext _ to_json); [reflexivity|].
    rewrite List.Forall_forall in IH |- *. intros x Hx. apply IH; [exact Hx|].
    pose proof (height_elem l x Hx). cbn [height] in Hd. lia.
  - intros l IH [|depth] Hd; [simpl in Hd; lia|].
    cbn [json.dumps to_json].
    rewrite (mapM_result_ext _ to_json); [reflexivity|].
    rewrite List.Forall_forall in IH |- *. intros x Hx. apply IH; [exact Hx|].
    pose proof (height_elem l x Hx). cbn [height] in Hd. lia.
  - intros l IH [|[|depth]] Hd; [cbn [height] in Hd; lia..|].
    cbn [json.dumps]. rewrite (json_default_set repl reg l Hset).
    cbn [mbind result_bind json.dumps to_json].
    rewrite (mapM_result_ext _ to_json); [reflexivity|].
    rewrite List.Forall_forall in IH |- *. intros x Hx. apply IH; [exact Hx|].
    pose proof (height_elem l x Hx). cbn [height] in Hd. lia.
  - intros d Hkeys _ _ IH [|depth] Hd; [simpl in Hd; lia|].
    cbn [json.dumps to_json].
    rewrite (mapM_result_ext _
               (fun kv => (match fst kv with PStr s => s | _ => "" end,
                           to_json (snd kv)))); [reflexivity|].
    rewrite List.Forall_forall in IH |- *. intros [k x] Hx.
    rewrite forallb_forall in Hkeys. specialize (Hkeys _ Hx). simpl in Hkeys.
    destruct k; try discriminate Hkeys. cbn [fst snd json.key mbind result_bind].
    destruct (IH _ Hx) as [_ IHx]. cbn [snd] in IHx.
    rewrite IHx; [reflexivity|].
    pose proof (height_pair d _ _ Hx) as Hle. cbn [height] in Hd.
    simpl in Hle |- *. lia.
Qed.

Lemma json_loads_canonical v :
  canonical Json v = true -> json.loads (to_json v) = listed v.
Proof.
  revert v. apply canonical_induction; try reflexivity.
  - discriminate.
  - intros l IH. cbn [to_json json.loads listed]. f_equal.
    rewrite map_map. apply map_ext_Forall. exact IH.
  - intros l IH. cbn [to_json json.loads listed]. f_equal.
    rewrite map_map. apply map_ext_Forall. exact IH.
  - intros l IH. cbn [to_json json.loads listed]. f_equal.
    rewrite map_map. apply map_ext_Forall. exact IH.
  - intros d Hkeys Hdist Htag IH. cbn [to_json json.loads listed]. f_equal.
    rewrite (json_loads_members to_json json.loads d []);
      [| now apply text_keys_plain | now apply distinct_keys_unique
       | apply forallb_nil_acc].
    simpl. apply map_ext_Forall.
    eapply Forall_impl; [exact IH|]. intros [k x] [_ Hx]. simpl in *.
    now rewrite Hx.
Qed.

Lemma msgpack_pack_canonical repl reg v :
  repl !! "builtins.set" = None ->
  repl !! "builtins.int" = None ->
  canonical Msgpack v = true ->
  forall levels, (height v <= levels)%nat ->
  msgpack.pack (MsgpackSerializer.default repl reg) levels v
  = Ok (to_msgpack v).
Proof.
  intros Hset Hint. revert v.
  apply (canonical_induction Msgpack
    (fun v => forall levels, (height v <= levels)%nat ->
       msgpack.pack (MsgpackSerializer.default repl reg) levels v
       = Ok (to_msgpack v))).
  - intros [|levels] Hd; [simpl in Hd; lia | reflexivity].
  - intros b [|levels] Hd; [simpl in Hd; lia | reflexivity].
  - intros n [|levels] Hd; [simpl in Hd; lia |].
    cbn [msgpack.pack to_msgpack].
    destruct ((- 2 ^ 63 <=? n) && (n <? 2 ^ 64)); [reflexivity|].
    rewrite (msgpack_default_int repl reg n Hint). reflexivity.
  - intros s [|levels] Hd; [simpl in Hd; lia | reflexivity].
  - intros x _ [|levels] Hd; [simpl in Hd; lia | reflexivity].
  - intros b _ [|levels] Hd; [simpl in Hd; lia | reflexivity].
  - intros l IH [|levels] Hd; [simpl in Hd; lia|].
    cbn [msgpack.pack to_msgpack].
    rewrite (mapM_result_ext _ to_msgpack); [reflexivity|].
    rewrite List.Forall_forall in IH |- *. intros x Hx. apply IH; [exact Hx|].
    pose proof (height_elem l x Hx). cbn [height] in Hd. lia.
  - intros l IH [|levels] Hd; [simpl in Hd; lia|].
    cbn [msgpack.pack to_msgpack].
    rewrite (mapM_result_ext _ to_msgpack); [reflexivity|].
    rewrite List.Forall_forall in IH |- *. intros x Hx. apply IH; [exact Hx|].
    pose proof (height_elem l x Hx). cbn [height] in Hd. lia.
  - intros l IH [|levels] Hd; [simpl in Hd; lia|].
    cbn [msgpack.pack]. rewrite (msgpack_default_set repl reg l Hset).
    cbn [mbind result_bind to_msgpack].
    rewrite (mapM_result_ext _ to_msgpack); [reflexivity|].
    rewrite List.Forall_forall in IH |- *. intros x Hx. apply IH; [exact Hx|].
    pose proof (height_elem l x Hx). cbn [height] in Hd. lia.
  - intros d _ _ _ IH [|levels] Hd; [simpl in Hd; lia|].
    cbn [msgpack.pack to_msgpack].
    rewrite (mapM_result_ext _
               (fun kv => (to_msgpack (fst kv), to_msgpack (snd kv))));
      [reflexivity|].
    rewrite List.Forall_forall in IH |- *. intros [k x] Hx.
    destruct (IH _ Hx) as [IHk IHx]. cbn [fst snd] in *.
    pose proof (height_pair d _ _ Hx) as Hle. cbn [height] in Hd.
    rewrite IHk by lia. cbn [mbind result_bind].
    rewrite IHx by lia. reflexivity.
Qed.

Lemma msgpack_unpack_canonical depth reg v :
  canonical Msgpack v = true ->
  msgpack.unpackb (MsgpackSerializer.object_hook depth reg)
                  MsgpackSerializer.ext_hook (to_msgpack v)
  = mret (listed v).
Proof.
  revert v. apply canonical_induction; try reflexivity.
  - intros n. cbn [to_msgpack].
    destruct ((- 2 ^ 63 <=? n) && (n <? 2 ^ 64)); [reflexivity|].
    cbn [msgpack.unpackb]. rewrite ext_hook_int. reflexivity.
  - intros l IH. cbn [to_msgpack msgpack.unpackb listed].
    rewrite (mapM_M_map _ to_msgpack listed l IH). reflexivity.
  - intros l IH. cbn [to_msgpack msgpack.unpackb listed].
    rewrite (mapM_M_map _ to_msgpack listed l IH). reflexivity.
  - intros l IH. cbn [to_msgpack msgpack.unpackb listed].
    rewrite (mapM_M_map _ to_msgpack listed l IH). reflexivity.
  - intros d Hkeys Hdist Htag IH. cbn [to_msgpack msgpack.unpackb listed].
    rewrite (mapM_M_map _ (fun kv => (to_msgpack (fst kv), to_msgpack (snd kv)))
               (fun kv => (fst kv, listed (snd kv))) d).
    + change (@mret M M_ret pydict ?x) with (lift (Ok x)). rewrite lift_bind.
      rewrite dict_of_pairs_distinct by now rewrite distinct_keys_values.
      unfold MsgpackSerializer.object_hook.
      rewrite (dict_get_values _ _ _ Htag).
      now rewrite bool_decide_eq_false_2 by (intros [? ?]; discriminate).
    + rewrite List.Forall_forall in IH |- *. intros [k x] Hx.
      rewrite forallb_forall in Hkeys. specialize (Hkeys _ Hx).
      cbn [fst snd key_for] in *.
      destruct (IH _ Hx) as [IHk IHx]. cbn [fst snd] in *.
      rewrite IHk, (scalar_listed k Hkeys).
      change (@mret M M_ret pyobj k) with (lift (Ok k)). rewrite lift_bind.
      rewrite IHx.
      change (@mret M M_ret pyobj (listed x)) with (lift (Ok (listed x))).
      rewrite lift_bind. now rewrite (scalar_hashable k Hkeys).
Qed.

Lemma msgpack_unpack_plain depth reg v :
  plain true v = true ->
  msgpack.unpackb (MsgpackSerializer.object_hook depth reg)
                  MsgpackSerializer.ext_hook (to_msgpack v)
  = mret (listed v).
Proof.
  intros Hv. apply msgpack_unpack_canonical.
  now apply (plain_canonical Msgpack true).
Qed.

Lemma unique_keys_listed d :
  unique_keys (map (fun kv => (fst kv, listed (snd kv))) d) = unique_keys d.
Proof.
  induction d as [|[k x] d IH]; [reflexivity|]. simpl. rewrite IH. f_equal.
  f_equal. clear IH. induction d as [|[k' x'] d IH]; [reflexivity|].
  simpl. now rewrite IH.
Qed.

Lemma plain_listed bytes_ok v :
  plain bytes_ok v = true -> plain bytes_ok (listed v) = true.
Proof.
  revert v. apply plain_induction; try reflexivity.
  - intros Hb b. exact Hb.
  - intros l _ IH. cbn [listed plain]. rewrite forallb_forall.
    intros y Hy. apply in_map_iff in Hy as (x & <- & Hx).
    rewrite List.Forall_forall in IH. now apply IH.
  - intros l _ IH. cbn [listed plain]. rewrite forallb_forall.
    intros y Hy. apply in_map_iff in Hy as (x & <- & Hx).
    rewrite List.Forall_forall in IH. now apply IH.
  - intros l _ IH. cbn [listed plain]. rewrite forallb_forall.
    intros y Hy. apply in_map_iff in Hy as (x & <- & Hx).
    rewrite List.Forall_forall in IH. now apply IH.
  - intros d Hall Huniq IH. cbn [listed plain].
    rewrite unique_keys_listed, Huniq, andb_true_r. rewrite forallb_forall.
    intros y Hy. apply in_map_iff in Hy as ([k x] & <- & Hx). simpl.
    rewrite List.Forall_forall in IH. specialize (IH _ Hx). cbn [snd] in IH.
    rewrite IH, andb_true_r.
    apply plain_keys_only in Hall. rewrite forallb_forall in Hall.
    exact (Hall _ Hx).
Qed.

Lemma listed_id bytes_ok v :
  plain bytes_ok v = true -> has_set_or_tuple v = false -> listed v = v.
Proof.
  revert v.
  apply (plain_induction bytes_ok
           (fun v => has_set_or_tuple v = false -> listed v = v));
    try reflexivity; try discriminate.
  - intros l _ IH Hnone. cbn [listed has_set_or_tuple] in *. f_equal.
    rewrite <- (map_id l) at 2. apply map_ext_Forall.
    rewrite List.Forall_forall in IH |- *. intros x Hx. apply IH; [exact Hx|].
    destruct (has_set_or_tuple x) eqn:E; [|reflexivity].
    rewrite <- Hnone. symmetry. apply existsb_exists. now exists x.
  - intros d _ _ IH Hnone. cbn [listed has_set_or_tuple] in *. f_equal.
    rewrite <- (map_id d) at 2. apply map_ext_Forall.
    rewrite List.Forall_forall in IH |- *. intros [k x] Hx. simpl.
    specialize (IH _ Hx). cbn [snd] in IH.
    rewrite IH; [reflexivity|].
    destruct (has_set_or_tuple x) eqn:E; [|reflexivity].
    rewrite <- Hnone. symmetry. apply existsb_exists. now exists (k, x).
Qed.

(** A value without set and tuple is its own list form. *)
Lemma listed_fixed v : has_set_or_tuple v = false -> listed v = v.
Proof.
  revert v. fix IH 1. intros v Hv. destruct v; try reflexivity;
    try discriminate Hv.
  - cbn [listed has_set_or_tuple] in *. f_equal.
    induction l as [|x l IHl]; [reflexivity|]. simpl in *.
    apply orb_false_iff in Hv as [Hx Hl]. now rewrite IH, IHl.
  - cbn [listed has_set_or_tuple] in *. f_equal.
    induction d as [|[k x] d IHd]; [reflexivity|]. simpl in *.
    apply orb_false_iff in Hv as [Hx Hd]. now rewrite IH, IHd.
Qed.

Section Serpent.

Variable float : pyobj -> result pyobj.

(** As [recreate_classes] of the other adapters, the one of the serpent
    adapter gives a value without class tag back as it is. *)
Lemma serpent_recreate_classes_untagged depth reg literal :
  untagged literal = true ->
  SerpentSerializer.recreate_classes float depth reg literal = mret literal.
Proof.
  revert literal. fix IH 1. intros literal Hv.
  destruct literal; try reflexivity.
  - cbn [SerpentSerializer.recreate_classes].
    rewrite (mapM_M_ext _ id); [now rewrite map_id|].
    simpl in Hv. induction l as [|x l IHl]; constructor.
    + apply IH. simpl in Hv. now apply andb_true_iff in Hv as [Hx _].
    + apply IHl. simpl in Hv. now apply andb_true_iff in Hv as [_ Hl].
  - cbn [SerpentSerializer.recreate_classes].
    rewrite (mapM_M_ext _ id); [now rewrite map_id|].
    simpl in Hv. induction l as [|x l IHl]; constructor.
    + apply IH. simpl in Hv. now apply andb_true_iff in Hv as [Hx _].
    + apply IHl. simpl in Hv. now apply andb_true_iff in Hv as [_ Hl].
  - cbn [SerpentSerializer.recreate_classes].
    rewrite (mapM_M_ext _ id); [now rewrite map_id|].
    simpl in Hv. induction l as [|x l IHl]; constructor.
    + apply IH. simpl in Hv. now apply andb_true_iff in Hv as [Hx _].
    + apply IHl. simpl in Hv. now apply andb_true_iff in Hv as [_ Hl].
  - cbn [SerpentSerializer.recreate_classes]. cbn [untagged] in Hv.
    apply andb_true_iff in Hv as [Htag Hd].
    rewrite negb_true_iff in Htag. rewrite Htag.
    rewrite (mapM_M_ext _ id); [now rewrite map_id|]. clear Htag.
    induction d as [|[k x] d IHd]; constructor.
    + cbn [fst snd]. simpl in Hd. apply andb_true_iff in Hd as [Hx _].
      rewrite (IH x Hx). reflexivity.
    + apply IHd. simpl in Hd. now apply andb_true_iff in Hd as [_ Hd].
Qed.

End Serpent.

(** C3, amended.  Let [v] be built from [None], booleans, integers,
    floats, text, byte strings, lists, tuples, sets and mappings, with no
    mapping that has the key ["__class__"]; let no type replacement be
    registered for [set] (nor, for msgpack, for [int]), and let [v] be
    nested no deeper than the codec takes.
    - The marshal adapter gives [v] back, whatever the keys of its
      mappings.
    - The msgpack adapter gives back [listed v]: [v] with every set and
      every tuple turned into the list of the same elements in the same
      order; the keys of its mappings are scalars (a tuple as a key would
      come back as a list, which is no key).
    - The JSON adapter gives back [listed v], for [v] without byte
      strings and NaNs and with text keys (JSON has no form for bytes,
      writes every NaN as one token, and writes every key as text).
    - The serpent adapter gives [v] back whenever the serpent library
      does, the library not being part of the sources.
    [listed v] is [v] itself when [v] holds no set and no tuple. *)
Theorem canonical_values_round_trip
    (depth ldepth : nat) (reg : registries)
    (json_replacements msgpack_replacements : replacements)
    (float : pyobj -> result pyobj)
    (serpent_dumps : pyobj -> result (list byte))
    (serpent_loads : list byte -> result pyobj) (v : pyobj) :
  json_replacements !! "builtins.set" = None ->
  msgpack_replacements !! "builtins.set" = None ->
  msgpack_replacements !! "builtins.int" = None ->
  (canonical Marshal v = true -> (height v <= marshal.MAX_STACK_DEPTH)%nat ->
   exists w, MarshalSerializer.dumps reg v = Ok w
             /\ MarshalSerializer.loads ldepth reg w = mret v)
  /\ (canonical Json v = true -> (2 * height v <= depth)%nat ->
      exists w, JsonSerializer.dumps depth json_replacements reg v = Ok w
                /\ JsonSerializer.loads ldepth reg w = mret (listed v))
  /\ (canonical Msgpack v = true ->
      (height v <= S msgpack.DEFAULT_RECURSE_LIMIT)%nat ->
      exists w, MsgpackSerializer.dumps msgpack_replacements reg v = Ok w
                /\ MsgpackSerializer.loads ldepth reg w = mret (listed v))
  /\ (untagged v = true ->
      forall w, serpent_dumps v = Ok w -> serpent_loads w = Ok v ->
        SerpentSerializer.dumps serpent_dumps v = Ok w
        /\ SerpentSerializer.loads float serpent_loads ldepth reg w = mret v)
  /\ (has_set_or_tuple v = false -> listed v = v)
  /\ (forall l, v = PSet l -> listed v = PList (map listed l)).
Proof.
  intros Hjset Hmset Hmint. repeat apply conj.
  - intros Hv _. exists v. split.
    + unfold MarshalSerializer.dumps. now rewrite marshal_dumps_canonical.
    + unfold MarshalSerializer.loads, marshal.loads.
      now apply recreate_classes_canonical with Marshal.
  - intros Hv Hdepth. exists (to_json v). split.
    + now apply json_dumps_canonical.
    + unfold JsonSerializer.loads. rewrite json_loads_canonical by exact Hv.
      apply recreate_classes_canonical with Json. now apply canonical_listed.
  - intros Hv Hheight. exists (to_msgpack v). split.
    + unfold MsgpackSerializer.dumps, msgpack.packb.
      now apply msgpack_pack_canonical.
    + unfold MsgpackSerializer.loads. now apply msgpack_unpack_canonical.
  - intros Hv w Hdumps Hloads. split; [exact Hdumps|].
    unfold SerpentSerializer.loads. rewrite Hloads, lift_bind.
    now apply serpent_recreate_classes_untagged.
  - apply listed_fixed.
  - intros l ->. reflexivity.
Qed.

End RoundTrip.

Lemma canonical_values_round_trip_witness :
  (exists w, MarshalSerializer.dumps (H := Sample.host) empty_registries
                                     Sample.keyed_value = Ok w
             /\ MarshalSerializer.loads (H := Sample.host) 0 empty_registries w
                = mret Sample.keyed_value)
  /\ (exists w, JsonSerializer.dumps (H := Sample.host) 8 ∅ empty_registries
                                     Sample.sample_value = Ok w
                /\ JsonSerializer.loads (H := Sample.host) 0 empty_registries w
                   = mret (listed Sample.sample_value))
  /\ (exists w, MsgpackSerializer.dumps (H := Sample.host) ∅ empty_registries
                                        Sample.keyed_value = Ok w
                /\ MsgpackSerializer.loads (H := Sample.host) 0
                                           empty_registries w
                   = mret (listed Sample.keyed_value))
  /\ SerpentSerializer.loads (H := Sample.host) (fun x => Ok x)
       (fun _ => Ok Sample.keyed_value) 0 empty_registries []
     = mret Sample.keyed_value.
Proof.
  split; [|split; [|split]].
  - destruct (canonical_values_round_trip (H := Sample.host) 8 0
                empty_registries ∅ ∅ (fun x => Ok x) (fun _ => Ok [])
                (fun _ => Ok Sample.keyed_value) Sample.keyed_value
                (lookup_empty _) (lookup_empty _) (lookup_empty _))
      as (Hmarshal & _).
    apply Hmarshal; [reflexivity | vm_compute; lia].
  - destruct (canonical_values_round_trip (H := Sample.host) 8 0
                empty_registries ∅ ∅ (fun x => Ok x) (fun _ => Ok [])
                (fun _ => Ok Sample.sample_value) Sample.sample_value
                (lookup_empty _) (lookup_empty _) (lookup_empty _))
      as (_ & Hjson & _).
    apply Hjson; [reflexivity | vm_compute; lia].
  - destruct (canonical_values_round_trip (H := Sample.host) 8 0
                empty_registries ∅ ∅ (fun x => Ok x) (fun _ => Ok [])
                (fun _ => Ok Sample.keyed_value) Sample.keyed_value
                (lookup_empty _) (lookup_empty _) (lookup_empty _))
      as (_ & _ & Hmsgpack & _).
    apply Hmsgpack; [reflexivity | vm_compute; lia].
  - destruct (canonical_values_round_trip (H := Sample.host) 8 0
                empty_registries ∅ ∅ (fun x => Ok x) (fun _ => Ok [])
                (fun _ => Ok Sample.keyed_value) Sample.keyed_value
                (lookup_empty _) (lookup_empty _) (lookup_empty _))
      as (_ & _ & _ & Hserpent & _).
    now apply (Hserpent eq_refl [] eq_refl eq_refl).
Defined.

Lemma json_refuses_bytes :
  JsonSerializer.dumps (H := Sample.host) 8 ∅ empty_registries (PBytes ["a"%byte])
  = raise SerializeError
      "don't know how to serialize class <class 'bytes'> using serializer JsonSerializer. Give it vars() or an appropriate __getstate__".
Proof. reflexivity. Qed.

(** What else the grammar of a format leaves out, each on one value.
    JSON writes a key that is no text as text, and a NaN as the one token
    it has for them. *)
Lemma json_key_comes_back_as_text :
  exists w,
    JsonSerializer.dumps (H := Sample.host) 8 ∅ empty_registries
      (PDict [(PInt 1, PNone)]) = Ok w
    /\ JsonSerializer.loads (H := Sample.host) 1 empty_registries w
       = mret (PDict [(PStr "1", PNone)]).
Proof. eexists. split; reflexivity. Qed.

Lemma json_nan_comes_back_quiet :
  exists w,
    JsonSerializer.dumps (H := Sample.host) 8 ∅ empty_registries
      (PFloat (quiet_nan + 1)) = Ok w
    /\ JsonSerializer.loads (H := Sample.host) 1 empty_registries w
       = mret (PFloat quiet_nan).
Proof. eexists. split; reflexivity. Qed.

(** A tuple as a key of a msgpack map comes back as a list, which is no
    key. *)
Lemma msgpack_tuple_key_refused :
  exists w,
    MsgpackSerializer.dumps (H := Sample.host) ∅ empty_registries
      (PDict [(PTuple [PInt 1], PNone)]) = Ok w
    /\ MsgpackSerializer.loads (H := Sample.host) 1 empty_registries w
       = raiseM TypeError "unhashable type".
Proof. eexists. split; reflexivity. Qed.

(** A mapping with the key ["__class__"] is a record for every adapter:
    it is handed to [dict_to_class]. *)
Lemma tagged_mapping_is_a_record :
  exists w,
    MarshalSerializer.dumps (H := Sample.host) empty_registries
      (PDict [(PStr "__class__", PStr "x")]) = Ok w
    /\ res_of (MarshalSerializer.loads (H := Sample.host) 1 empty_registries w)
       = raise SerializeError "unsupported serialized class: x".
Proof. eexists. split; reflexivity. Qed.

(** ** The properties on the sample host *)

Lemma class_to_dict_bare_container_witness :
  class_to_dict (H := Sample.host) "JsonSerializer"
    (register_class_to_dict empty_registries (type_of (PDecimal "0"))
                            (fun obj => Ok (PDict [])))
    (PList [PInt 1])
  = raise ValueError "can't serialize type <class 'list'> into a dict".
Proof.
  apply (class_to_dict_bare_container (H := Sample.host)); [reflexivity|].
  intros clazz converter [Heq|[]]. now inversion Heq.
Defined.

Lemma complex_extension_roundtrip_witness :
  MsgpackSerializer.default (H := Sample.host) ∅ empty_registries
                            (PComplex Sample.three Sample.four)
  = Ok (PExtType 0x30
          ["000"; "000"; "000"; "000"; "000"; "000"; "008"; "@";
           "000"; "000"; "000"; "000"; "000"; "000"; "016"; "@"]%byte)
  /\ MsgpackSerializer.ext_hook (H := Sample.host) 0x30
       ["000"; "000"; "000"; "000"; "000"; "000"; "008"; "@";
        "000"; "000"; "000"; "000"; "000"; "000"; "016"; "@"]%byte
     = Ok (PComplex Sample.three Sample.four).
Proof.
  destruct (complex_extension_roundtrip (H := Sample.host) ∅ empty_registries
              (PComplex Sample.three Sample.four) Sample.three Sample.four)
    as (Hdefault & _ & _ & _ & _ & Hhook & _).
  - reflexivity.
  - vm_compute. split; [discriminate | reflexivity].
  - vm_compute. split; [discriminate | reflexivity].
  - split; [exact Hdefault | exact Hhook].
Defined.

Lemma datetime_tzinfo_truth_value_witness :
  MsgpackSerializer.dumps (H := Sample.host) ∅ empty_registries
    (PDatetime (DateTime 2024 2 29 12 0 0 0 (Some (TzInfo "CET" 3600 false))))
  = Ok (msgpack.Ext 0x32
          ["000"; "000"; "000"; "000"; "000"; "000"; "000"; "000"]%byte)
  /\ MsgpackSerializer.dumps (H := Sample.host) ∅ empty_registries
       (PDatetime (DateTime 2024 2 29 12 0 0 0 (Some (TzInfo "CET" 3600 true))))
     = raise SerializeError
             "msgpack cannot serialize datetime with timezone info".
Proof.
  split.
  - destruct (datetime_tzinfo_truth_value (H := Sample.host) ∅ empty_registries
             (PDatetime (DateTime 2024 2 29 12 0 0 0
                                  (Some (TzInfo "CET" 3600 false))))
             (DateTime 2024 2 29 12 0 0 0 (Some (TzInfo "CET" 3600 false))))
      as (_ & _ & Hfalsy); [reflexivity|].
    destruct (Hfalsy (TzInfo "CET" 3600 false) 0 eq_refl eq_refl eq_refl)
      as (_ & Hdumps & _).
    now apply Hdumps.
  - destruct (datetime_tzinfo_truth_value (H := Sample.host) ∅ empty_registries
             (PDatetime (DateTime 2024 2 29 12 0 0 0
                                  (Some (TzInfo "CET" 3600 true))))
             (DateTime 2024 2 29 12 0 0 0 (Some (TzInfo "CET" 3600 true))))
      as (Haware & _ & _); [reflexivity|].
    now apply (Haware (TzInfo "CET" 3600 true)).
Defined.

Lemma uuid_serialized_as_text_witness :
  JsonSerializer.dumps (H := Sample.host) 2 ∅ empty_registries
                       (PUuid 0x12345678123456781234567812345678)
  = Ok (json.String "12345678-1234-5678-1234-567812345678")
  /\ MsgpackSerializer.dumps (H := Sample.host) ∅ empty_registries
                              (PUuid 0x12345678123456781234567812345678)
     = Ok (msgpack.Str "12345678-1234-5678-1234-567812345678").
Proof.
  destruct (uuid_serialized_as_text (H := Sample.host) 0 empty_registries ∅ ∅
              (PUuid 0x12345678123456781234567812345678)
              0x12345678123456781234567812345678)
    as (_ & (_ & Hjson & _) & (_ & Hmsgpack & _)); [reflexivity..|].
  split; [now apply Hjson | now apply Hmsgpack].
Defined.

(** * Further properties *)

(** ** The inbound registry *)

Section Registries.
Context `{Host}.

Lemma core_prefix_wrapper classname :
  startswith classname "Pyro5.core." = false ->
  String.eqb classname "Pyro5.core._ExceptionWrapper" = false.
Proof.
  intros Hcore. destruct (String.eqb_spec classname "Pyro5.core._ExceptionWrapper")
    as [->|_]; [discriminate Hcore | reflexivity].
Qed.

(** [dict_to_class] reads the inbound registry at the name of the record
    only. *)
Lemma dict_to_class_lookup depth reg reg' data :
  (forall classname, classname_of data = Ok classname ->
     custom_dict_to_class_registry reg' !! classname
     = custom_dict_to_class_registry reg !! classname) ->
  dict_to_class depth reg' data = dict_to_class depth reg data.
Proof.
  intros Hsame. destruct depth as [|depth]; [reflexivity|].
  cbn [dict_to_class].
  destruct (classname_of data) as [classname|e] eqn:Hname; [|reflexivity].
  rewrite !lift_bind, (Hsame classname eq_refl).
  destruct (custom_dict_to_class_registry reg !! classname); [reflexivity|].
  destruct (contains "__" classname); [reflexivity|].
  destruct (startswith classname "Pyro5.core.") eqn:Hcore; [reflexivity|].
  destruct (startswith classname "Pyro5.util."); [reflexivity|].
  destruct (startswith classname "Pyro5.errors."); [reflexivity|].
  now rewrite (core_prefix_wrapper classname Hcore).
Qed.

(** X1.  The inbound registry behaves as a map keyed by the class name.
    Registering or unregistering a converter under [classname] leaves the
    reconstruction of every record of another name unchanged;
    unregistering after registering is unregistering; unregistering a name
    that is not registered changes nothing; a second registration under
    the same name replaces the first; and registering after unregistering
    is registering. *)
Theorem dict_to_class_registry_laws
    (depth : nat) (reg : registries) (classname : string)
    (converter converter' : string -> pydict -> result pyobj) (data : pydict) :
  (classname_of data <> Ok classname ->
   dict_to_class depth (register_dict_to_class reg classname converter) data
   = dict_to_class depth reg data
   /\ dict_to_class depth (unregister_dict_to_class reg classname) data
      = dict_to_class depth reg data)
  /\ unregister_dict_to_class (register_dict_to_class reg classname converter)
                              classname
     = unregister_dict_to_class reg classname
  /\ (custom_dict_to_class_registry reg !! classname = None ->
      unregister_dict_to_class reg classname = reg)
  /\ register_dict_to_class (register_dict_to_class reg classname converter)
                            classname converter'
     = register_dict_to_class reg classname converter'
  /\ register_dict_to_class (unregister_dict_to_class reg classname)
                            classname converter
     = register_dict_to_class reg classname converter.
Proof.
  repeat apply conj.
  - intros Hother. split; apply dict_to_class_lookup; intros name Hname; simpl.
    + apply lookup_insert_ne. intros ->. contradiction.
    + apply lookup_delete_ne. intros ->. contradiction.
  - unfold unregister_dict_to_class, register_dict_to_class. simpl.
    f_equal. apply delete_insert_eq.
  - intros Hnone. destruct reg as [out inb]. unfold unregister_dict_to_class.
    simpl in *. f_equal. now apply delete_id.
  - unfold register_dict_to_class. simpl. f_equal. apply insert_insert_eq.
  - unfold unregister_dict_to_class, register_dict_to_class. simpl.
    f_equal. apply insert_delete_eq.
Qed.

End Registries.

(** ** The outbound registry *)

Lemma find_assoc_set_other {V} (P : string -> bool) (l : list (pyclass * V))
    clazz v c0 v0 :
  find (fun e => P (qualname (fst e))) l = Some (c0, v0) ->
  qualname c0 <> qualname clazz ->
  find (fun e => P (qualname (fst e))) (assoc_set l clazz v) = Some (c0, v0).
Proof.
  intros Hfind Hne. induction l as [|[c w] l IH]; [discriminate|].
  simpl in *.
  destruct (String.eqb_spec (qualname c) (qualname clazz)) as [Heq|Hc]; simpl;
    destruct (P (qualname c)) eqn:HP.
  - inversion Hfind; subst. contradiction.
  - exact Hfind.
  - exact Hfind.
  - now apply IH.
Qed.

Lemma find_assoc_set_same {V} (P : string -> bool) (l : list (pyclass * V))
    clazz v c0 v0 :
  find (fun e => P (qualname (fst e))) l = Some (c0, v0) ->
  qualname c0 = qualname clazz ->
  find (fun e => P (qualname (fst e))) (assoc_set l clazz v) = Some (c0, v).
Proof.
  intros Hfind Heq. induction l as [|[c w] l IH]; [discriminate|].
  simpl in *. destruct (P (qualname c)) eqn:HP.
  - inversion Hfind; subst. rewrite Heq, String.eqb_refl. simpl.
    rewrite Heq in HP. rewrite Heq. now rewrite HP.
  - destruct (String.eqb_spec (qualname c) (qualname clazz)) as [Hc|Hc].
    + rewrite Hc in HP. apply find_some in Hfind as [_ HP0]. simpl in HP0.
      rewrite Heq in HP0. congruence.
    + simpl. rewrite HP. now apply IH.
Qed.

Lemma find_assoc_set_none {V} (P : string -> bool) (l : list (pyclass * V))
    clazz v :
  find (fun e => P (qualname (fst e))) l = None ->
  P (qualname clazz) = true ->
  find (fun e => P (qualname (fst e))) (assoc_set l clazz v) = Some (clazz, v).
Proof.
  intros Hfind HP. induction l as [|[c w] l IH].
  - simpl. now rewrite HP.
  - simpl in *. destruct (P (qualname c)) eqn:HPc; [discriminate|].
    destruct (String.eqb_spec (qualname c) (qualname clazz)) as [Hc|Hc].
    + rewrite Hc in HPc. congruence.
    + simpl. rewrite HPc. now apply IH.
Qed.

Lemma filter_assoc_set {V} (l : list (pyclass * V)) clazz v :
  filter (fun e => negb (String.eqb (qualname (fst e)) (qualname clazz)))
         (assoc_set l clazz v)
  = filter (fun e => negb (String.eqb (qualname (fst e)) (qualname clazz))) l.
Proof.
  induction l as [|[c w] l IH]; cbn [assoc_set].
  - rewrite filter_cons_False; [reflexivity|].
    cbn [fst]. rewrite String.eqb_refl. intros [].
  - destruct (String.eqb (qualname c) (qualname clazz)) eqn:E.
    + rewrite !filter_cons_False; [reflexivity| |]; cbn [fst]; rewrite E;
        intros [].
    + rewrite !filter_cons_True by (cbn [fst]; rewrite E; exact I).
      now rewrite IH.
Qed.

Section Outbound.
Context `{Host}.

(** What a class of the outbound registry decides. *)
Lemma class_to_dict_found cls_name reg obj clazz converter :
  find (fun e => isinstance obj (qualname (fst e)))
       (custom_class_to_dict_registry reg) = Some (clazz, converter) ->
  class_to_dict cls_name reg obj = converter obj.
Proof. intros Hfind. unfold class_to_dict. now rewrite Hfind. Qed.

(** X2.  [class_to_dict] walks the outbound registry in the order
    of registration and takes the first class that [obj] is an instance
    of.  So after [register_class_to_dict reg clazz converter]: a class
    registered earlier that matches [obj] still decides, also when [clazz]
    is the more specific one; [converter] decides when nothing matched
    before and [obj] is an instance of [clazz], or when the earlier match
    was [clazz] itself (whose converter is replaced in place); an object
    that is no instance of [clazz] is converted as before; and
    unregistering [clazz] after registering it is unregistering it. *)
Theorem class_to_dict_registration_order
    (cls_name : string) (reg : registries) (obj : pyobj) (clazz : pyclass)
    (converter : pyobj -> result pyobj) :
  (forall earlier converter0,
     find (fun e => isinstance obj (qualname (fst e)))
          (custom_class_to_dict_registry reg) = Some (earlier, converter0) ->
     (qualname earlier <> qualname clazz ->
      class_to_dict cls_name (register_class_to_dict reg clazz converter) obj
      = converter0 obj)
     /\ (qualname earlier = qualname clazz ->
         class_to_dict cls_name (register_class_to_dict reg clazz converter) obj
         = converter obj))
  /\ (find (fun e => isinstance obj (qualname (fst e)))
           (custom_class_to_dict_registry reg) = None ->
      isinstance obj (qualname clazz) = true ->
      class_to_dict cls_name (register_class_to_dict reg clazz converter) obj
      = converter obj)
  /\ (isinstance obj (qualname clazz) = false ->
      class_to_dict cls_name (register_class_to_dict reg clazz converter) obj
      = class_to_dict cls_name reg obj)
  /\ unregister_class_to_dict (register_class_to_dict reg clazz converter) clazz
     = unregister_class_to_dict reg clazz.
Proof.
  repeat apply conj.
  - intros earlier converter0 Hfind. split; intros Hq.
    + apply class_to_dict_found with earlier. simpl.
      now apply (find_assoc_set_other (isinstance obj)).
    + apply class_to_dict_found with earlier. simpl.
      now apply (find_assoc_set_same (isinstance obj)) with converter0.
  - intros Hnone Hinst. apply class_to_dict_found with clazz. simpl.
    now apply (find_assoc_set_none (isinstance obj)).
  - intros Hinst. unfold class_to_dict. simpl.
    destruct (find (fun e => isinstance obj (qualname (fst e)))
                   (custom_class_to_dict_registry reg)) as [[c0 v0]|] eqn:Hfind.
    + destruct (String.eqb_spec (qualname c0) (qualname clazz)) as [Heq|Hne].
      * apply find_some in Hfind as [_ HP]. simpl in HP. congruence.
      * now rewrite (find_assoc_set_other (isinstance obj) _ clazz converter c0 v0).
    + assert (Hn : find (fun e => isinstance obj (qualname (fst e)))
                     (assoc_set (custom_class_to_dict_registry reg) clazz converter)
                   = None).
      { induction (custom_class_to_dict_registry reg) as [|[c w] l IH]; simpl.
        - now rewrite Hinst.
        - simpl in Hfind. destruct (isinstance obj (qualname c)) eqn:HP; [discriminate|].
          destruct (String.eqb (qualname c) (qualname clazz)); simpl; rewrite HP;
            [exact Hfind | now apply IH]. }
      now rewrite Hn.
  - unfold unregister_class_to_dict, register_class_to_dict. simpl.
    f_equal. apply filter_assoc_set.
Qed.

End Outbound.

(** ** Records of instances *)

Lemma dict_get_of_attrs d k : dict_get (dict_of_attrs d) k = attrs_get d k.
Proof.
  induction d as [|[k' v] d IH]; [reflexivity|]. simpl.
  destruct (String.eqb k' k); [reflexivity | exact IH].
Qed.

Lemma dict_get_set_eq m k v : dict_get (dict_set m k v) k = Some v.
Proof.
  induction m as [|[k' w] m IH]; simpl.
  - now rewrite String.eqb_refl.
  - destruct (key_is k k') eqn:E; simpl; rewrite E; [reflexivity | exact IH].
Qed.

Lemma dict_get_set_ne m k k' v :
  k <> k' -> dict_get (dict_set m k v) k' = dict_get m k'.
Proof.
  intros Hne. induction m as [|[k0 w] m IH]; simpl.
  - destruct (String.eqb_spec k k'); [contradiction | reflexivity].
  - destruct (key_is k k0) eqn:E; simpl.
    + destruct k0; try discriminate E. simpl in *.
      apply String.eqb_eq in E. subst s.
      destruct (String.eqb_spec k k'); [contradiction | reflexivity].
    + destruct (key_is k' k0); [reflexivity | exact IH].
Qed.

Lemma no_converter_find `{Host} reg obj :
  (forall clazz converter,
     In (clazz, converter) (custom_class_to_dict_registry reg) ->
     isinstance obj (qualname clazz) = false) ->
  find (fun e => isinstance obj (qualname (fst e)))
       (custom_class_to_dict_registry reg) = None.
Proof.
  intros Hnone.
  induction (custom_class_to_dict_registry reg) as [|[clazz conv] l IH];
    [reflexivity|].
  simpl. rewrite (Hnone clazz conv) by now left.
  apply IH. intros c k Hin. apply (Hnone c k). now right.
Qed.

Lemma attrs_set_keys d k v w :
  attrs_get d k = Some w -> map fst (attrs_set d k v) = map fst d.
Proof.
  induction d as [|[k' x] d IH]; [discriminate|]. simpl.
  destruct (String.eqb k' k); [reflexivity|]. intros Hget. simpl.
  now rewrite IH.
Qed.

Lemma attrs_set_fresh d k v :
  ~ In k (map fst d) -> attrs_set d k v = (d ++ [(k, v)])%list.
Proof.
  induction d as [|[k' x] d IH]; [reflexivity|]. simpl. intros Hk.
  destruct (String.eqb_spec k' k) as [->|_]; [tauto|].
  rewrite IH by tauto. reflexivity.
Qed.

Lemma set_attributes_fresh named : forall acc,
  List.NoDup (map fst (acc ++ named)) ->
  set_attributes acc named = (acc ++ named)%list.
Proof.
  induction named as [|[k v] named IH]; intros acc Hnd.
  - now rewrite app_nil_r.
  - unfold set_attributes in *. simpl.
    rewrite attrs_set_fresh.
    + rewrite IH; rewrite <- app_assoc; [reflexivity | exact Hnd].
    + rewrite map_app in Hnd. simpl in Hnd.
      apply NoDup_remove_2 in Hnd. intros Hin. apply Hnd.
      apply in_or_app. now left.
Qed.

Section Instances.
Context `{Host}.

(** The object that [class_to_dict] goes on with after the
    ["_pyroDaemon"] step, for an instance whose class has no data
    descriptor of that name. *)
Lemma assign_pyroDaemon_instance c args d slots :
  (issubclass c BaseException = true ->
   hasattr (PObject c args (Some d) slots) "_pyroDaemon" = true ->
   exception_descriptor c "_pyroDaemon" = None) ->
  assign_pyroDaemon (PObject c args (Some d) slots)
  = Ok (PObject c args
          (Some (if hasattr (PObject c args (Some d) slots) "_pyroDaemon"
                 then attrs_set d "_pyroDaemon" PNone else d)) slots).
Proof.
  intros Hdesc. unfold assign_pyroDaemon.
  destruct (hasattr (PObject c args (Some d) slots) "_pyroDaemon");
    [|reflexivity].
  cbn [setattr String.eqb Ascii.eqb Bool.eqb andb].
  destruct (issubclass c BaseException); [|reflexivity].
  now rewrite Hdesc.
Qed.

Lemma attrs_get_name d k w : attrs_get d k = Some w -> In k (map fst d).
Proof.
  induction d as [|[k' x] d IH]; [discriminate|]. simpl.
  destruct (String.eqb_spec k' k); [now left | right; now apply IH].
Qed.

Lemma hasattr_pyroDaemon c args d :
  hasattr (PObject c args (Some d) []) "_pyroDaemon" = true ->
  In "_pyroDaemon" (map fst d).
Proof.
  unfold hasattr. cbn.
  destruct (attrs_get d "_pyroDaemon") as [w|] eqn:Hget; [|discriminate].
  intros _. now apply attrs_get_name with w.
Qed.

Lemma clear_pyroDaemon_instance c args d slots :
  (issubclass c BaseException = true ->
   hasattr (PObject c args (Some d) slots) "_pyroDaemon" = true ->
   exception_descriptor c "_pyroDaemon" = None) ->
  clear_pyroDaemon (PObject c args (Some d) slots)
  = PObject c args
      (Some (if hasattr (PObject c args (Some d) slots) "_pyroDaemon"
             then attrs_set d "_pyroDaemon" PNone else d)) slots.
Proof.
  intros Hdesc.
  pose proof (assign_pyroDaemon_instance c args d slots Hdesc) as Hassign.
  unfold assign_pyroDaemon in Hassign. unfold clear_pyroDaemon.
  destruct (hasattr (PObject c args (Some d) slots) "_pyroDaemon");
    [|reflexivity].
  now rewrite Hassign.
Qed.

Lemma class_to_dict_exception cls_name reg c args d slots :
  (forall clazz converter,
     In (clazz, converter) (custom_class_to_dict_registry reg) ->
     isinstance (PObject c args (Some d) slots) (qualname clazz) = false) ->
  existsb (type_is (PObject c args (Some d) slots))
    ["builtins.set"; "builtins.dict"; "builtins.tuple"; "builtins.list"] = false ->
  issubclass c BaseException = true ->
  (hasattr (PObject c args (Some d) slots) "_pyroDaemon" = true ->
   exception_descriptor c "_pyroDaemon" = None) ->
  class_to_dict cls_name reg (PObject c args (Some d) slots)
  = Ok (PDict
          [(PStr "__class__", PStr (qualname c));
           (PStr "__exception__", PBool true);
           (PStr "args", PTuple args);
           (PStr "attributes",
            PDict (dict_of_attrs
                     (if hasattr (PObject c args (Some d) slots) "_pyroDaemon"
                      then attrs_set d "_pyroDaemon" PNone else d)))]).
Proof.
  intros Hnone Hbare Hexc Hdesc. unfold class_to_dict.
  rewrite (no_converter_find reg _ Hnone), Hbare.
  rewrite assign_pyroDaemon_instance by (intros _; exact Hdesc).
  cbn [mbind result_bind].
  unfold isinstance at 1. cbn [type_of]. rewrite Hexc.
  cbn [getattr String.eqb Ascii.eqb Bool.eqb andb]. rewrite Hexc. reflexivity.
Qed.

(** X3.  For an instance with an attribute dictionary that is no
    exception and matches no registered class: when [__getstate__] gives a
    dict, that dict is the record as it is, without a class tag; when
    there is no [__getstate__], or it raises [AttributeError], or it gives
    something that is no dict, the record holds the attributes of the
    instance, ["__class__"] is the qualified class name whatever attribute
    of that name the instance had, and ["_pyroDaemon"] is [None] when the
    instance had such an attribute and absent when it had none: the daemon
    is never part of the record. *)
Theorem class_to_dict_instance
    (cls_name : string) (reg : registries) (c : pyclass) (args : list pyobj)
    (d slots : list (string * pyobj)) (obj : pyobj) :
  obj = PObject c args (Some d) slots ->
  (forall clazz converter,
     In (clazz, converter) (custom_class_to_dict_registry reg) ->
     isinstance obj (qualname clazz) = false) ->
  existsb (type_is obj)
    ["builtins.set"; "builtins.dict"; "builtins.tuple"; "builtins.list"] = false ->
  issubclass c BaseException = false ->
  (forall state, getstate (clear_pyroDaemon obj) = Some (Ok (PDict state)) ->
     class_to_dict cls_name reg obj = Ok (PDict state))
  /\ (match getstate (clear_pyroDaemon obj) with
      | None | Some (Err (Raise AttributeError _)) => True
      | Some (Ok value) => isinstance value "builtins.dict" = false
      | Some (Err _) => False
      end ->
      exists record,
        class_to_dict cls_name reg obj = Ok (PDict record)
        /\ dict_get record "__class__" = Some (PStr (qualname c))
        /\ dict_get record "_pyroDaemon"
           = (if hasattr obj "_pyroDaemon" then Some PNone else None)
        /\ forall name,
             name <> "__class__" -> name <> "_pyroDaemon" ->
             dict_get record name = attrs_get d name).
Proof.
  intros -> Hnone Hbare Hexc.
  assert (Hrun : class_to_dict cls_name reg (PObject c args (Some d) slots)
    = let obj := clear_pyroDaemon (PObject c args (Some d) slots) in
      let by_vars :=
        Ok (PDict (dict_set
              (dict_of_attrs
                 (if hasattr (PObject c args (Some d) slots) "_pyroDaemon"
                  then attrs_set d "_pyroDaemon" PNone else d))
              "__class__" (PStr (qualname c)))) in
      match getstate obj with
      | Some (Ok value) =>
          if isinstance value "builtins.dict" then Ok value else by_vars
      | Some (Err (Raise AttributeError _)) | None => by_vars
      | Some (Err e) => Err e
      end).
  { unfold class_to_dict.
    rewrite (no_converter_find reg _ Hnone), Hbare.
    rewrite clear_pyroDaemon_instance, assign_pyroDaemon_instance
      by (rewrite Hexc; discriminate).
    cbn [mbind result_bind].
    unfold isinstance at 1. cbn [type_of]. rewrite Hexc. reflexivity. }
  split.
  - intros state Hstate. rewrite Hrun. cbn zeta. rewrite Hstate. reflexivity.
  - intros Hstate.
    exists (dict_set
              (dict_of_attrs
                 (if hasattr (PObject c args (Some d) slots) "_pyroDaemon"
                  then attrs_set d "_pyroDaemon" PNone else d))
              "__class__" (PStr (qualname c))).
    split; [|split; [|split]].
    + rewrite Hrun. cbn zeta.
      rewrite clear_pyroDaemon_instance in Hstate |- *
        by (rewrite Hexc; discriminate).
      destruct (getstate
                  (PObject c args
                     (Some (if hasattr (PObject c args (Some d) slots)
                                       "_pyroDaemon"
                            then attrs_set d "_pyroDaemon" PNone else d))
                     slots))
        as [[value|[[] msg]]|]; try contradiction; try reflexivity.
      now rewrite Hstate.
    + apply dict_get_set_eq.
    + rewrite dict_get_set_ne by discriminate. rewrite dict_get_of_attrs.
      destruct (hasattr (PObject c args (Some d) slots) "_pyroDaemon") eqn:Hhas.
      * apply attrs_get_set_eq.
      * unfold hasattr in Hhas. cbn in Hhas.
        destruct (attrs_get d "_pyroDaemon"); [discriminate | reflexivity].
    + intros name Hclass Hdaemon.
      rewrite dict_get_set_ne by congruence. rewrite dict_get_of_attrs.
      destruct (hasattr (PObject c args (Some d) slots) "_pyroDaemon");
        [|reflexivity].
      apply attrs_get_set_ne. congruence.
Qed.

End Instances.

(** ** Exceptions across the wire *)

Lemma errors_qualname c :
  cls_module c = "Pyro5.errors" -> qualname c = "Pyro5.errors." ++ cls_name c.
Proof. intros Hmod. unfold qualname. rewrite Hmod. reflexivity. Qed.

Section Exceptions.
Context `{Host}.

Lemma dict_to_class_exception_record depth reg data c args positional named :
  cls_module c = "Pyro5.errors" ->
  errors !! cls_name c = Some (PClass c) ->
  issubclass c PyroError = true ->
  contains "__" (cls_name c) = false ->
  custom_dict_to_class_registry reg !! qualname c = None ->
  classname_of data = Ok (qualname c) ->
  dict_get data "args" = Some args ->
  iterate args = Ok positional ->
  dict_get data "attributes" = Some (PDict (dict_of_attrs named)) ->
  construct c positional = Ok (PObject c positional (Some []) []) ->
  List.NoDup (map fst named) ->
  ~ In "args" (map fst named) ->
  (forall name, In name (map fst named) -> exception_descriptor c name = None) ->
  dict_to_class (S depth) reg data
  = mret (PObject c positional (Some named) []).
Proof.
  intros Hmod Hcls Hsub Hmark Hreg Hname Hargs Hpos Hattr Hnew Hnd Hnoargs
         Hdesc.
  rewrite (errors_qualname c Hmod) in Hreg, Hname.
  rewrite (dict_to_class_framework_error depth reg data (cls_name c) c)
    by assumption.
  rewrite (make_exception_steps _ _ args positional (dict_of_attrs named))
    by assumption.
  rewrite Hnew. cbn [mbind result_bind].
  rewrite foldM_setattr by assumption.
  now rewrite (set_attributes_fresh named []).
Qed.

Lemma errors_class_not_bare c args d slots :
  cls_module c = "Pyro5.errors" ->
  existsb (type_is (PObject c args d slots))
    ["builtins.set"; "builtins.dict"; "builtins.tuple"; "builtins.list"] = false.
Proof.
  intros Hmod. unfold type_is. cbn [type_of].
  rewrite (errors_qualname c Hmod). reflexivity.
Qed.

(** X5.  An exception of a [PyroError] class of the [errors] module
    (with no ["__"] in its name), whose constructor keeps its arguments in
    [args], is rebuilt by [dict_to_class] from the record that
    [class_to_dict] makes of it: the result is the exception itself (with
    ["_pyroDaemon"] set to [None] when it had such an attribute), provided
    the attribute names are different from each other and from ["args"],
    the class has no data descriptor for one of them (as every exception
    class has for ["__cause__"], ["__context__"], ["__traceback__"],
    ["__suppress_context__"], ["__dict__"] and ["__class__"], where the
    assignment is the descriptor's and may be refused), no registered
    class matches the exception and no converter is registered for its
    name. *)
Theorem exception_round_trip
    (serializer : string) (depth : nat) (reg : registries) (c : pyclass)
    (args : list pyobj) (d : list (string * pyobj)) (ex : pyobj) :
  ex = PObject c args (Some d) [] ->
  cls_module c = "Pyro5.errors" ->
  errors !! cls_name c = Some (PClass c) ->
  issubclass c PyroError = true ->
  issubclass c BaseException = true ->
  contains "__" (cls_name c) = false ->
  construct c args = Ok (PObject c args (Some []) []) ->
  List.NoDup (map fst d) ->
  ~ In "args" (map fst d) ->
  (forall name, In name (map fst d) -> exception_descriptor c name = None) ->
  (forall clazz converter,
     In (clazz, converter) (custom_class_to_dict_registry reg) ->
     isinstance ex (qualname clazz) = false) ->
  custom_dict_to_class_registry reg !! qualname c = None ->
  exists record,
    class_to_dict serializer reg ex = Ok (PDict record)
    /\ dict_to_class (S depth) reg record = mret (clear_pyroDaemon ex).
Proof.
  intros -> Hmod Hcls Hsub Hexc Hmark Hnew Hnd Hnoargs Hdesc Hnone Hreg.
  assert (Hdaemon : hasattr (PObject c args (Some d) []) "_pyroDaemon" = true ->
                    exception_descriptor c "_pyroDaemon" = None)
    by (intros Hhas; apply Hdesc; exact (hasattr_pyroDaemon c args d Hhas)).
  eexists. split.
  - apply class_to_dict_exception; [exact Hnone | | exact Hexc | exact Hdaemon].
    now apply errors_class_not_bare.
  - rewrite clear_pyroDaemon_instance by (intros _; exact Hdaemon).
    apply dict_to_class_exception_record with (PTuple args);
      try assumption; try reflexivity.
    3: { intros name Hin. apply Hdesc.
         destruct (hasattr (PObject c args (Some d) []) "_pyroDaemon") eqn:Hhas;
           [|exact Hin].
         unfold hasattr in Hhas. cbn in Hhas.
         destruct (attrs_get d "_pyroDaemon") as [w|] eqn:Hget; [|discriminate].
         now rewrite (attrs_set_keys d "_pyroDaemon" PNone w Hget) in Hin. }
    + destruct (hasattr (PObject c args (Some d) []) "_pyroDaemon") eqn:Hhas;
        [|exact Hnd].
      unfold hasattr in Hhas. cbn in Hhas.
      destruct (attrs_get d "_pyroDaemon") as [w|] eqn:Hget; [|discriminate].
      now rewrite (attrs_set_keys d "_pyroDaemon" PNone w Hget).
    + destruct (hasattr (PObject c args (Some d) []) "_pyroDaemon") eqn:Hhas;
        [|exact Hnoargs].
      unfold hasattr in Hhas. cbn in Hhas.
      destruct (attrs_get d "_pyroDaemon") as [w|] eqn:Hget; [|discriminate].
      now rewrite (attrs_set_keys d "_pyroDaemon" PNone w Hget).
Qed.

End Exceptions.

Lemma exception_round_trip_witness :
  exists record,
    class_to_dict (H := Sample.host) "JsonSerializer" empty_registries
      (PObject (Sample.error_class "ProtocolError"
                                   ["Pyro5.errors.CommunicationError"])
               [PStr "bad request"] (Some [("extra", PInt 42)]) [])
    = Ok (PDict record)
    /\ dict_to_class (H := Sample.host) 1 empty_registries record
       = mret (PObject (Sample.error_class "ProtocolError"
                                           ["Pyro5.errors.CommunicationError"])
                       [PStr "bad request"] (Some [("extra", PInt 42)]) []).
Proof.
  apply (exception_round_trip (H := Sample.host) "JsonSerializer" 0
           empty_registries
           (Sample.error_class "ProtocolError" ["Pyro5.errors.CommunicationError"])
           [PStr "bad request"] [("extra", PInt 42)] _ eq_refl);
    try reflexivity.
  - repeat constructor. intros [].
  - intros [Heq|[]]. discriminate Heq.
  - intros name [<-|[]]. reflexivity.
  - intros clazz converter [].
Defined.

(** ** Exceptions through the adapters *)

Lemma unique_keys_NoDup d :
  unique_keys (dict_of_attrs d) = true -> List.NoDup (map fst d).
Proof.
  induction d as [|[k v] d IH]; [constructor|]. simpl.
  intros Hu. apply andb_true_iff in Hu as [Hnew Hu]. constructor; [|now apply IH].
  rewrite negb_true_iff in Hnew. intros Hin.
  assert (Hex : existsb (fun kv => key_is k (fst kv)) (dict_of_attrs d) = true).
  { apply existsb_exists. apply in_map_iff in Hin as ([k' v'] & Hk & Hin).
    simpl in Hk. subst k'. exists (PStr k, v'). split.
    - unfold dict_of_attrs. apply in_map_iff. now exists (k, v').
    - simpl. apply String.eqb_refl. }
  congruence.
Qed.

Lemma dict_of_attrs_listed d :
  map (fun kv => (fst kv, listed (snd kv))) (dict_of_attrs d)
  = dict_of_attrs (map (fun kv => (fst kv, listed (snd kv))) d).
Proof. unfold dict_of_attrs. rewrite !map_map. reflexivity. Qed.

Lemma map_fst_listed (d : list (string * pyobj)) :
  map fst (map (fun kv => (fst kv, listed (snd kv))) d) = map fst d.
Proof. rewrite map_map. reflexivity. Qed.

Lemma M_ret_bind {A B} (a : A) (k : A -> M B) : mret a ≫= k = k a.
Proof. exact (lift_bind a k). Qed.

Lemma marshal_dumps_dict d :
  Forall (fun kv => marshal.dumps (fst kv) = Ok (fst kv)
                    /\ marshal.dumps (snd kv) = Ok (snd kv)) d ->
  marshal.dumps (PDict d) = Ok (PDict d).
Proof.
  intros Hall. cbn [marshal.dumps].
  rewrite (mapM_result_ext _ id); [now rewrite map_id|].
  eapply Forall_impl; [exact Hall|]. intros [k v] [Hk Hv]. simpl in *.
  rewrite Hk. cbn [mbind result_bind]. rewrite Hv. reflexivity.
Qed.

Lemma json_dumps_dict `{Host} n default d members :
  Forall2 (fun kv m => json.key (fst kv) = Ok (fst m)
                       /\ json.dumps n default (snd kv) = Ok (snd m)) d members ->
  json.dumps (S n) default (PDict d) = Ok (json.Object members).
Proof.
  intros Hall. cbn [json.dumps].
  assert (Hm : mapM (fun kv => k ← json.key (fst kv);
                               v ← json.dumps n default (snd kv);
                               Ok (k, v)) d = Ok members).
  { induction Hall as [|[k v] [k' v'] d members [Hk Hv] _ IH]; [reflexivity|].
    cbn [mapM fst snd] in *. rewrite Hk. cbn [mbind result_bind].
    rewrite Hv. cbn [mbind result_bind]. rewrite IH. reflexivity. }
  now rewrite Hm.
Qed.

Lemma msgpack_pack_dict default levels d pairs :
  Forall2 (fun kv p => msgpack.pack default levels (fst kv) = Ok (fst p)
                       /\ msgpack.pack default levels (snd kv) = Ok (snd p))
          d pairs ->
  msgpack.pack default (S levels) (PDict d) = Ok (msgpack.Map pairs).
Proof.
  intros Hall. cbn [msgpack.pack].
  assert (Hm : mapM (fun kv => k ← msgpack.pack default levels (fst kv);
                               v ← msgpack.pack default levels (snd kv);
                               Ok (k, v)) d = Ok pairs).
  { induction Hall as [|[k v] [k' v'] d pairs [Hk Hv] _ IH]; [reflexivity|].
    cbn [mapM fst snd] in *. rewrite Hk. cbn [mbind result_bind].
    rewrite Hv. cbn [mbind result_bind]. rewrite IH. reflexivity. }
  now rewrite Hm.
Qed.

Lemma msgpack_unpack_map object_hook ext_hook pairs d :
  Forall2 (fun p kv => msgpack.unpackb object_hook ext_hook (fst p) = mret (fst kv)
                       /\ msgpack.unpackb object_hook ext_hook (snd p)
                          = mret (snd kv)
                       /\ hashable (fst kv) = true) pairs d ->
  msgpack.unpackb object_hook ext_hook (msgpack.Map pairs)
  = object_hook (dict_of_pairs d).
Proof.
  intros Hall. cbn [msgpack.unpackb].
  assert (Hm : mapM (fun kv => k ← msgpack.unpackb object_hook ext_hook (fst kv);
                               v ← msgpack.unpackb object_hook ext_hook (snd kv);
                               if hashable k then mret (k, v)
                               else raiseM TypeError "unhashable type") pairs
               = mret d).
  { induction Hall as [|[k v] [k' v'] pairs d (Hk & Hv & Hh) _ IH]; [reflexivity|].
    cbn [mapM fst snd] in *. rewrite Hk, M_ret_bind, Hv, M_ret_bind, Hh.
    rewrite M_ret_bind, IH, M_ret_bind. reflexivity. }
  rewrite Hm. apply (M_ret_bind d (fun d => object_hook (dict_of_pairs d))).
Qed.

Section AdapterExceptions.
Context `{Host}.

Lemma recreate_classes_tagged depth reg d :
  is_Some (dict_get d "__class__") ->
  recreate_classes depth reg (PDict d) = dict_to_class depth reg d.
Proof.
  intros Htag. cbn [recreate_classes]. now rewrite bool_decide_eq_true_2.
Qed.

(** X6.  Such an exception (its class has no data descriptor for one of
    its attribute names), without a ["_pyroDaemon"] attribute
    and with arguments and attributes built from [None], booleans,
    integers, text, byte strings, lists, tuples, sets and mappings,
    survives [MarshalSerializer.dumps] followed by [loads] unchanged:
    [marshal.dumps] refuses the object, [class_to_dict] makes the record,
    and [recreate_classes] rebuilds it. *)
Theorem marshal_exception_round_trip
    (depth : nat) (reg : registries) (c : pyclass) (args : list pyobj)
    (d : list (string * pyobj)) (ex : pyobj) :
  ex = PObject c args (Some d) [] ->
  cls_module c = "Pyro5.errors" ->
  errors !! cls_name c = Some (PClass c) ->
  issubclass c PyroError = true ->
  issubclass c BaseException = true ->
  contains "__" (cls_name c) = false ->
  construct c args = Ok (PObject c args (Some []) []) ->
  plain true (PTuple args) = true ->
  plain true (PDict (dict_of_attrs d)) = true ->
  ~ In "args" (map fst d) ->
  ~ In "_pyroDaemon" (map fst d) ->
  (forall name, In name (map fst d) -> exception_descriptor c name = None) ->
  (forall clazz converter,
     In (clazz, converter) (custom_class_to_dict_registry reg) ->
     isinstance ex (qualname clazz) = false) ->
  custom_dict_to_class_registry reg !! qualname c = None ->
  exists w,
    MarshalSerializer.dumps reg ex = Ok w
    /\ MarshalSerializer.loads (S depth) reg w = mret ex.
Proof.
  intros -> Hmod Hcls Hsub Hexc Hmark Hnew Hargs Hattrs Hnoargs Hnodaemon
         Hdesc Hnone Hreg.
  assert (Hhas : hasattr (PObject c args (Some d) []) "_pyroDaemon" = false).
  { unfold hasattr. cbn.
    destruct (attrs_get d "_pyroDaemon") as [w|] eqn:Hget; [|reflexivity].
    exfalso. apply Hnodaemon. clear -Hget.
    induction d as [|[k v] d IH]; [discriminate|]. simpl in *.
    destruct (String.eqb_spec k "_pyroDaemon"); [now left | right; now apply IH]. }
  assert (Hrec : class_to_dict "MarshalSerializer" reg (PObject c args (Some d) [])
                 = Ok (PDict [(PStr "__class__", PStr (qualname c));
                              (PStr "__exception__", PBool true);
                              (PStr "args", PTuple args);
                              (PStr "attributes", PDict (dict_of_attrs d))])).
  { rewrite class_to_dict_exception;
      [ now rewrite Hhas | exact Hnone | now apply errors_class_not_bare
      | exact Hexc | now rewrite Hhas ]. }
  eexists. split.
  - unfold MarshalSerializer.dumps. cbn [marshal.dumps raise].
    unfold MarshalSerializer.class_to_dict. rewrite Hrec.
    cbn [mbind result_bind].
    apply marshal_dumps_dict.
    repeat constructor; cbn [fst snd]; try reflexivity;
      now apply marshal_dumps_plain.
  - unfold MarshalSerializer.loads, marshal.loads.
    rewrite recreate_classes_tagged by (eexists; reflexivity).
    apply dict_to_class_exception_record with (PTuple args);
      try assumption; try reflexivity.
    apply unique_keys_NoDup. simpl in Hattrs.
    now apply andb_true_iff in Hattrs as [_ Hu].
Qed.

Lemma no_pyroDaemon c args d slots :
  ~ In "_pyroDaemon" (map fst d) -> ~ In "_pyroDaemon" (map fst slots) ->
  hasattr (PObject c args (Some d) slots) "_pyroDaemon" = false.
Proof.
  assert (Hget : forall l : list (string * pyobj),
             ~ In "_pyroDaemon" (map fst l) -> attrs_get l "_pyroDaemon" = None).
  { induction l as [|[k v] l IH]; [reflexivity|]. simpl. intros Hl.
    destruct (String.eqb_spec k "_pyroDaemon"); [tauto | apply IH; tauto]. }
  intros Hd Hs. unfold hasattr. cbn. now rewrite (Hget d Hd), (Hget slots Hs).
Qed.

Lemma json_default_instance repl reg c args dict slots :
  repl !! qualname c = None ->
  JsonSerializer.default repl reg (PObject c args dict slots)
  = class_to_dict "JsonSerializer" reg (PObject c args dict slots).
Proof.
  intros Hrepl. unfold JsonSerializer.default.
  now rewrite (replace_none repl (PObject c args dict slots) Hrepl).
Qed.

Lemma msgpack_default_instance repl reg c args dict slots :
  repl !! qualname c = None ->
  isinstance_Number (PObject c args dict slots) = false ->
  MsgpackSerializer.default repl reg (PObject c args dict slots)
  = class_to_dict "MsgpackSerializer" reg (PObject c args dict slots).
Proof.
  intros Hrepl Hnum. unfold MsgpackSerializer.default.
  rewrite (replace_none repl (PObject c args dict slots) Hrepl).
  cbn [mbind result_bind]. now rewrite Hnum.
Qed.

Lemma json_dumps_instance default n c args dict slots record members :
  default (PObject c args dict slots) = Ok (PDict record) ->
  Forall2 (fun kv m => json.key (fst kv) = Ok (fst m)
                       /\ json.dumps n default (snd kv) = Ok (snd m))
          record members ->
  json.dumps (S (S n)) default (PObject c args dict slots)
  = Ok (json.Object members).
Proof.
  intros Hd Hall. pose proof (json_dumps_dict n default record members Hall)
    as Hdict.
  change (json.dumps (S (S n)) default (PObject c args dict slots))
    with (o ← default (PObject c args dict slots); json.dumps (S n) default o).
  rewrite Hd. exact Hdict.
Qed.

Lemma json_dumps_text default n s :
  json.dumps (S n) default (PStr s) = Ok (json.String s).
Proof. reflexivity. Qed.

Lemma json_dumps_bool default n b :
  json.dumps (S n) default (PBool b) = Ok (json.Bool b).
Proof. reflexivity. Qed.

(** X7.  Such an exception (its class has no data descriptor for one of
    its attribute names), with no byte strings in it, survives
    [JsonSerializer.dumps] followed by [loads], with the sets and tuples
    in its arguments and attributes turned into lists: the codec calls
    [default], which makes the record with [class_to_dict].  The encoder
    must be allowed the depth of the value, and no type replacement may be
    registered for the class or for [set]. *)
Theorem json_exception_round_trip
    (depth ldepth : nat) (type_replacements : replacements) (reg : registries)
    (c : pyclass) (args : list pyobj) (d : list (string * pyobj)) (ex : pyobj) :
  ex = PObject c args (Some d) [] ->
  cls_module c = "Pyro5.errors" ->
  errors !! cls_name c = Some (PClass c) ->
  issubclass c PyroError = true ->
  issubclass c BaseException = true ->
  contains "__" (cls_name c) = false ->
  construct c (map listed args)
  = Ok (PObject c (map listed args) (Some []) []) ->
  plain false (PTuple args) = true ->
  plain false (PDict (dict_of_attrs d)) = true ->
  ~ In "args" (map fst d) ->
  ~ In "_pyroDaemon" (map fst d) ->
  (forall name, In name (map fst d) -> exception_descriptor c name = None) ->
  (forall clazz converter,
     In (clazz, converter) (custom_class_to_dict_registry reg) ->
     isinstance ex (qualname clazz) = false) ->
  custom_dict_to_class_registry reg !! qualname c = None ->
  type_replacements !! qualname c = None ->
  type_replacements !! "builtins.set" = None ->
  (2 + 2 * Nat.max (height (PTuple args)) (height (PDict (dict_of_attrs d)))
   <= depth)%nat ->
  exists w,
    JsonSerializer.dumps depth type_replacements reg ex = Ok w
    /\ JsonSerializer.loads (S ldepth) reg w
       = mret (PObject c (map listed args)
                       (Some (map (fun kv => (fst kv, listed (snd kv))) d)) []).
Proof.
  intros -> Hmod Hcls Hsub Hexc Hmark Hnew Hargs Hattrs Hnoargs Hnodaemon
         Hdesc Hnone Hreg Hrepl Hset Hdepth.
  assert (Hrec : class_to_dict "JsonSerializer" reg (PObject c args (Some d) [])
                 = Ok (PDict [(PStr "__class__", PStr (qualname c));
                              (PStr "__exception__", PBool true);
                              (PStr "args", PTuple args);
                              (PStr "attributes", PDict (dict_of_attrs d))])).
  { rewrite class_to_dict_exception;
      [ rewrite no_pyroDaemon by (exact Hnodaemon || intros []); reflexivity
      | exact Hnone | now apply errors_class_not_bare | exact Hexc
      | rewrite no_pyroDaemon by (exact Hnodaemon || intros []); discriminate ]. }
  assert (Hha : (1 <= height (PTuple args))%nat) by (cbn [height]; lia).
  destruct depth as [|[|[|n]]]; try lia.
  exists (json.Object
            [("__class__", json.String (qualname c));
             ("__exception__", json.Bool true);
             ("args", to_json (PTuple args));
             ("attributes", to_json (PDict (dict_of_attrs d)))]).
  split.
  - unfold JsonSerializer.dumps.
    apply json_dumps_instance with
      [(PStr "__class__", PStr (qualname c));
       (PStr "__exception__", PBool true);
       (PStr "args", PTuple args);
       (PStr "attributes", PDict (dict_of_attrs d))].
    + now rewrite json_default_instance.
    + repeat constructor; cbn [fst snd];
        try apply json_dumps_text; try apply json_dumps_bool.
      * change (JsonSerializer.dumps (S n) type_replacements reg (PTuple args)
                = Ok (to_json (PTuple args))).
        apply json_dumps_plain; [exact Hset | exact Hargs | lia].
      * change (JsonSerializer.dumps (S n) type_replacements reg
                  (PDict (dict_of_attrs d))
                = Ok (to_json (PDict (dict_of_attrs d)))).
        apply json_dumps_plain; [exact Hset | exact Hattrs | lia].
  - unfold JsonSerializer.loads.
    assert (Hloads :
      json.loads (json.Object
            [("__class__", json.String (qualname c));
             ("__exception__", json.Bool true);
             ("args", to_json (PTuple args));
             ("attributes", to_json (PDict (dict_of_attrs d)))])
      = PDict [(PStr "__class__", PStr (qualname c));
               (PStr "__exception__", PBool true);
               (PStr "args", json.loads (to_json (PTuple args)));
               (PStr "attributes", json.loads (to_json (PDict (dict_of_attrs d))))])
      by reflexivity.
    rewrite Hloads, !json_loads_plain by assumption.
    rewrite recreate_classes_tagged by (eexists; reflexivity).
    cbn [listed]. rewrite dict_of_attrs_listed.
    apply dict_to_class_exception_record with (PList (map listed args));
      try assumption; try reflexivity.
    + rewrite map_fst_listed. apply unique_keys_NoDup. simpl in Hattrs.
      now apply andb_true_iff in Hattrs as [_ Hu].
    + now rewrite map_fst_listed.
    + now rewrite map_fst_listed.
Qed.

Lemma pack_instance default levels c args dict slots record pairs :
  default (PObject c args dict slots) = Ok (PDict record) ->
  Forall2 (fun kv p => msgpack.pack default levels (fst kv) = Ok (fst p)
                       /\ msgpack.pack default levels (snd kv) = Ok (snd p))
          record pairs ->
  msgpack.pack default (S levels) (PObject c args dict slots)
  = Ok (msgpack.Map pairs).
Proof.
  intros Hd Hall. pose proof (msgpack_pack_dict default levels record pairs Hall)
    as Hdict.
  cbn [msgpack.pack] in Hdict |- *. rewrite Hd. cbn [mbind result_bind].
  exact Hdict.
Qed.

Lemma pack_text default levels s :
  msgpack.pack default (S levels) (PStr s) = Ok (msgpack.Str s).
Proof. reflexivity. Qed.

Lemma pack_bool default levels b :
  msgpack.pack default (S levels) (PBool b) = Ok (msgpack.Bool b).
Proof. reflexivity. Qed.

(** X8.  Such an exception (of a class that is no [Number] and has no
    data descriptor for one of the attribute names) survives [MsgpackSerializer.dumps] followed by [loads], with the sets
    and tuples in its arguments and attributes turned into lists:
    [default] makes the record and [object_hook] rebuilds it.  The value
    must be within the recursion limit of the codec, and no type
    replacement may be registered for the class, for [set] or for
    [int]. *)
Theorem msgpack_exception_round_trip
    (ldepth : nat) (type_replacements : replacements) (reg : registries)
    (c : pyclass) (args : list pyobj) (d : list (string * pyobj)) (ex : pyobj) :
  ex = PObject c args (Some d) [] ->
  cls_module c = "Pyro5.errors" ->
  errors !! cls_name c = Some (PClass c) ->
  issubclass c PyroError = true ->
  issubclass c BaseException = true ->
  issubclass c "numbers.Number" = false ->
  contains "__" (cls_name c) = false ->
  construct c (map listed args)
  = Ok (PObject c (map listed args) (Some []) []) ->
  plain true (PTuple args) = true ->
  plain true (PDict (dict_of_attrs d)) = true ->
  ~ In "args" (map fst d) ->
  ~ In "_pyroDaemon" (map fst d) ->
  (forall name, In name (map fst d) -> exception_descriptor c name = None) ->
  (forall clazz converter,
     In (clazz, converter) (custom_class_to_dict_registry reg) ->
     isinstance ex (qualname clazz) = false) ->
  custom_dict_to_class_registry reg !! qualname c = None ->
  type_replacements !! qualname c = None ->
  type_replacements !! "builtins.set" = None ->
  type_replacements !! "builtins.int" = None ->
  (height (PTuple args) <= msgpack.DEFAULT_RECURSE_LIMIT)%nat ->
  (height (PDict (dict_of_attrs d)) <= msgpack.DEFAULT_RECURSE_LIMIT)%nat ->
  exists w,
    MsgpackSerializer.dumps type_replacements reg ex = Ok w
    /\ MsgpackSerializer.loads (S ldepth) reg w
       = mret (PObject c (map listed args)
                       (Some (map (fun kv => (fst kv, listed (snd kv))) d)) []).
Proof.
  intros -> Hmod Hcls Hsub Hexc Hnum Hmark Hnew Hargs Hattrs Hnoargs Hnodaemon
         Hdesc Hnone Hreg Hrepl Hset Hint Hha Hhd.
  assert (Hrec : class_to_dict "MsgpackSerializer" reg (PObject c args (Some d) [])
                 = Ok (PDict [(PStr "__class__", PStr (qualname c));
                              (PStr "__exception__", PBool true);
                              (PStr "args", PTuple args);
                              (PStr "attributes", PDict (dict_of_attrs d))])).
  { rewrite class_to_dict_exception;
      [ rewrite no_pyroDaemon by (exact Hnodaemon || intros []); reflexivity
      | exact Hnone | now apply errors_class_not_bare | exact Hexc
      | rewrite no_pyroDaemon by (exact Hnodaemon || intros []); discriminate ]. }
  exists (msgpack.Map
            [(msgpack.Str "__class__", msgpack.Str (qualname c));
             (msgpack.Str "__exception__", msgpack.Bool true);
             (msgpack.Str "args", to_msgpack (PTuple args));
             (msgpack.Str "attributes", to_msgpack (PDict (dict_of_attrs d)))]).
  split.
  - unfold MsgpackSerializer.dumps, msgpack.packb.
    apply pack_instance with
      [(PStr "__class__", PStr (qualname c));
       (PStr "__exception__", PBool true);
       (PStr "args", PTuple args);
       (PStr "attributes", PDict (dict_of_attrs d))].
    + rewrite msgpack_default_instance; [exact Hrec | exact Hrepl | exact Hnum].
    + repeat constructor; cbn [fst snd];
        try apply (pack_text _ 510); try apply (pack_bool _ 510).
      * now apply msgpack_pack_plain.
      * now apply msgpack_pack_plain.
  - unfold MsgpackSerializer.loads.
    rewrite (msgpack_unpack_map _ _ _
               [(PStr "__class__", PStr (qualname c));
                (PStr "__exception__", PBool true);
                (PStr "args", listed (PTuple args));
                (PStr "attributes", listed (PDict (dict_of_attrs d)))]).
    + rewrite dict_of_pairs_distinct by reflexivity.
      unfold MsgpackSerializer.object_hook.
      rewrite bool_decide_eq_true_2 by (eexists; reflexivity).
      cbn [listed]. rewrite dict_of_attrs_listed.
      apply dict_to_class_exception_record with (PList (map listed args));
        try assumption; try reflexivity.
      * rewrite map_fst_listed. apply unique_keys_NoDup. simpl in Hattrs.
        now apply andb_true_iff in Hattrs as [_ Hu].
      * now rewrite map_fst_listed.
      * now rewrite map_fst_listed.
    + repeat constructor; cbn [fst snd]; try reflexivity;
        now apply msgpack_unpack_plain.
Qed.

End AdapterExceptions.

(** ** The fixed set of classes *)

Lemma dotless_prefix name prefix :
  contains "." name = false -> contains "." prefix = true ->
  startswith name prefix = false.
Proof.
  intros Hname Hprefix. destruct (startswith name prefix) eqn:Hs; [|reflexivity].
  rewrite (startswith_contains "." name prefix Hs Hprefix) in Hname.
  discriminate.
Qed.


Section FixedSet.
Context `{Host}.

Lemma all_exceptions_lookup name :
  all_exceptions !! name
  = match errors !! name with
    | Some (PClass c) =>
        if issubclass c PyroError then Some c
        else match builtins !! name with
             | Some (PClass b) => if issubclass b BaseException then Some b else None
             | _ => None
             end
    | _ => match builtins !! name with
           | Some (PClass b) => if issubclass b BaseException then Some b else None
           | _ => None
           end
    end.
Proof.
  unfold all_exceptions, classes_below.
  rewrite lookup_union, !lookup_omap.
  destruct (errors !! name) as [e|]; destruct (builtins !! name) as [b|];
    try destruct e; try destruct b; cbv -[issubclass];
    repeat match goal with
           | |- context [issubclass ?c ?base] => destruct (issubclass c base)
           end; reflexivity.
Qed.

(** X9.  Under [Pyro5.core.] and [Pyro5.util.] only the seven
    names that are written out are accepted: any other name with one of
    these prefixes that is not registered is logged and refused with
    [SerializeError], whatever else the record holds.  The branch for
    ["Pyro5.core._ExceptionWrapper"] is never reached, since that name has
    the prefix [Pyro5.core.]: a wrapped exception is refused like any
    other name. *)
Theorem dict_to_class_closed_namespaces
    (depth : nat) (reg : registries) (data : pydict) (classname : string) :
  classname_of data = Ok classname ->
  custom_dict_to_class_registry reg !! classname = None ->
  contains "__" classname = false ->
  startswith classname "Pyro5.core." = true
  \/ startswith classname "Pyro5.util." = true ->
  classname ∉ ["Pyro5.core.URI"; "Pyro5.core.Proxy"; "Pyro5.core.Daemon";
               "Pyro5.util.SerpentSerializer"; "Pyro5.util.MarshalSerializer";
               "Pyro5.util.JsonSerializer"; "Pyro5.util.MsgpackSerializer"] ->
  dict_to_class (S depth) reg data
  = Logged ["unsupported serialized class: " ++ classname]
           (raise SerializeError ("unsupported serialized class: " ++ classname)).
Proof.
  intros Hname Hreg Hmark Hprefix Hwhite. cbn [dict_to_class].
  rewrite Hname, lift_bind, Hreg, Hmark.
  assert (Hne : forall n, n ∈ ["Pyro5.core.URI"; "Pyro5.core.Proxy"; "Pyro5.core.Daemon";
               "Pyro5.util.SerpentSerializer"; "Pyro5.util.MarshalSerializer";
               "Pyro5.util.JsonSerializer"; "Pyro5.util.MsgpackSerializer"] ->
               String.eqb classname n = false).
  { intros n Hn. apply String.eqb_neq. intros ->. contradiction. }
  rewrite !Hne by elem_of_literal.
  destruct Hprefix as [Hcore|Hutil].
  - rewrite Hcore. reflexivity.
  - rewrite Hutil. destruct (startswith classname "Pyro5.core."); reflexivity.
Qed.

End FixedSet.

Lemma dict_to_class_closed_namespaces_witness :
  dict_to_class (H := Sample.host) 2 empty_registries
    [(PStr "__class__", PStr "Pyro5.core._ExceptionWrapper");
     (PStr "exception",
      PDict [(PStr "__class__", PStr "Pyro5.errors.ProtocolError");
             (PStr "__exception__", PBool true);
             (PStr "args", PTuple [PStr "bad request"])])]
  = Logged ["unsupported serialized class: Pyro5.core._ExceptionWrapper"]
           (raise SerializeError
                  "unsupported serialized class: Pyro5.core._ExceptionWrapper").
Proof.
  apply (dict_to_class_closed_namespaces (H := Sample.host) 1 empty_registries
           _ "Pyro5.core._ExceptionWrapper"); try reflexivity.
  - now left.
  - intros Hin. apply list_elem_of_In in Hin. simpl in Hin.
    repeat (destruct Hin as [Hin|Hin]; [discriminate Hin|]). exact Hin.
Defined.

Section KnownExceptions.
Context `{Host}.

Lemma dotless_name_facts classname :
  contains "." classname = false ->
  startswith classname "Pyro5.core." = false
  /\ startswith classname "Pyro5.util." = false
  /\ startswith classname "Pyro5.errors." = false
  /\ String.eqb classname "Pyro5.core._ExceptionWrapper" = false.
Proof.
  intros Hdot.
  assert (Hcore : startswith classname "Pyro5.core." = false)
    by now apply dotless_prefix.
  repeat split; try (now apply dotless_prefix); try exact Hcore.
  now apply core_prefix_wrapper.
Qed.

(** X10.  A record with a true ["__exception__"] flag whose
    name has no dot (and no ["__"], and no converter) is rebuilt by
    [make_exception] with the class that [all_exceptions] holds under that
    name: the [PyroError] class of that name in [errors] when there is one,
    else the exception class of that name in [builtins]. *)
Theorem dict_to_class_short_exception_name
    (depth : nat) (reg : registries) (data : pydict) (classname : string) :
  classname_of data = Ok classname ->
  custom_dict_to_class_registry reg !! classname = None ->
  contains "__" classname = false ->
  contains "." classname = false ->
  truthy (default (PBool false) (dict_get data "__exception__")) = true ->
  (forall c, errors !! classname = Some (PClass c) ->
     issubclass c PyroError = true ->
     dict_to_class (S depth) reg data = lift (make_exception c data))
  /\ (forall b,
        match errors !! classname with
        | Some (PClass c) => issubclass c PyroError = false
        | _ => True
        end ->
        builtins !! classname = Some (PClass b) ->
        issubclass b BaseException = true ->
        dict_to_class (S depth) reg data = lift (make_exception b data)).
Proof.
  intros Hname Hreg Hmark Hdot Hflag.
  destruct (dotless_name_facts classname Hdot) as (Hcore & Hutil & Herr & Hwrap).
  assert (Hrun : dict_to_class (S depth) reg data
    = match all_exceptions !! classname with
      | Some exceptiontype => lift (make_exception exceptiontype data)
      | None =>
          raiseM ValueError "not enough values to unpack (expected 2, got 1)"
      end).
  { cbn [dict_to_class].
    rewrite Hname, lift_bind, Hreg, Hmark, Hcore, Hutil, Herr, Hwrap, Hflag.
    destruct (all_exceptions !! classname); [reflexivity|].
    now rewrite str_split_absent. }
  split.
  - intros c Hc Hsub. rewrite Hrun, all_exceptions_lookup, Hc, Hsub. reflexivity.
  - intros b Herrors Hb Hsub. rewrite Hrun, all_exceptions_lookup, Hb, Hsub.
    destruct (errors !! classname) as [[]|]; try reflexivity.
    now rewrite Herrors.
Qed.

Lemma qualified_name_facts namespace short :
  namespace = "builtins" \/ namespace = "exceptions" \/ namespace = "sqlite3" ->
  contains "__" (namespace ++ "." ++ short) = contains "__" short
  /\ startswith (namespace ++ "." ++ short) "Pyro5.core." = false
  /\ startswith (namespace ++ "." ++ short) "Pyro5.util." = false
  /\ startswith (namespace ++ "." ++ short) "Pyro5.errors." = false
  /\ String.eqb (namespace ++ "." ++ short) "Pyro5.core._ExceptionWrapper" = false
  /\ str_split "." 1 (namespace ++ "." ++ short) = [namespace; short].
Proof. intros [->|[->| ->]]; repeat split; reflexivity. Qed.

(** X11.  A flagged record named [builtins.<short>] or
    [exceptions.<short>], which [all_exceptions] has no entry for: when
    [<short>] is an exception class of [builtins], the record is rebuilt
    with it; when it is a class that is no exception, the record is logged
    and refused with [SerializeError]; when [builtins] has no such
    attribute the unguarded [getattr] raises [AttributeError], and when
    the attribute is no class [issubclass] raises [TypeError]. *)
Theorem dict_to_class_builtin_exception_name
    (depth : nat) (reg : registries) (data : pydict) (namespace short : string) :
  namespace = "builtins" \/ namespace = "exceptions" ->
  classname_of data = Ok (namespace ++ "." ++ short) ->
  custom_dict_to_class_registry reg !! (namespace ++ "." ++ short) = None ->
  contains "__" short = false ->
  all_exceptions !! (namespace ++ "." ++ short) = None ->
  truthy (default (PBool false) (dict_get data "__exception__")) = true ->
  (forall b, builtins !! short = Some (PClass b) ->
     issubclass b BaseException = true ->
     dict_to_class (S depth) reg data = lift (make_exception b data))
  /\ (forall b, builtins !! short = Some (PClass b) ->
        issubclass b BaseException = false ->
        dict_to_class (S depth) reg data
        = Logged ["unsupported serialized class: " ++ namespace ++ "." ++ short]
                 (raise SerializeError
                    ("unsupported serialized class: " ++ namespace ++ "." ++ short)))
  /\ (builtins !! short = None ->
      dict_to_class (S depth) reg data = raiseM AttributeError short)
  /\ (forall t, builtins !! short = Some t ->
        (forall b, t <> PClass b) ->
        dict_to_class (S depth) reg data
        = raiseM TypeError "issubclass() arg 1 must be a class").
Proof.
  intros Hns Hname Hreg Hmark Hnone Hflag.
  destruct (qualified_name_facts namespace short) as (Hm & Hcore & Hutil & Herr & Hwrap & Hsplit);
    [tauto|].
  assert (Hrun : dict_to_class (S depth) reg data
    = (exceptiontype ← lift (exceptiontype ← module_getattr builtins short;
                             issubclass_obj exceptiontype BaseException);
       match exceptiontype with
       | Some exceptiontype => lift (make_exception exceptiontype data)
       | None => unsupported (namespace ++ "." ++ short)
       end)).
  { cbn [dict_to_class].
    rewrite Hname, lift_bind, Hreg, Hm, Hmark, Hcore, Hutil, Herr, Hwrap, Hflag,
      Hnone, Hsplit.
    destruct Hns as [-> | ->]; reflexivity. }
  rewrite Hrun. unfold module_getattr. repeat apply conj.
  - intros b Hb Hsub. rewrite Hb. simpl. rewrite Hsub.
    exact (lift_bind (Some b) _).
  - intros b Hb Hsub. rewrite Hb. simpl. rewrite Hsub.
    exact (lift_bind None _).
  - intros Hmiss. rewrite Hmiss. reflexivity.
  - intros t Ht Hnot. rewrite Ht. cbn [mbind result_bind].
    destruct t; try reflexivity. now destruct (Hnot c).
Qed.

(** X12.  A flagged record named [sqlite3.<short>], which
    [all_exceptions] has no entry for: when [<short>] does not end in
    ["Error"] it is logged and refused with [SerializeError], whether
    [sqlite3] can be imported or not; when it does, the import of
    [sqlite3] may fail with [ImportError], an exception class of that name
    rebuilds the record, and a missing attribute raises
    [AttributeError]. *)
Theorem dict_to_class_sqlite3_exception_name
    (depth : nat) (reg : registries) (data : pydict) (short : string) :
  classname_of data = Ok ("sqlite3." ++ short) ->
  custom_dict_to_class_registry reg !! ("sqlite3." ++ short) = None ->
  contains "__" short = false ->
  all_exceptions !! ("sqlite3." ++ short) = None ->
  truthy (default (PBool false) (dict_get data "__exception__")) = true ->
  (endswith short "Error" = false ->
   dict_to_class (S depth) reg data
   = Logged ["unsupported serialized class: sqlite3." ++ short]
            (raise SerializeError ("unsupported serialized class: sqlite3." ++ short)))
  /\ (endswith short "Error" = true -> sqlite3 = None ->
      dict_to_class (S depth) reg data
      = raiseM ImportError "No module named 'sqlite3'")
  /\ (forall module b,
        endswith short "Error" = true -> sqlite3 = Some module ->
        module !! short = Some (PClass b) ->
        issubclass b BaseException = true ->
        dict_to_class (S depth) reg data = lift (make_exception b data))
  /\ (forall module,
        endswith short "Error" = true -> sqlite3 = Some module ->
        module !! short = None ->
        dict_to_class (S depth) reg data = raiseM AttributeError short).
Proof.
  intros Hname Hreg Hmark Hnone Hflag.
  destruct (qualified_name_facts "sqlite3" short)
    as (Hm & Hcore & Hutil & Herr & Hwrap & Hsplit); [tauto|].
  assert (Hrun : dict_to_class (S depth) reg data
    = if endswith short "Error" then
        match sqlite3 with
        | None => raiseM ImportError "No module named 'sqlite3'"
        | Some sqlite3 =>
            exceptiontype ← lift (exceptiontype ←
                                    module_getattr sqlite3 short;
                                  issubclass_obj exceptiontype BaseException);
            match exceptiontype with
            | Some exceptiontype => lift (make_exception exceptiontype data)
            | None => unsupported ("sqlite3." ++ short)
            end
        end
      else unsupported ("sqlite3." ++ short)).
  { cbn [dict_to_class].
    change ("sqlite3" ++ "." ++ short) with ("sqlite3." ++ short) in *.
    rewrite Hname, lift_bind, Hreg, Hm, Hmark, Hcore, Hutil, Herr, Hwrap, Hflag,
      Hnone, Hsplit.
    reflexivity. }
  rewrite Hrun. repeat apply conj.
  - intros Hend. now rewrite Hend.
  - intros Hend Hmod. now rewrite Hend, Hmod.
  - intros module b Hend Hmod Hb Hsub. rewrite Hend, Hmod.
    unfold module_getattr. rewrite Hb. simpl. rewrite Hsub.
    exact (lift_bind (Some b) _).
  - intros module Hend Hmod Hmiss. rewrite Hend, Hmod.
    unfold module_getattr. rewrite Hmiss. reflexivity.
Qed.

End KnownExceptions.

(** ** Exception records *)

Section ExceptionRecords.
Context `{Host}.

(** A record whose name resolves to an exception type is handed to
    [make_exception] with that type. *)
Lemma dict_to_class_resolved depth reg data classname exceptiontype :
  classname_of data = Ok classname ->
  custom_dict_to_class_registry reg !! classname = None ->
  resolves data classname exceptiontype ->
  dict_to_class (S depth) reg data = lift (make_exception exceptiontype data).
Proof.
  intros Hname Hreg Hres.
  destruct Hres as [name c Hmark Hcls Hsub
                   | classname c Hflag Hmark Hcore Hutil Herr Hknown
                   | namespace short c Hflag Hns Hmark Hnone Hcls Hsub
                   | short module c Hflag Hmark Hend Hnone Hmod Hcls Hsub].
  - now apply dict_to_class_framework_error with name.
  - cbn [dict_to_class].
    rewrite Hname, lift_bind, Hreg, Hmark, Hcore, Hutil, Herr,
      (core_prefix_wrapper _ Hcore), Hflag, Hknown.
    reflexivity.
  - destruct (qualified_name_facts namespace short)
      as (Hm & Hcore & Hutil & Herr & Hwrap & Hsplit); [tauto|].
    cbn [dict_to_class].
    rewrite Hname, lift_bind, Hreg, Hm, Hmark, Hcore, Hutil, Herr, Hwrap, Hflag,
      Hnone, Hsplit.
    assert (Hin : String.eqb namespace "builtins"
                  || String.eqb namespace "exceptions" = true)
      by (destruct Hns as [-> | ->]; reflexivity).
    rewrite Hin. unfold module_getattr. rewrite Hcls. simpl. rewrite Hsub.
    exact (lift_bind (Some c) _).
  - destruct (qualified_name_facts "sqlite3" short)
      as (Hm & Hcore & Hutil & Herr & Hwrap & Hsplit); [tauto|].
    cbn [dict_to_class].
    change ("sqlite3" ++ "." ++ short) with ("sqlite3." ++ short) in *.
    rewrite Hname, lift_bind, Hreg, Hm, Hmark, Hcore, Hutil, Herr, Hwrap, Hflag,
      Hnone, Hsplit.
    cbn [String.eqb Ascii.eqb Bool.eqb orb andb]. rewrite Hend, Hmod.
    unfold module_getattr. rewrite Hcls. simpl. rewrite Hsub.
    exact (lift_bind (Some c) _).
Qed.

(** C4, amended.  A record whose name resolves to an exception type, and
    for which no converter is registered, is rebuilt by calling the type
    with the elements of the stored ["args"] and then calling [setattr] on
    the new instance for every entry of the stored ["attributes"], in
    order.
    - When the constructor gives an instance with an attribute dictionary
      whose [args] are its arguments, and the attribute names are different
      from each other, are not ["args"] and have no data descriptor in the
      type, the result is an instance of the type whose [args] are the
      stored ones and on which every stored attribute reads back with its
      stored value.  (The record of the spec, a [ProtocolError] with
      [("bad request",)] and [{"extra": 42}], is the witness below.)
    - An entry whose name has a data descriptor in the type is assigned
      through the descriptor; when that refuses the value of the first
      entry, the record is not rebuilt: the error of the descriptor comes
      out (a record with the attributes [{"__cause__": 5}] ends in
      [TypeError], as is evaluated after the witness). *)
Theorem exception_record_reconstruction
    (depth : nat) (reg : registries) (data : pydict) (classname : string)
    (exceptiontype : pyclass) (args : pyobj) (positional : list pyobj)
    (named d : list (string * pyobj)) (slots : list (string * pyobj)) :
  classname_of data = Ok classname ->
  custom_dict_to_class_registry reg !! classname = None ->
  resolves data classname exceptiontype ->
  dict_get data "args" = Some args ->
  iterate args = Ok positional ->
  dict_get data "attributes" = Some (PDict (dict_of_attrs named)) ->
  dict_to_class (S depth) reg data
  = lift (ex ← construct exceptiontype positional;
          foldM (fun ex kv => setattr ex (fst kv) (snd kv)) ex
                (dict_of_attrs named))
  /\ (construct exceptiontype positional
      = Ok (PObject exceptiontype positional (Some d) slots) ->
      issubclass exceptiontype BaseException = true ->
      List.NoDup (map fst named) ->
      ~ In "args" (map fst named) ->
      (forall attr, In attr (map fst named) ->
         exception_descriptor exceptiontype attr = None) ->
      exists ex,
        dict_to_class (S depth) reg data = mret ex
        /\ type_of ex = exceptiontype
        /\ getattr ex "args" = Ok (PTuple positional)
        /\ forall attr value,
             In (attr, value) named -> getattr ex attr = Ok value)
  /\ (forall ex attr value rest assign why msg,
        construct exceptiontype positional = Ok ex ->
        ex = PObject exceptiontype positional (Some d) slots ->
        issubclass exceptiontype BaseException = true ->
        named = (attr, value) :: rest ->
        attr <> "args" ->
        exception_descriptor exceptiontype attr = Some assign ->
        assign ex value = Refused why msg ->
        dict_to_class (S depth) reg data = lift (raise (refusal_class why) msg)).
Proof.
  intros Hname Hreg Hres Hargs Hpos Hattr.
  assert (Hstep : dict_to_class (S depth) reg data
                  = lift (ex ← construct exceptiontype positional;
                          foldM (fun ex kv => setattr ex (fst kv) (snd kv)) ex
                                (dict_of_attrs named))).
  { rewrite (dict_to_class_resolved depth reg data classname exceptiontype)
      by assumption.
    now rewrite (make_exception_steps _ _ args positional (dict_of_attrs named)). }
  split; [exact Hstep|]. split.
  - intros Hnew Hexc Hnd Hnoargs Hplain.
    exists (PObject exceptiontype positional (Some (set_attributes d named)) slots).
    split; [|split; [reflexivity|split]].
    + rewrite Hstep, Hnew. simpl. now rewrite foldM_setattr.
    + simpl. now rewrite Hexc.
    + intros attr value Hin. simpl.
      destruct (String.eqb_spec attr "args") as [->|Hne].
      * exfalso. apply Hnoargs. apply in_map_iff. now exists ("args", value).
      * simpl. now rewrite (set_attributes_get named d attr value).
  - intros ex attr value rest assign why msg Hnew -> Hexc -> Hne Hdesc Hrefused.
    rewrite Hstep, Hnew. cbn [mbind result_bind dict_of_attrs map foldM fst snd].
    now rewrite (setattr_refused _ _ _ _ _ assign value why msg).
Qed.

End ExceptionRecords.

Lemma exception_record_reconstruction_witness :
  exists ex,
    dict_to_class (H := Sample.host) 1 empty_registries
                  Sample.protocol_error_record = mret ex
    /\ qualname (type_of ex) = "Pyro5.errors.ProtocolError"
    /\ getattr ex "args" = Ok (PTuple [PStr "bad request"])
    /\ getattr ex "extra" = Ok (PInt 42).
Proof.
  destruct (exception_record_reconstruction (H := Sample.host) 0
              empty_registries Sample.protocol_error_record
              "Pyro5.errors.ProtocolError"
              (Sample.error_class "ProtocolError"
                                  ["Pyro5.errors.CommunicationError"])
              (PTuple [PStr "bad request"]) [PStr "bad request"]
              [("extra", PInt 42)] [] []
              eq_refl (lookup_empty _)
              (resolves_framework (H := Sample.host) _ "ProtocolError" _
                                  eq_refl eq_refl eq_refl)
              eq_refl eq_refl eq_refl)
    as (_ & Hex & _).
  destruct Hex as (ex & Hrun & Htype & Hargs & Hattrs).
  - reflexivity.
  - reflexivity.
  - repeat constructor. intros [].
  - intros [Heq|[]]. discriminate Heq.
  - intros attr [<-|[]]. reflexivity.
  - exists ex. split; [exact Hrun|]. split; [now rewrite Htype|].
    split; [exact Hargs|]. apply Hattrs. now left.
Defined.

(** Where the claim as it stands fails: the attribute [__cause__] takes
    [None] or an exception only, so [setattr] refuses the entry and no
    instance comes out. *)
Lemma exception_attribute_refused :
  dict_to_class (H := Sample.host) 1 empty_registries
    [(PStr "__class__", PStr "Pyro5.errors.ProtocolError");
     (PStr "args", PTuple [PStr "bad request"]);
     (PStr "attributes", PDict [(PStr "__cause__", PInt 5)])]
  = raiseM TypeError "exception cause must be None or derive from BaseException".
Proof. reflexivity. Qed.

(** ** Values without records *)

Section Untagged.
Context `{Host}.

Lemma mapM_M_id {A} (f : A -> M A) l :
  Forall (fun x => f x = mret x) l -> mapM f l = mret l.
Proof.
  intros Hall. rewrite (mapM_M_ext f id) by exact Hall. now rewrite map_id.
Qed.

(** X17.  [recreate_classes] gives back unchanged, and logs
    nothing for, every value in which no dict reached through lists,
    tuples, sets and dict values has the key ["__class__"]: floats, byte
    strings, dates, instances and dict keys are not looked into. *)
Theorem recreate_classes_untagged
    (depth : nat) (reg : registries) (literal : pyobj) :
  untagged literal = true ->
  recreate_classes depth reg literal = mret literal.
Proof.
  revert literal. fix IH 1. intros literal Hv.
  destruct literal; try reflexivity.
  - cbn [recreate_classes]. rewrite mapM_M_id; [reflexivity|].
    simpl in Hv. induction l as [|x l IHl]; constructor.
    + apply IH. simpl in Hv. now apply andb_true_iff in Hv as [Hx _].
    + apply IHl. simpl in Hv. now apply andb_true_iff in Hv as [_ Hl].
  - cbn [recreate_classes]. rewrite mapM_M_id; [reflexivity|].
    simpl in Hv. induction l as [|x l IHl]; constructor.
    + apply IH. simpl in Hv. now apply andb_true_iff in Hv as [Hx _].
    + apply IHl. simpl in Hv. now apply andb_true_iff in Hv as [_ Hl].
  - cbn [recreate_classes]. rewrite mapM_M_id; [reflexivity|].
    simpl in Hv. induction l as [|x l IHl]; constructor.
    + apply IH. simpl in Hv. now apply andb_true_iff in Hv as [Hx _].
    + apply IHl. simpl in Hv. now apply andb_true_iff in Hv as [_ Hl].
  - cbn [recreate_classes]. cbn [untagged] in Hv.
    apply andb_true_iff in Hv as [Htag Hd].
    rewrite negb_true_iff in Htag. rewrite Htag.
    rewrite mapM_M_id; [reflexivity|]. clear Htag.
    induction d as [|[k x] d IHd]; constructor.
    + cbn [fst snd]. simpl in Hd. apply andb_true_iff in Hd as [Hx _].
      rewrite (IH x Hx). reflexivity.
    + apply IHd. simpl in Hd. now apply andb_true_iff in Hd as [_ Hd].
Qed.

End Untagged.

Lemma recreate_classes_untagged_witness :
  recreate_classes (H := Sample.host) 0 empty_registries
    (PList [PFloat Sample.three; PBytes ["a"%byte];
            PDict [(PInt 1, PTuple [PDate 738000; PNone])]])
  = mret (PList [PFloat Sample.three; PBytes ["a"%byte];
                 PDict [(PInt 1, PTuple [PDate 738000; PNone])]]).
Proof.
  apply (recreate_classes_untagged (H := Sample.host)). reflexivity.
Defined.

(** ** Calls *)

Section Calls.
Context `{Host}.

(** X20.  [MarshalSerializer.loadsCall] gives back the four parts
    of a call that [dumpsCall] wrote, for parts built from [None],
    booleans, integers, text, byte strings, lists, tuples, sets and
    mappings.  Unlike [dumps], [dumpsCall] has no fallback on
    [class_to_dict]: when marshal cannot write the arguments, the error of
    marshal comes out (a UUID argument fails, where [dumps] writes the
    UUID as text). *)
Theorem marshal_call_round_trip
    (depth : nat) (reg : registries) (obj method vargs kwargs : pyobj) :
  (plain true obj = true -> plain true method = true ->
   plain true vargs = true -> plain true kwargs = true ->
   exists w,
     MarshalSerializer.dumpsCall obj method vargs kwargs = Ok w
     /\ MarshalSerializer.loadsCall depth reg w
        = mret (obj, method, vargs, kwargs))
  /\ (forall e, plain true obj = true -> plain true method = true ->
        marshal.dumps vargs = Err e ->
        MarshalSerializer.dumpsCall obj method vargs kwargs = Err e)
  /\ (forall n, marshal.dumps (PUuid n) = raise ValueError "unmarshallable object"
                /\ MarshalSerializer.dumps reg (PUuid n)
                   = Ok (PStr (str_of_uuid n))).
Proof.
  repeat apply conj.
  - intros Ho Hm Ha Hk. exists (PTuple [obj; method; vargs; kwargs]). split.
    + unfold MarshalSerializer.dumpsCall. apply marshal_dumps_plain.
      cbn [plain forallb]. now rewrite Ho, Hm, Ha, Hk.
    + unfold MarshalSerializer.loadsCall, marshal.loads.
      cbn [unpack4 iterate]. rewrite lift_bind.
      rewrite (recreate_classes_plain true depth reg vargs Ha), M_ret_bind.
      rewrite (recreate_classes_plain true depth reg kwargs Hk), M_ret_bind.
      reflexivity.
  - intros e Ho Hm Ha. unfold MarshalSerializer.dumpsCall.
    cbn [marshal.dumps mapM].
    rewrite (marshal_dumps_plain obj Ho), (marshal_dumps_plain method Hm), Ha.
    reflexivity.
  - intros n. split; [reflexivity | apply marshal_dumps_uuid].
Qed.

Lemma height_pos v : (1 <= height v)%nat.
Proof. destruct v; simpl; lia. Qed.

(** X21.  [JsonSerializer.loadsCall] gives back the four parts of
    a call that [dumpsCall] wrote as an object with the members
    ["object"], ["method"], ["params"] and ["kwargs"], each with its sets
    and tuples turned into lists; for parts built from [None], booleans,
    integers, text, lists, tuples, sets and mappings, within the depth
    the encoder is allowed and with no type replacement for [set]. *)
Theorem json_call_round_trip
    (depth ldepth : nat) (type_replacements : replacements) (reg : registries)
    (obj method vargs kwargs : pyobj) :
  type_replacements !! "builtins.set" = None ->
  plain false obj = true -> plain false method = true ->
  plain false vargs = true -> plain false kwargs = true ->
  (2 * height (PDict [(PStr "object", obj); (PStr "method", method);
                      (PStr "params", vargs); (PStr "kwargs", kwargs)])
   <= depth)%nat ->
  exists w,
    JsonSerializer.dumpsCall depth type_replacements reg obj method vargs kwargs
    = Ok w
    /\ JsonSerializer.loadsCall ldepth reg w
       = mret (listed obj, listed method, listed vargs, listed kwargs).
Proof.
  intros Hset Ho Hm Ha Hk Hdepth.
  assert (Hcall : plain false (PDict [(PStr "object", obj); (PStr "method", method);
                      (PStr "params", vargs); (PStr "kwargs", kwargs)]) = true).
  { cbn [plain forallb fst snd plain_key]. rewrite Ho, Hm, Ha, Hk. reflexivity. }
  eexists. split.
  - unfold JsonSerializer.dumpsCall.
    exact (json_dumps_plain type_replacements reg _ Hset Hcall depth Hdepth).
  - unfold JsonSerializer.loadsCall.
    rewrite (json_loads_plain _ Hcall). cbn [listed map fst snd].
    cbn [subscript getitem dict_get key_is String.eqb Ascii.eqb Bool.eqb].
    rewrite lift_bind.
    rewrite (recreate_classes_plain false ldepth reg (listed vargs))
      by now apply plain_listed.
    rewrite M_ret_bind, lift_bind.
    rewrite (recreate_classes_plain false ldepth reg (listed kwargs))
      by now apply plain_listed.
    rewrite M_ret_bind, !lift_bind. reflexivity.
Qed.

Lemma msgpack_unpack_undecoded depth reg v :
  plain true v = true ->
  msgpack.unpackb (MsgpackSerializer.object_hook depth reg) msgpack.ExtType
                  (to_msgpack v)
  = mret (listed_ext v).
Proof.
  revert v. apply plain_induction; try reflexivity.
  - intros n. cbn [to_msgpack listed_ext].
    destruct ((- 2 ^ 63 <=? n) && (n <? 2 ^ 64)); reflexivity.
  - intros l _ IH. cbn [to_msgpack msgpack.unpackb listed_ext].
    rewrite (mapM_M_map _ to_msgpack listed_ext l IH). reflexivity.
  - intros l _ IH. cbn [to_msgpack msgpack.unpackb listed_ext].
    rewrite (mapM_M_map _ to_msgpack listed_ext l IH). reflexivity.
  - intros l _ IH. cbn [to_msgpack msgpack.unpackb listed_ext].
    rewrite (mapM_M_map _ to_msgpack listed_ext l IH). reflexivity.
  - intros d Hall Huniq IH. cbn [to_msgpack listed_ext].
    apply plain_keys_only in Hall.
    rewrite (msgpack_unpack_map _ _ _ (map (fun kv => (fst kv, listed_ext (snd kv))) d)).
    + rewrite dict_of_pairs_distinct
        by (rewrite distinct_keys_values; now apply unique_keys_distinct).
      unfold MsgpackSerializer.object_hook.
      rewrite bool_decide_eq_false_2; [reflexivity|].
      intros [v Hv].
      assert (Hnone : dict_get (map (fun kv => (fst kv, listed_ext (snd kv))) d)
                               "__class__" = None).
      { clear -Hall. induction d as [|[k x] d IHd]; [reflexivity|]. simpl in *.
        apply andb_true_iff in Hall as [Hk Hd].
        destruct k; try discriminate Hk. simpl in *.
        rewrite negb_true_iff in Hk. rewrite Hk. now apply IHd. }
      rewrite Hnone in Hv. discriminate.
    + clear -Hall IH. induction d as [|[k x] d IHd]; [constructor|].
      simpl in Hall. apply andb_true_iff in Hall as [Hk Hd].
      inversion IH as [|? ? Hx IH']; subst.
      cbn [map]. constructor; [|now apply IHd].
      cbn [fst snd] in *. destruct k; try discriminate Hk.
      split; [reflexivity | split; [exact Hx | reflexivity]].
Qed.

Lemma listed_ext_fits bytes_ok v :
  plain bytes_ok v = true -> fits_int64 v = true -> listed_ext v = listed v.
Proof.
  revert v.
  apply (plain_induction bytes_ok
           (fun v => fits_int64 v = true -> listed_ext v = listed v));
    try reflexivity.
  - intros n Hn. cbn [fits_int64] in Hn. cbn [listed_ext]. now rewrite Hn.
  - intros l _ IH Hfit. cbn [listed_ext listed fits_int64] in *. f_equal.
    apply map_ext_Forall. rewrite List.Forall_forall in IH |- *.
    intros x Hx. apply IH; [exact Hx|]. rewrite forallb_forall in Hfit. now apply Hfit.
  - intros l _ IH Hfit. cbn [listed_ext listed fits_int64] in *. f_equal.
    apply map_ext_Forall. rewrite List.Forall_forall in IH |- *.
    intros x Hx. apply IH; [exact Hx|]. rewrite forallb_forall in Hfit. now apply Hfit.
  - intros l _ IH Hfit. cbn [listed_ext listed fits_int64] in *. f_equal.
    apply map_ext_Forall. rewrite List.Forall_forall in IH |- *.
    intros x Hx. apply IH; [exact Hx|]. rewrite forallb_forall in Hfit. now apply Hfit.
  - intros d _ _ IH Hfit. cbn [listed_ext listed fits_int64] in *. f_equal.
    apply map_ext_Forall. rewrite List.Forall_forall in IH |- *.
    intros [k x] Hx. cbn [fst snd]. f_equal.
    apply (IH _ Hx). rewrite forallb_forall in Hfit. exact (Hfit _ Hx).
Qed.

(** X22.  [MsgpackSerializer.loadsCall] unpacks without
    [ext_hook]: of a call that [dumpsCall] wrote it gives back the four
    parts with sets and tuples turned into lists and with every integer
    outside 64 bits left as the extension value [ExtType(0x31, digits)],
    where [loads] on the same document gives the integer back.  The two
    agree on parts whose integers all fit 64 bits. *)
Theorem msgpack_call_extension_values
    (ldepth : nat) (type_replacements : replacements) (reg : registries)
    (obj method vargs kwargs : pyobj) :
  type_replacements !! "builtins.set" = None ->
  type_replacements !! "builtins.int" = None ->
  plain true obj = true -> plain true method = true ->
  plain true vargs = true -> plain true kwargs = true ->
  (height (PTuple [obj; method; vargs; kwargs])
   <= S msgpack.DEFAULT_RECURSE_LIMIT)%nat ->
  exists w,
    MsgpackSerializer.dumpsCall type_replacements reg obj method vargs kwargs
    = Ok w
    /\ MsgpackSerializer.loadsCall ldepth reg w
       = mret (listed_ext obj, listed_ext method,
               listed_ext vargs, listed_ext kwargs)
    /\ MsgpackSerializer.loads ldepth reg w
       = mret (PList [listed obj; listed method; listed vargs; listed kwargs])
    /\ (fits_int64 vargs = true -> listed_ext vargs = listed vargs)
    /\ (forall n, (- 2 ^ 63 <=? n) && (n <? 2 ^ 64) = false ->
          listed_ext (PInt n) = PExtType 0x31 (encode_text (str_of_int n))
          /\ listed (PInt n) = PInt n).
Proof.
  intros Hset Hint Ho Hm Ha Hk Hheight.
  assert (Hcall : plain true (PTuple [obj; method; vargs; kwargs]) = true).
  { cbn [plain forallb]. now rewrite Ho, Hm, Ha, Hk. }
  exists (to_msgpack (PTuple [obj; method; vargs; kwargs])).
  repeat apply conj.
  - unfold MsgpackSerializer.dumpsCall, msgpack.packb.
    now apply msgpack_pack_plain.
  - unfold MsgpackSerializer.loadsCall.
    rewrite (msgpack_unpack_undecoded ldepth reg _ Hcall), M_ret_bind.
    reflexivity.
  - unfold MsgpackSerializer.loads.
    now rewrite (msgpack_unpack_plain ldepth reg _ Hcall).
  - now apply (listed_ext_fits true).
  - intros n Hn. cbn [listed_ext listed]. now rewrite Hn.
Qed.

End Calls.

(** ** Compression is transparent *)

Section Transparent.
Context `{Host}.

Lemma compressdata_spec payload compress :
  zlib_decompress (zlib_compress payload) = Ok payload ->
  (if snd (compressdata payload compress)
   then zlib_decompress (fst (compressdata payload compress))
   else Ok (fst (compressdata payload compress))) = Ok payload
  /\ (length (fst (compressdata payload compress)) <= length payload)%nat
  /\ (snd (compressdata payload compress) = true ->
      (length (fst (compressdata payload compress)) < length payload)%nat
      /\ (200 <= length payload)%nat
      /\ compress = true).
Proof.
  intros Hzlib. unfold compressdata.
  destruct compress; cbn [negb orb].
  - destruct (Nat.ltb_spec (length payload) 200) as [Hshort|Hlong]; cbn [fst snd].
    + repeat split; try lia; try discriminate.
    + destruct (Nat.ltb_spec (length (zlib_compress payload)) (length payload))
        as [Hless|Hmore]; cbn [fst snd].
      * repeat split; try lia; try assumption.
      * repeat split; try lia; try discriminate.
  - cbn [fst snd]. repeat split; try lia; try discriminate.
Qed.

(** X23.  Compression is transparent.  When zlib gives the
    payload back, [deserializeData] on the pair that [serializeData]
    returned is [loads] on the payload, whatever the [compress] flag was,
    and likewise [deserializeCall] after [serializeCall]; the data
    returned is never longer than the payload, and when it is flagged as
    compressed it is strictly shorter and the payload had at least 200
    bytes. *)
Theorem compression_round_trip (payload : list byte) (compress : bool) :
  zlib_decompress (zlib_compress payload) = Ok payload ->
  (forall (dumps : pyobj -> result (list byte)) (loads : list byte -> M pyobj)
          (value : pyobj),
     dumps value = Ok payload ->
     exists out flag,
       serializeData dumps value compress = Ok (out, flag)
       /\ deserializeData loads out flag = loads payload
       /\ (length out <= length payload)%nat
       /\ (flag = true ->
           (length out < length payload)%nat /\ (200 <= length payload)%nat))
  /\ (forall (dumpsCall : pyobj -> pyobj -> pyobj -> pyobj -> result (list byte))
             (loadsCall : list byte -> M (pyobj * pyobj * pyobj * pyobj))
             (obj method vargs kwargs : pyobj),
        dumpsCall obj method vargs kwargs = Ok payload ->
        exists out flag,
          serializeCall dumpsCall obj method vargs kwargs compress
          = Ok (out, flag)
          /\ deserializeCall loadsCall out flag = loadsCall payload
          /\ (length out <= length payload)%nat
          /\ (flag = true ->
              (length out < length payload)%nat /\ (200 <= length payload)%nat)).
Proof.
  intros Hzlib.
  destruct (compressdata_spec payload compress Hzlib) as (Hback & Hlen & Hflag).
  split.
  - intros dumps loads value Hdumps.
    exists (fst (compressdata payload compress)), (snd (compressdata payload compress)).
    repeat apply conj.
    + unfold serializeData. rewrite Hdumps. cbn [mbind result_bind].
      now destruct (compressdata payload compress).
    + unfold deserializeData. rewrite Hback. apply lift_bind.
    + exact Hlen.
    + intros Hf. destruct (Hflag Hf) as (? & ? & _). now split.
  - intros dumpsCall loadsCall obj method vargs kwargs Hdumps.
    exists (fst (compressdata payload compress)), (snd (compressdata payload compress)).
    repeat apply conj.
    + unfold serializeCall. rewrite Hdumps. cbn [mbind result_bind].
      now destruct (compressdata payload compress).
    + unfold deserializeCall. rewrite Hback. apply lift_bind.
    + exact Hlen.
    + intros Hf. destruct (Hflag Hf) as (? & ? & _). now split.
Qed.

End Transparent.

(** ** Type replacements *)

Lemma mapM_result_eq {A B} (f g : A -> result B) l :
  Forall (fun x => f x = g x) l -> mapM f l = mapM g l.
Proof.
  induction 1 as [|x l Hx _ IH]; [reflexivity|].
  cbn [mapM]. now rewrite Hx, IH.
Qed.

Section Replacements.
Context `{Host}.

Lemma json_dumps_native default default' : forall depth v,
  json_native v = true ->
  json.dumps depth default v = json.dumps depth default' v.
Proof.
  induction depth as [|depth IH]; intros v Hv; [reflexivity|].
  destruct v; try discriminate Hv; try reflexivity; cbn [json.dumps].
  - f_equal. apply mapM_result_eq. apply List.Forall_forall. intros x Hx.
    apply IH. cbn [json_native] in Hv. rewrite forallb_forall in Hv. now apply Hv.
  - f_equal. apply mapM_result_eq. apply List.Forall_forall. intros x Hx.
    apply IH. cbn [json_native] in Hv. rewrite forallb_forall in Hv. now apply Hv.
  - f_equal. apply mapM_result_eq. apply List.Forall_forall. intros [k x] Hx.
    cbn [fst snd]. rewrite (IH x); [reflexivity|].
    cbn [json_native] in Hv. rewrite forallb_forall in Hv. exact (Hv _ Hx).
Qed.

Lemma msgpack_pack_native default default' : forall levels v,
  msgpack_native v = true ->
  msgpack.pack default levels v = msgpack.pack default' levels v.
Proof.
  induction levels as [|levels IH]; intros v Hv; [reflexivity|].
  destruct v; try discriminate Hv; try reflexivity; cbn [msgpack.pack].
  - cbn [msgpack_native] in Hv. now rewrite Hv.
  - f_equal. apply mapM_result_eq. apply List.Forall_forall. intros x Hx.
    apply IH. cbn [msgpack_native] in Hv. rewrite forallb_forall in Hv. now apply Hv.
  - f_equal. apply mapM_result_eq. apply List.Forall_forall. intros x Hx.
    apply IH. cbn [msgpack_native] in Hv. rewrite forallb_forall in Hv. now apply Hv.
  - f_equal. apply mapM_result_eq. apply List.Forall_forall. intros [k x] Hx.
    cbn [fst snd]. cbn [msgpack_native] in Hv. rewrite forallb_forall in Hv.
    specialize (Hv _ Hx). cbn [fst snd] in Hv.
    apply andb_true_iff in Hv as [Hk Hv].
    now rewrite (IH k Hk), (IH x Hv).
Qed.

(** X24.  The codecs call [default] only for what they cannot
    write themselves.  For a value built from [None], booleans, integers,
    floats, text, lists, tuples and dicts, [JsonSerializer.dumps] does not
    depend on the type replacements nor on the outbound registry;
    likewise [MsgpackSerializer.dumps] for values built from these (with
    integers of 64 bits), byte strings and extension values.  So a
    replacement registered for [int], [str], [list] or [dict] is never
    applied to such a value. *)
Theorem native_values_bypass_default
    (depth : nat) (type_replacements type_replacements' : replacements)
    (reg reg' : registries) (v : pyobj) :
  (json_native v = true ->
   JsonSerializer.dumps depth type_replacements reg v
   = JsonSerializer.dumps depth type_replacements' reg' v)
  /\ (msgpack_native v = true ->
      MsgpackSerializer.dumps type_replacements reg v
      = MsgpackSerializer.dumps type_replacements' reg' v).
Proof.
  split; intros Hv.
  - unfold JsonSerializer.dumps. now apply json_dumps_native.
  - unfold MsgpackSerializer.dumps, msgpack.packb. now apply msgpack_pack_native.
Qed.

Lemma json_default_replaced repl reg obj :
  JsonSerializer.default repl reg obj
  = (obj ← replace repl obj; JsonSerializer.default ∅ reg obj).
Proof.
  unfold JsonSerializer.default.
  destruct (replace repl obj) as [o|e]; [|reflexivity]. simpl.
  unfold replace at 1. now rewrite lookup_empty.
Qed.

(** X25.  A type replacement is looked up by [type(obj)]
    itself.  After [register_type_replacement] for [object_type],
    [default] applies the replacement function to an object of exactly
    that type, once (the outcome is not replaced again), and goes on with
    its outcome; for an object of any other type, an instance of a
    subclass of [object_type] included, [default] is what it was
    before. *)
Theorem type_replacement_by_exact_type
    (type_replacements : replacements) (reg : registries)
    (object_type : pyclass) (replacement_function : pyobj -> result pyobj)
    (obj : pyobj) :
  (qualname (type_of obj) = qualname object_type ->
   JsonSerializer.default
     (JsonSerializer.register_type_replacement type_replacements object_type
                                               replacement_function) reg obj
   = (replaced ← replacement_function obj;
      JsonSerializer.default ∅ reg replaced)
   /\ MsgpackSerializer.default
        (MsgpackSerializer.register_type_replacement type_replacements
           object_type replacement_function) reg obj
      = (replaced ← replacement_function obj;
         MsgpackSerializer.default ∅ reg replaced))
  /\ (qualname (type_of obj) <> qualname object_type ->
      JsonSerializer.default
        (JsonSerializer.register_type_replacement type_replacements object_type
                                                  replacement_function) reg obj
      = JsonSerializer.default type_replacements reg obj
      /\ MsgpackSerializer.default
           (MsgpackSerializer.register_type_replacement type_replacements
              object_type replacement_function) reg obj
         = MsgpackSerializer.default type_replacements reg obj).
Proof.
  split.
  - intros Htype. rewrite json_default_replaced, default_replaced.
    unfold replace, JsonSerializer.register_type_replacement,
      MsgpackSerializer.register_type_replacement.
    rewrite Htype, lookup_insert_eq. split; reflexivity.
  - intros Htype. rewrite json_default_replaced, default_replaced.
    rewrite (json_default_replaced type_replacements),
      (default_replaced type_replacements).
    unfold replace, JsonSerializer.register_type_replacement,
      MsgpackSerializer.register_type_replacement.
    rewrite lookup_insert_ne by congruence. split; reflexivity.
Qed.

End Replacements.

(** ** Dates between machines *)

(** X27.  A date is written by
    [MsgpackSerializer.default] as the extension value [0x33] whose payload
    is the ordinal as a C [long] in the layout of the sending machine.
    [ext_hook] on a machine of the same layout gives the date back; on a
    machine whose [long] has another size it raises [struct.error]. *)
Theorem date_extension_between_machines
    (sender receiver : Host) (type_replacements : replacements)
    (reg : registries) (ordinal : Z) :
  type_replacements !! "datetime.date" = None ->
  min_ordinal <= ordinal <= max_ordinal ->
  (4 <= sizeof_long (@machine sender))%nat ->
  exists data,
    @MsgpackSerializer.default sender type_replacements reg (PDate ordinal)
    = Ok (PExtType 0x33 data)
    /\ length data = sizeof_long (@machine sender)
    /\ (@machine receiver = @machine sender ->
        @MsgpackSerializer.ext_hook receiver 0x33 data = Ok (PDate ordinal))
    /\ (sizeof_long (@machine receiver) <> sizeof_long (@machine sender) ->
        @MsgpackSerializer.ext_hook receiver 0x33 data
        = raise StructError "unpack requires a buffer of the size of the format").
Proof.
  intros Hrepl Hord Hsize.
  set (plat := @machine sender) in *.
  set (bits := 8 * Z.of_nat (sizeof_long plat)).
  assert (Hbits : 32 <= bits) by (unfold bits; lia).
  assert (Hpow : 2 ^ 31 <= 2 ^ (bits - 1)) by (apply Z.pow_le_mono_r; lia).
  assert (Hpack : pack_l plat ordinal
                  = Ok (native plat (to_le (sizeof_long plat) (ordinal mod 2 ^ bits)))).
  { unfold pack_l. fold bits.
    unfold min_ordinal, max_ordinal in Hord.
    assert (H1 : (- 2 ^ (bits - 1) <=? ordinal) = true) by (apply Z.leb_le; lia).
    assert (H2 : (ordinal <? 2 ^ (bits - 1)) = true) by (apply Z.ltb_lt; lia).
    now rewrite H1, H2. }
  exists (native plat (to_le (sizeof_long plat) (ordinal mod 2 ^ bits))).
  repeat apply conj.
  - unfold MsgpackSerializer.default.
    rewrite (replace_none type_replacements (PDate ordinal) Hrepl).
    cbn [mbind result_bind]. fold plat. rewrite Hpack. reflexivity.
  - now rewrite length_native, length_to_le.
  - intros Hsame. unfold MsgpackSerializer.ext_hook. cbn [Z.eqb Pos.eqb].
    rewrite Hsame. fold plat.
    rewrite (unpack_l_pack_l plat ordinal _ ltac:(lia) Hpack).
    cbn [mbind result_bind]. unfold date_fromordinal.
    destruct Hord as [Hlo Hhi].
    assert (Hint : (ordinal <? - 2 ^ 31) = false /\ (2 ^ 31 <=? ordinal) = false).
    { unfold min_ordinal, max_ordinal in Hlo, Hhi.
      split; [apply Z.ltb_ge | apply Z.leb_gt]; lia. }
    destruct Hint as [Hmin Hmax]. rewrite Hmin, Hmax.
    apply Z.leb_le in Hlo, Hhi. now rewrite Hlo, Hhi.
  - intros Hdiff. unfold MsgpackSerializer.ext_hook. cbn [Z.eqb Pos.eqb].
    unfold unpack_l. rewrite length_native, length_to_le.
    fold plat. apply Nat.eqb_neq in Hdiff. rewrite Nat.eqb_sym in Hdiff.
    now rewrite Hdiff.
Qed.

(** ** The supported serializers *)

Lemma str_partition_app sep s t :
  contains (String sep "") s = false ->
  str_partition sep (s ++ String sep t) = (s, Some t).
Proof.
  induction s as [|c s IH]; intros Hs.
  - simpl. now rewrite Ascii.eqb_refl.
  - change (contains (String sep "") (String c s))
      with (startswith (String c s) (String sep "") || contains (String sep "") s)
      in Hs.
    apply orb_false_iff in Hs as [Hc Hs]. simpl in Hc.
    rewrite Ascii.eqb_sym in Hc. rewrite string_app_cons. simpl.
    destruct (Ascii.eqb c sep); [discriminate|]. now rewrite IH.
Qed.

Lemma contains_sep_app sep s t :
  contains (String sep "") (s ++ String sep t) = true.
Proof.
  induction s as [|c s IH].
  - simpl. now rewrite Ascii.eqb_refl.
  - rewrite string_app_cons.
    change (contains (String sep "") (String c (s ++ String sep t)))
      with (startswith (String c (s ++ String sep t)) (String sep "")
            || contains (String sep "") (s ++ String sep t)).
    rewrite IH. apply orb_true_r.
Qed.

Lemma tuple_lt_1_23 ver :
  tuple_lt ver [1; 23] = true
  <-> match ver with
      | [] => True
      | [major] => major <= 1
      | major :: minor :: _ => major < 1 \/ (major = 1 /\ minor < 23)
      end.
Proof.
  destruct ver as [|major [|minor rest]]; cbn [tuple_lt].
  - tauto.
  - destruct (Z.ltb_spec major 1); [split; [lia | reflexivity]|].
    destruct (Z.ltb_spec 1 major); split; try discriminate; try lia;
      try reflexivity.
  - destruct (Z.ltb_spec major 1); [split; [lia | reflexivity]|].
    destruct (Z.ltb_spec 1 major); [split; [discriminate | lia]|].
    destruct (Z.ltb_spec minor 23); [split; [lia | reflexivity]|].
    destruct (Z.ltb_spec 23 minor); destruct rest; split; try discriminate;
      try lia.
Qed.

Lemma res_of_bind {A B} (m : M A) (k : A -> M B) :
  res_of (m ≫= k)
  = match res_of m with Ok a => res_of (k a) | Err e => Err e end.
Proof. unfold mbind, M_bind. now destruct (res_of m). Qed.

Section Tables.

Variable int : string -> result Z.

(** The tables when the imports succeed: [serpent] tells whether serpent
    was imported with a version that is accepted. *)
Lemma supported_serializers_tables env t :
  res_of (supported_serializers int env) = Ok t ->
  exists serpent : bool,
    t = (if import_msgpack env
         then fun t => add_serializer t "msgpack" "MsgpackSerializer" 6
         else fun t => t)
          ((if serpent
            then fun t => add_serializer t "serpent" "SerpentSerializer" 1
            else fun t => t)
             ((if import_json env
               then fun t => add_serializer t "json" "JsonSerializer" 2
               else fun t => t)
                (add_serializer (Supported ∅ ∅) "marshal" "MarshalSerializer" 3)))
    /\ (serpent = true <->
        exists version ver, import_serpent env = Some version
                            /\ serpent_version int version = Ok ver
                            /\ tuple_lt ver [1; 23] = false).
Proof.
  unfold supported_serializers. rewrite res_of_bind.
  destruct (import_serpent env) as [version|] eqn:Himport.
  - rewrite res_of_bind. cbn [lift res_of].
    destruct (serpent_version int version) as [ver|e] eqn:Hver; [|discriminate].
    destruct (tuple_lt ver [1; 23]) eqn:Hlt; [discriminate|].
    cbn [res_of mret M_ret]. intros [= <-]. exists true. split.
    + destruct (import_msgpack env), (import_json env); reflexivity.
    + split; [|reflexivity]. intros _. now exists version, ver.
  - rewrite res_of_bind. cbn [res_of log_warning mret M_ret].
    intros [= <-]. exists false. split.
    + destruct (import_msgpack env), (import_json env); reflexivity.
    + split; [discriminate|]. intros (version & ver & Hv & _). discriminate.
Qed.

(** X28.  When the module is imported, the two tables hold
    the same serializers: whatever [get_serializer] finds under a name,
    [get_serializer_by_id] finds under the id of that serializer (marshal
    3, json 2, serpent 1, msgpack 6), and the other way round; marshal is
    always there, json and msgpack exactly when their modules can be
    imported; a name or an id that is not in the tables gives
    [SerializeError]. *)
Theorem supported_serializers_consistent (env : imports) (t : supported) :
  res_of (supported_serializers int env) = Ok t ->
  get_serializer t "marshal" = Ok (new_serializer "MarshalSerializer")
  /\ (forall name ser,
        get_serializer t name = Ok ser ->
        exists sid,
          get_serializer_by_id t sid = Ok ser
          /\ In (name, sid, ser)
                [("marshal", 3, new_serializer "MarshalSerializer");
                 ("json", 2, new_serializer "JsonSerializer");
                 ("serpent", 1, new_serializer "SerpentSerializer");
                 ("msgpack", 6, new_serializer "MsgpackSerializer")])
  /\ (forall sid ser,
        get_serializer_by_id t sid = Ok ser ->
        exists name,
          get_serializer t name = Ok ser
          /\ In (name, sid, ser)
                [("marshal", 3, new_serializer "MarshalSerializer");
                 ("json", 2, new_serializer "JsonSerializer");
                 ("serpent", 1, new_serializer "SerpentSerializer");
                 ("msgpack", 6, new_serializer "MsgpackSerializer")])
  /\ (is_Some (_serializers t !! "json") <-> import_json env = true)
  /\ (is_Some (_serializers t !! "msgpack") <-> import_msgpack env = true)
  /\ (forall name, _serializers t !! name = None ->
        get_serializer t name
        = raise SerializeError
                ("serializer '" ++ name ++ "' is unknown or not available"))
  /\ (forall sid, _serializers_by_id t !! sid = None ->
        get_serializer_by_id t sid
        = raise SerializeError
                ("no serializer available for id " ++ str_of_int sid)).
Proof.
  intros Hinit.
  destruct (supported_serializers_tables env t Hinit) as (serpent & -> & _).
  unfold get_serializer, get_serializer_by_id.
  split; [|split; [|split; [|split; [|split; [|split]]]]].
  - destruct (import_msgpack env), serpent, (import_json env); reflexivity.
  - intros name ser Hget.
    destruct (_ !! name) as [s|] eqn:Hl in Hget; [|discriminate].
    injection Hget as ->.
    destruct (import_msgpack env), serpent, (import_json env);
      cbn [add_serializer _serializers _serializers_by_id] in Hl |- *;
      repeat (apply lookup_insert_Some in Hl as [[<- <-]|[_ Hl]];
              [first [exists 3; split; [reflexivity | simpl; tauto]
                     |exists 2; split; [reflexivity | simpl; tauto]
                     |exists 1; split; [reflexivity | simpl; tauto]
                     |exists 6; split; [reflexivity | simpl; tauto]]|]);
      rewrite lookup_empty in Hl; discriminate.
  - intros sid ser Hget.
    destruct (_ !! sid) as [s|] eqn:Hl in Hget; [|discriminate].
    injection Hget as ->.
    destruct (import_msgpack env), serpent, (import_json env);
      cbn [add_serializer _serializers _serializers_by_id] in Hl |- *;
      repeat (apply lookup_insert_Some in Hl as [[<- <-]|[_ Hl]];
              [first [exists "marshal"; split; [reflexivity | simpl; tauto]
                     |exists "json"; split; [reflexivity | simpl; tauto]
                     |exists "serpent"; split; [reflexivity | simpl; tauto]
                     |exists "msgpack"; split; [reflexivity | simpl; tauto]]|]);
      rewrite lookup_empty in Hl; discriminate.
  - destruct (import_msgpack env), serpent, (import_json env);
      (split; [intros [x Hx]; first [reflexivity | discriminate Hx]
              |intros Hj; first [discriminate Hj | eexists; reflexivity]]).
  - destruct (import_msgpack env), serpent, (import_json env);
      (split; [intros [x Hx]; first [reflexivity | discriminate Hx]
              |intros Hj; first [discriminate Hj | eexists; reflexivity]]).
  - intros name Hnone. now rewrite Hnone.
  - intros sid Hnone. now rewrite Hnone.
Qed.

(** X29.  When serpent can be imported, its version decides: the
    version tuple is compared with [(1, 23)] as tuples are, so a version
    with major number below 1, or with major number 1 and a minor number
    below 23, or of the one part [1] or less, makes the import of the
    module fail with [RuntimeError] (it is not merely left out); any other
    version registers serpent under its name and the id 1; a part that is
    no integer makes the import fail with the error of [int]; and what
    follows the first ["-"] is ignored. *)
Theorem serpent_version_required (env : imports) (version : string) :
  import_serpent env = Some version ->
  (forall ver, serpent_version int version = Ok ver ->
     (tuple_lt ver [1; 23] = true <->
      match ver with
      | [] => True
      | [major] => major <= 1
      | major :: minor :: _ => major < 1 \/ (major = 1 /\ minor < 23)
      end)
     /\ (tuple_lt ver [1; 23] = true ->
         supported_serializers int env
         = raiseM (OtherError "builtins.RuntimeError")
                  "requires serpent 1.23 or better")
     /\ (tuple_lt ver [1; 23] = false ->
         exists t,
           supported_serializers int env = mret t
           /\ get_serializer t "serpent" = Ok (new_serializer "SerpentSerializer")
           /\ get_serializer_by_id t 1 = Ok (new_serializer "SerpentSerializer")))
  /\ (forall e, serpent_version int version = Err e ->
        supported_serializers int env = lift (Err e))
  /\ (forall release suffix,
        version = release ++ String "-" suffix ->
        contains "-" release = false ->
        serpent_version int version = serpent_version int release).
Proof.
  intros Himport. split; [|split].
  - intros ver Hver. split; [apply tuple_lt_1_23|]. split.
    + intros Hlt. unfold supported_serializers.
      rewrite Himport, Hver, lift_bind, Hlt. reflexivity.
    + intros Hlt. unfold supported_serializers.
      rewrite Himport, Hver, lift_bind, Hlt, M_ret_bind.
      eexists. split; [reflexivity|].
      unfold get_serializer, get_serializer_by_id.
      destruct (import_msgpack env), (import_json env); split; reflexivity.
  - intros e Hver. unfold supported_serializers. now rewrite Himport, Hver.
  - intros release suffix -> Hrelease. unfold serpent_version.
    rewrite contains_sep_app, Hrelease.
    cbn [str_split]. rewrite str_partition_app by exact Hrelease. reflexivity.
Qed.

End Tables.

(** ** Floats that serpent writes as records *)

Section SerpentFloat.
Context `{Host}.

Variable float : pyobj -> result pyobj.

(** X30.  [SerpentSerializer.dict_to_class] turns a record whose
    ["__class__"] is the text ["float"] into [float(data["value"])], before
    the registry is read ([KeyError] when ["value"] is missing); the other
    serializers give such a record to the registered converter, if any,
    and refuse it otherwise.  Every other record is handled by
    [SerializerBase.dict_to_class]. *)
Theorem serpent_float_record
    (depth : nat) (reg : registries) (data : pydict) :
  (dict_get data "__class__" = Some (PStr "float") ->
   (forall value, dict_get data "value" = Some value ->
      SerpentSerializer.dict_to_class float depth reg data = lift (float value))
   /\ (dict_get data "value" = None ->
       SerpentSerializer.dict_to_class float depth reg data
       = raiseM KeyError "value")
   /\ (forall converter,
         custom_dict_to_class_registry reg !! "float" = Some converter ->
         dict_to_class (S depth) reg data = lift (converter "float" data))
   /\ (custom_dict_to_class_registry reg !! "float" = None ->
       truthy (default (PBool false) (dict_get data "__exception__")) = false ->
       dict_to_class (S depth) reg data
       = Logged ["unsupported serialized class: float"]
                (raise SerializeError "unsupported serialized class: float")))
  /\ (dict_get data "__class__" <> Some (PStr "float") ->
      SerpentSerializer.dict_to_class float depth reg data
      = dict_to_class depth reg data).
Proof.
  split.
  - intros Htag.
    assert (Hname : classname_of data = Ok "float")
      by (unfold classname_of; now rewrite Htag).
    repeat apply conj.
    + intros value Hvalue. unfold SerpentSerializer.dict_to_class, getitem.
      rewrite Htag, Hvalue. reflexivity.
    + intros Hvalue. unfold SerpentSerializer.dict_to_class, getitem.
      rewrite Htag, Hvalue. reflexivity.
    + intros converter Hreg. now apply dict_to_class_registered.
    + intros Hreg Hflag. cbn [dict_to_class].
      rewrite Hname, lift_bind, Hreg, Hflag. reflexivity.
  - intros Htag. unfold SerpentSerializer.dict_to_class.
    destruct (dict_get data "__class__") as [[]|]; try reflexivity.
    destruct (String.eqb_spec s "float") as [->|_]; [congruence | reflexivity].
Qed.

End SerpentFloat.

(** ** Instances without an attribute dictionary *)

Section Slots.
Context `{Host}.

Lemma slots_fold_ok (obj : pyobj) (slots : list (string * pyobj)) names :
  (forall n, In n names -> getattr obj n = from_option Ok (raise AttributeError n)
                                             (attrs_get slots n)) ->
  (forall n, In n names -> is_Some (attrs_get slots n)) ->
  forall acc,
  exists value,
    foldM (fun value slot => v ← getattr obj slot; Ok (dict_set value slot v))
          acc names = Ok value
    /\ (forall n, In n names -> dict_get value n = attrs_get slots n)
    /\ (forall n, ~ In n names -> dict_get value n = dict_get acc n).
Proof.
  intros Hget. induction names as [|slot names IH]; intros Hall acc.
  - exists acc. split; [reflexivity|]. split; [intros n []|reflexivity].
  - destruct (Hall slot (or_introl eq_refl)) as [v Hv].
    destruct (IH (fun n Hn => Hget n (or_intror Hn))
                 (fun n Hn => Hall n (or_intror Hn))
                 (dict_set acc slot v)) as (value & Hfold & Hin & Hout).
    exists value. split; [|split].
    + cbn [foldM]. rewrite (Hget slot (or_introl eq_refl)), Hv. exact Hfold.
    + intros n [<-|Hn].
      * destruct (in_dec string_dec slot names) as [Hs|Hs]; [now apply Hin|].
        rewrite (Hout slot Hs), dict_get_set_eq. now symmetry.
      * now apply Hin.
    + intros n Hn. rewrite Hout by (intros Hc; apply Hn; now right).
      apply dict_get_set_ne. intros ->. apply Hn. now left.
Qed.

Lemma slots_fold_missing (obj : pyobj) (slots : list (string * pyobj)) names :
  (forall n, In n names -> getattr obj n = from_option Ok (raise AttributeError n)
                                             (attrs_get slots n)) ->
  (exists n, In n names /\ attrs_get slots n = None) ->
  forall acc,
  exists missing,
    In missing names /\ attrs_get slots missing = None
    /\ foldM (fun value slot => v ← getattr obj slot; Ok (dict_set value slot v))
             acc names = raise AttributeError missing.
Proof.
  intros Hget. induction names as [|slot names IH]; intros (n & Hn & Hnone) acc.
  - destruct Hn.
  - cbn [foldM]. rewrite (Hget slot (or_introl eq_refl)).
    destruct (attrs_get slots slot) as [v|] eqn:Hslot.
    + destruct Hn as [->|Hn]; [congruence|].
      destruct (IH (fun m Hm => Hget m (or_intror Hm))
                   (ex_intro _ n (conj Hn Hnone)) (dict_set acc slot v))
        as (missing & Hin & Hmiss & Hfold).
      exists missing. split; [now right|]. split; [exact Hmiss | exact Hfold].
    + exists slot. split; [now left|]. split; [exact Hslot | reflexivity].
Qed.

(** X4.  For an instance without an attribute dictionary (no
    exception, no matching registered class, no [__getstate__], no
    ["_pyroDaemon"]): without [__slots__] the outcome is [SerializeError]
    naming the class and the serializer; with [__slots__] all filled, the
    record holds every slot and the class tag; and when a declared slot is
    empty, [AttributeError] for an empty slot comes out, not
    [SerializeError]. *)
Theorem class_to_dict_slots
    (serializer : string) (reg : registries) (c : pyclass) (args : list pyobj)
    (slots : list (string * pyobj)) (obj : pyobj) :
  obj = PObject c args None slots ->
  (forall clazz converter,
     In (clazz, converter) (custom_class_to_dict_registry reg) ->
     isinstance obj (qualname clazz) = false) ->
  existsb (type_is obj)
    ["builtins.set"; "builtins.dict"; "builtins.tuple"; "builtins.list"] = false ->
  issubclass c BaseException = false ->
  hasattr obj "_pyroDaemon" = false ->
  getstate obj = None ->
  (cls_slots c = None ->
   class_to_dict serializer reg obj
   = raise SerializeError
       ("don't know how to serialize class " ++ class_str c
        ++ " using serializer " ++ serializer
        ++ ". Give it vars() or an appropriate __getstate__"))
  /\ (forall names,
        cls_slots c = Some names ->
        (forall n, In n names -> is_Some (attrs_get slots n)) ->
        exists record,
          class_to_dict serializer reg obj = Ok (PDict record)
          /\ dict_get record "__class__" = Some (PStr (qualname c))
          /\ forall n, In n names -> n <> "__class__" ->
                       dict_get record n = attrs_get slots n)
  /\ (forall names n,
        cls_slots c = Some names ->
        In n names -> attrs_get slots n = None ->
        exists missing,
          In missing names /\ attrs_get slots missing = None
          /\ class_to_dict serializer reg obj = raise AttributeError missing).
Proof.
  intros -> Hnone Hbare Hexc Hhas Hstate.
  assert (Hrun : class_to_dict serializer reg (PObject c args None slots)
    = match cls_slots c with
      | Some names =>
          value ← foldM (fun value slot =>
                           v ← getattr (PObject c args None slots) slot;
                           Ok (dict_set value slot v)) [] names;
          Ok (PDict (dict_set value "__class__" (PStr (qualname c))))
      | None =>
          raise SerializeError
            ("don't know how to serialize class " ++ class_str c
             ++ " using serializer " ++ serializer
             ++ ". Give it vars() or an appropriate __getstate__")
      end).
  { unfold class_to_dict.
    rewrite (no_converter_find reg _ Hnone), Hbare.
    unfold assign_pyroDaemon. rewrite Hhas. cbn [mbind result_bind].
    unfold isinstance at 1. cbn [type_of]. rewrite Hexc, Hstate. reflexivity. }
  assert (Hget : forall names n, In n names ->
            getattr (PObject c args None slots) n
            = from_option Ok (raise AttributeError n) (attrs_get slots n)).
  { intros names n _. cbn [getattr]. rewrite Hexc, andb_false_r.
    cbn [from_option]. now destruct (attrs_get slots n). }
  rewrite Hrun. repeat apply conj.
  - intros Hslots. now rewrite Hslots.
  - intros names Hslots Hall. rewrite Hslots.
    destruct (slots_fold_ok _ slots names (Hget names) Hall [])
      as (value & Hfold & Hin & _).
    exists (dict_set value "__class__" (PStr (qualname c))).
    split; [now rewrite Hfold|]. split; [apply dict_get_set_eq|].
    intros n Hn Hne. rewrite dict_get_set_ne by congruence. now apply Hin.
  - intros names n Hslots Hn Hmiss. rewrite Hslots.
    destruct (slots_fold_missing _ slots names (Hget names)
                (ex_intro _ n (conj Hn Hmiss)) [])
      as (missing & Hin & Hnone' & Hfold).
    exists missing. split; [exact Hin|]. split; [exact Hnone'|].
    now rewrite Hfold.
Qed.

End Slots.

(** ** The forms of the type name *)

Section TypeNames.
Context `{Host}.

(** X13.  The forms of the type name.  A record without
    ["__class__"] has the name ["<unknown>"] and, without the exception
    flag, is refused with [SerializeError]; a name given as bytes is
    decoded as UTF-8 and then treated as the text is (for a name without
    converter); bytes that are no UTF-8 raise [UnicodeDecodeError]; and any
    other name that is no text ends in [TypeError], [AttributeError] or
    [UnicodeDecodeError] before the registry is read. *)
Theorem dict_to_class_type_name_forms
    (depth : nat) (reg : registries) (rest : pydict) :
  dict_get rest "__class__" = None ->
  (custom_dict_to_class_registry reg !! "<unknown>" = None ->
   truthy (default (PBool false) (dict_get rest "__exception__")) = false ->
   dict_to_class (S depth) reg rest
   = Logged ["unsupported serialized class: <unknown>"]
            (raise SerializeError "unsupported serialized class: <unknown>"))
  /\ (forall b s,
        decode_utf8 b = Ok s ->
        custom_dict_to_class_registry reg !! s = None ->
        dict_to_class (S depth) reg ((PStr "__class__", PBytes b) :: rest)
        = dict_to_class (S depth) reg ((PStr "__class__", PStr s) :: rest))
  /\ (forall b,
        utf8_valid b = false ->
        dict_to_class (S depth) reg ((PStr "__class__", PBytes b) :: rest)
        = raiseM UnicodeDecodeError "'utf-8' codec can't decode bytes")
  /\ (forall tag e,
        classname_of ((PStr "__class__", tag) :: rest) = Err e ->
        dict_to_class (S depth) reg ((PStr "__class__", tag) :: rest)
        = lift (Err e)
        /\ exn_type e ∈ [TypeError; AttributeError; UnicodeDecodeError]).
Proof.
  intros Huntagged. repeat apply conj.
  - intros Hreg Hflag.
    assert (Hname : classname_of rest = Ok "<unknown>")
      by (unfold classname_of; now rewrite Huntagged).
    cbn [dict_to_class]. rewrite Hname, lift_bind, Hreg, Hflag. reflexivity.
  - intros b s Hdec Hreg. cbn [dict_to_class].
    assert (Hb : classname_of ((PStr "__class__", PBytes b) :: rest) = Ok s)
      by exact Hdec.
    assert (Hs : classname_of ((PStr "__class__", PStr s) :: rest) = Ok s)
      by reflexivity.
    rewrite Hb, Hs, !lift_bind, Hreg.
    destruct (contains "__" s); [reflexivity|].
    destruct (startswith s "Pyro5.core.") eqn:Hcore; [reflexivity|].
    destruct (startswith s "Pyro5.util."); [reflexivity|].
    destruct (startswith s "Pyro5.errors."); [reflexivity|].
    rewrite (core_prefix_wrapper s Hcore). reflexivity.
  - intros b Hbad. cbn [dict_to_class].
    assert (Hb : classname_of ((PStr "__class__", PBytes b) :: rest)
                 = raise UnicodeDecodeError "'utf-8' codec can't decode bytes").
    { unfold classname_of. cbn. unfold decode_utf8. now rewrite Hbad. }
    now rewrite Hb.
  - intros tag e Hname. split.
    + cbn [dict_to_class]. now rewrite Hname.
    + unfold classname_of, decode_utf8, raise in Hname.
      repeat case_match; inversion Hname; elem_of_literal.
Qed.

End TypeNames.

(** ** What is logged *)

Section Logging.
Context `{Host}.

Lemma quiet_lift classname r : quiet_or_unsupported classname (lift r).
Proof. now left. Qed.

Lemma quiet_unsupported classname :
  quiet_or_unsupported classname (unsupported classname).
Proof. now right. Qed.

Lemma quiet_lookup classname (r : result (option pyclass)) data :
  quiet_or_unsupported classname
    (exceptiontype ← lift r;
     match exceptiontype with
     | Some exceptiontype => lift (make_exception exceptiontype data)
     | None => unsupported classname
     end).
Proof.
  destruct r as [[c|]|e].
  - rewrite lift_bind. apply quiet_lift.
  - rewrite lift_bind. apply quiet_unsupported.
  - now left.
Qed.

(** X14.  [dict_to_class] writes to the log only in its last two
    lines: either nothing is logged, or exactly one warning
    ["unsupported serialized class: <name>"] is logged and the outcome is
    the [SerializeError] of the same text, for a name that has no
    converter and no ["__"]. *)
Theorem dict_to_class_logging (depth : nat) (reg : registries) (data : pydict) :
  log_of (dict_to_class (S depth) reg data) = []
  \/ exists classname,
       classname_of data = Ok classname
       /\ custom_dict_to_class_registry reg !! classname = None
       /\ contains "__" classname = false
       /\ dict_to_class (S depth) reg data
          = Logged ["unsupported serialized class: " ++ classname]
                   (raise SerializeError
                          ("unsupported serialized class: " ++ classname)).
Proof.
  destruct (classname_of data) as [classname|e] eqn:Hname.
  2:{ left. cbn [dict_to_class]. now rewrite Hname. }
  destruct (custom_dict_to_class_registry reg !! classname) as [conv|] eqn:Hreg.
  { left. now rewrite (dict_to_class_registered depth reg data classname conv). }
  destruct (contains "__" classname) eqn:Hmark.
  { left. now rewrite (dict_to_class_gate depth reg data classname). }
  assert (Hq : quiet_or_unsupported classname (dict_to_class (S depth) reg data)).
  { cbn [dict_to_class]. rewrite Hname, lift_bind, Hreg, Hmark.
    destruct (startswith classname "Pyro5.core.") eqn:Hcore.
    { repeat case_match; try apply quiet_lift; apply quiet_unsupported. }
    destruct (startswith classname "Pyro5.util.").
    { repeat case_match; try apply quiet_lift; try apply quiet_unsupported;
        now left. }
    destruct (startswith classname "Pyro5.errors.").
    { apply quiet_lookup. }
    rewrite (core_prefix_wrapper classname Hcore).
    destruct (truthy _); [|apply quiet_unsupported].
    destruct (all_exceptions !! classname); [apply quiet_lift|].
    destruct (str_split "." 1 classname) as [|namespace [|short [|]]];
      try apply quiet_lift.
    destruct (_ || _); [apply quiet_lookup|].
    destruct (_ && _); [|apply quiet_unsupported].
    destruct sqlite3; [apply quiet_lookup | apply quiet_lift]. }
  destruct Hq as [Hq|Hq]; [now left|].
  right. exists classname. repeat split; assumption.
Qed.

End Logging.

(** ** Containers under marshal *)

Lemma mapM_result_err {A B} (f : A -> result B) l e :
  mapM f l = Err e -> exists x, In x l /\ f x = Err e.
Proof.
  induction l as [|x l IH]; [discriminate|]. cbn [mapM].
  destruct (f x) as [y|e'] eqn:Hx; cbn [mbind result_bind].
  - destruct (mapM f l) as [ys|e'']; [discriminate|].
    cbn [mbind result_bind]. intros [= <-].
    destruct (IH eq_refl) as (z & Hz & Hfz). exists z. split; [now right | exact Hfz].
  - intros [= <-]. exists x. split; [now left | exact Hx].
Qed.

Lemma fmap_result_err {A B} (f : A -> B) (r : result A) e :
  f <$> r = Err e -> r = Err e.
Proof. destruct r; [discriminate | now intros [= ->]]. Qed.

Lemma marshal_dumps_error : forall v e,
  marshal.dumps v = Err e -> e = Raise ValueError "unmarshallable object".
Proof.
  fix IH 1. intros v e Hv.
  assert (Hlist : forall l : list pyobj,
             (fix all (l : list pyobj) : Prop :=
                match l with
                | [] => True
                | x :: l => (forall e, marshal.dumps x = Err e ->
                               e = Raise ValueError "unmarshallable object")
                            /\ all l
                end) l ->
             forall e, mapM marshal.dumps l = Err e ->
                       e = Raise ValueError "unmarshallable object").
  { intros l Hall e' Hm. apply mapM_result_err in Hm as (x & Hx & Hfx).
    induction l as [|y l IHl]; [destruct Hx|].
    destruct Hall as [Hy Hl]. destruct Hx as [->|Hx]; [now apply Hy|].
    now apply IHl. }
  destruct v; cbn [marshal.dumps] in Hv; try discriminate Hv;
    try (now inversion Hv).
  - apply fmap_result_err in Hv. apply (Hlist l); [|exact Hv].
    clear Hv. induction l as [|x l IHl]; [exact I|]. split; [apply IH | exact IHl].
  - apply fmap_result_err in Hv. apply (Hlist l); [|exact Hv].
    clear Hv. induction l as [|x l IHl]; [exact I|]. split; [apply IH | exact IHl].
  - apply fmap_result_err in Hv. apply (Hlist l); [|exact Hv].
    clear Hv. induction l as [|x l IHl]; [exact I|]. split; [apply IH | exact IHl].
  - apply fmap_result_err in Hv. clear Hlist. revert e Hv.
    induction d as [|[k x] d IHd]; intros e Hv; [discriminate|].
    cbn [mapM fst snd] in Hv.
    destruct (marshal.dumps k) as [k'|ek] eqn:Hk.
    + cbn [mbind result_bind] in Hv.
      destruct (marshal.dumps x) as [x'|ex] eqn:Hxx.
      * cbn [mbind result_bind] in Hv.
        destruct (mapM _ d) as [ys|ed] eqn:Hd; [discriminate|].
        cbn [mbind result_bind] in Hv. injection Hv as <-. now apply IHd.
      * cbn [mbind result_bind] in Hv. injection Hv as <-. now apply (IH x).
    + cbn [mbind result_bind] in Hv. injection Hv as <-. now apply (IH k).
Qed.

Section MarshalContainers.
Context `{Host}.

(** X19.  [MarshalSerializer.dumps] falls back on
    [class_to_dict] for the whole value only: a list, tuple, set or dict
    that marshal cannot write (because it holds a UUID, a date or an
    instance) and that matches no registered class ends in the
    [ValueError] of [class_to_dict] for containers. *)
Theorem marshal_container_of_foreign_values
    (reg : registries) (v : pyobj) (e : exn) :
  marshal.dumps v = Err e ->
  existsb (type_is v)
    ["builtins.set"; "builtins.dict"; "builtins.tuple"; "builtins.list"] = true ->
  (forall clazz converter,
     In (clazz, converter) (custom_class_to_dict_registry reg) ->
     isinstance v (qualname clazz) = false) ->
  MarshalSerializer.dumps reg v
  = raise ValueError ("can't serialize type " ++ class_str (type_of v)
                      ++ " into a dict").
Proof.
  intros Hv Hbare Hnone. unfold MarshalSerializer.dumps.
  rewrite Hv, (marshal_dumps_error v e Hv).
  unfold MarshalSerializer.class_to_dict.
  assert (Hbase : class_to_dict "MarshalSerializer" reg v
                  = raise ValueError ("can't serialize type "
                                      ++ class_str (type_of v) ++ " into a dict")).
  { unfold class_to_dict. now rewrite (no_converter_find reg v Hnone), Hbare. }
  destruct v; try discriminate Hbare; now rewrite Hbase.
Qed.

End MarshalContainers.

Lemma marshal_container_of_foreign_values_witness :
  MarshalSerializer.dumps (H := Sample.host) empty_registries
    (PList [PInt 1; PUuid 0x12345678123456781234567812345678])
  = raise ValueError "can't serialize type <class 'list'> into a dict"
  /\ JsonSerializer.dumps (H := Sample.host) 3 ∅ empty_registries
       (PList [PInt 1; PUuid 0x12345678123456781234567812345678])
     = Ok (json.Array [json.Int 1;
                       json.String "12345678-1234-5678-1234-567812345678"]).
Proof.
  split; [|reflexivity].
  apply (marshal_container_of_foreign_values (H := Sample.host) empty_registries
           (PList [PInt 1; PUuid 0x12345678123456781234567812345678])
           (Raise ValueError "unmarshallable object")); try reflexivity.
  intros clazz converter [].
Defined.

(** ** Serializer instances *)

Section SerializerInstances.
Context `{Host}.

(** X16.  A serializer instance (without state, and with no
    converter registered for it) does not survive the two conversions:
    [class_to_dict] writes it under the name [Pyro5.serializers.<class>],
    the module it is defined in, and [dict_to_class] refuses that name
    with [SerializeError]; the names it rebuilds serializers from are
    [Pyro5.util.<class>]. *)
Theorem serializer_instance_not_rebuilt
    (serializer : string) (depth : nat) (reg : registries) (name : string) :
  In name ["SerpentSerializer"; "MarshalSerializer"; "JsonSerializer";
           "MsgpackSerializer"] ->
  getstate (new_serializer name) = None
  \/ getstate (new_serializer name) = Some (Ok PNone) ->
  (forall clazz converter,
     In (clazz, converter) (custom_class_to_dict_registry reg) ->
     isinstance (new_serializer name) (qualname clazz) = false) ->
  custom_dict_to_class_registry reg !! ("Pyro5.serializers." ++ name) = None ->
  custom_dict_to_class_registry reg !! ("Pyro5.util." ++ name) = None ->
  class_to_dict serializer reg (new_serializer name)
  = Ok (PDict [(PStr "__class__", PStr ("Pyro5.serializers." ++ name))])
  /\ dict_to_class (S depth) reg
       [(PStr "__class__", PStr ("Pyro5.serializers." ++ name))]
     = Logged ["unsupported serialized class: Pyro5.serializers." ++ name]
              (raise SerializeError
                     ("unsupported serialized class: Pyro5.serializers." ++ name))
  /\ dict_to_class (S depth) reg [(PStr "__class__", PStr ("Pyro5.util." ++ name))]
     = mret (new_serializer name).
Proof.
  intros Hname Hstate Hnone Hreg Hutil. repeat apply conj.
  - unfold class_to_dict. rewrite (no_converter_find reg _ Hnone).
    simpl in Hname.
    destruct Hname as [<-|[<-|[<-|[<-|[]]]]]; cbn in Hstate |- *;
      destruct Hstate as [Hstate|Hstate]; now rewrite Hstate.
  - cbn [dict_to_class].
    change (classname_of [(PStr "__class__", PStr ("Pyro5.serializers." ++ name))])
      with (Ok (A := string) ("Pyro5.serializers." ++ name)).
    rewrite lift_bind, Hreg.
    simpl in Hname.
    destruct Hname as [<-|[<-|[<-|[<-|[]]]]]; reflexivity.
  - cbn [dict_to_class].
    change (classname_of [(PStr "__class__", PStr ("Pyro5.util." ++ name))])
      with (Ok (A := string) ("Pyro5.util." ++ name)).
    rewrite lift_bind, Hutil.
    simpl in Hname.
    destruct Hname as [<-|[<-|[<-|[<-|[]]]]]; reflexivity.
Qed.

End SerializerInstances.

(** ** Values that come back as text *)

Section TextConversions.
Context `{Host}.

(** X26.  Under JSON a datetime and a date are written as
    their [isoformat()] and a [Decimal] as its [str()]; under msgpack a
    [Decimal] is written as its [str()].  [loads] reads the text back as
    text: the types are not restored. *)
Theorem json_values_read_back_as_text
    (depth ldepth : nat) (type_replacements : replacements) (reg : registries)
    (v : pyobj) (text : string) :
  type_replacements !! qualname (type_of v) = None ->
  match v with
  | PDatetime dt => text = datetime_isoformat dt
  | PDate ordinal => text = date_isoformat ordinal
  | PDecimal digits => text = digits
  | _ => False
  end ->
  JsonSerializer.dumps (2 + depth) type_replacements reg v
  = Ok (json.String text)
  /\ JsonSerializer.loads ldepth reg (json.String text) = mret (PStr text)
  /\ (forall msgpack_replacements digits,
        v = PDecimal digits ->
        msgpack_replacements !! "decimal.Decimal" = None ->
        MsgpackSerializer.dumps msgpack_replacements reg v
        = Ok (msgpack.Str text)
        /\ MsgpackSerializer.loads ldepth reg (msgpack.Str text)
           = mret (PStr text)).
Proof.
  intros Hrepl Hv.
  assert (Hd : JsonSerializer.default type_replacements reg v = Ok (PStr text)).
  { unfold JsonSerializer.default. rewrite (replace_none _ _ Hrepl).
    destruct v; try contradiction; subst text; reflexivity. }
  repeat apply conj.
  - unfold JsonSerializer.dumps.
    destruct v; try contradiction; cbn [Nat.add json.dumps]; rewrite Hd;
      reflexivity.
  - reflexivity.
  - intros mrepl digits -> Hm. subst text. split; [|reflexivity].
    unfold MsgpackSerializer.dumps, msgpack.packb.
    assert (Hmd : MsgpackSerializer.default mrepl reg (PDecimal digits)
                  = Ok (PStr digits)).
    { unfold MsgpackSerializer.default.
      now rewrite (replace_none mrepl (PDecimal digits) Hm). }
    change (S msgpack.DEFAULT_RECURSE_LIMIT) with (S (S 510)).
    generalize (S 510). intros levels. cbn [msgpack.pack]. rewrite Hmd. reflexivity.
Qed.

End TextConversions.

(** ** Records inside records *)

Section NestedRecords.
Context `{Host}.

(** X18.  A record inside a record.  Under marshal and JSON
    the converter of the outer record receives the inner values as they
    were decoded: [recreate_classes] does not descend into a dict that has
    ["__class__"], so an inner record arrives as a raw dict.  Under
    msgpack [object_hook] runs on every map from the inside out, so the
    converter of the outer record receives the inner record already
    rebuilt. *)
Theorem nested_records_raw_or_rebuilt
    (ldepth : nat) (reg : registries) (outer : string)
    (converter : string -> pydict -> result pyobj) :
  custom_dict_to_class_registry reg !! outer = Some converter ->
  (forall part,
     MarshalSerializer.loads (S ldepth) reg
       (PDict [(PStr "__class__", PStr outer); (PStr "part", part)])
     = lift (converter outer
               [(PStr "__class__", PStr outer); (PStr "part", part)]))
  /\ (forall part,
        JsonSerializer.loads (S ldepth) reg
          (json.Object [("__class__", json.String outer); ("part", part)])
        = lift (converter outer
                  [(PStr "__class__", PStr outer);
                   (PStr "part", json.loads part)]))
  /\ (forall part rebuilt,
        MsgpackSerializer.loads (S ldepth) reg part = mret rebuilt ->
        MsgpackSerializer.loads (S ldepth) reg
          (msgpack.Map [(msgpack.Str "__class__", msgpack.Str outer);
                        (msgpack.Str "part", part)])
        = lift (converter outer
                  [(PStr "__class__", PStr outer); (PStr "part", rebuilt)]))
  /\ (forall inner inner_converter rebuilt,
        custom_dict_to_class_registry reg !! inner = Some inner_converter ->
        inner_converter inner [(PStr "__class__", PStr inner)] = Ok rebuilt ->
        json.loads (json.Object [("__class__", json.String inner)])
        = PDict [(PStr "__class__", PStr inner)]
        /\ MsgpackSerializer.loads (S ldepth) reg
             (msgpack.Map [(msgpack.Str "__class__", msgpack.Str inner)])
           = mret rebuilt).
Proof.
  intros Hreg. repeat apply conj.
  - intros part. unfold MarshalSerializer.loads, marshal.loads.
    rewrite recreate_classes_tagged by (eexists; reflexivity).
    now apply dict_to_class_registered.
  - intros part. unfold JsonSerializer.loads.
    change (json.loads (json.Object [("__class__", json.String outer);
                                     ("part", part)]))
      with (PDict [(PStr "__class__", PStr outer); (PStr "part", json.loads part)]).
    rewrite recreate_classes_tagged by (eexists; reflexivity).
    now apply dict_to_class_registered.
  - intros part rebuilt Hpart. unfold MsgpackSerializer.loads in *.
    rewrite (msgpack_unpack_map _ _ _
               [(PStr "__class__", PStr outer); (PStr "part", rebuilt)]).
    + rewrite dict_of_pairs_distinct by reflexivity.
      unfold MsgpackSerializer.object_hook.
      rewrite bool_decide_eq_true_2 by (eexists; reflexivity).
      now apply dict_to_class_registered.
    + repeat constructor; cbn [fst snd]; try reflexivity. exact Hpart.
  - intros inner g rebuilt Hinner Hg. split; [reflexivity|].
    unfold MsgpackSerializer.loads.
    rewrite (msgpack_unpack_map _ _ _ [(PStr "__class__", PStr inner)]).
    + rewrite dict_of_pairs_distinct by reflexivity.
      unfold MsgpackSerializer.object_hook.
      rewrite bool_decide_eq_true_2 by (eexists; reflexivity).
      rewrite (dict_to_class_registered ldepth reg _ inner g); [now rewrite Hg | reflexivity | exact Hinner].
    + repeat constructor; reflexivity.
Qed.

End NestedRecords.

(** ** What is ever constructed *)

Lemma never_raises_ok c {A} (a : A) : never_raises c (Ok a).
Proof. intros msg; discriminate. Qed.

Lemma never_raises_raise c {A} c' msg :
  c' <> c -> never_raises c (@raise A c' msg).
Proof. intros Hc m Heq. apply Hc. now inversion Heq. Qed.

Lemma never_raises_err c {A B} (e : exn) :
  never_raises c (@Err A e) -> never_raises c (@Err B e).
Proof. intros He msg Heq. apply (He msg). now inversion Heq. Qed.

Lemma never_raises_bind c {A B} (r : result A) (k : A -> result B) :
  never_raises c r -> (forall a, r = Ok a -> never_raises c (k a)) ->
  never_raises c (r ≫= k).
Proof.
  intros Hr Hk. destruct r as [a|e]; simpl; [now apply Hk|].
  now apply (never_raises_err c (A:=A)).
Qed.

Lemma never_raises_bindM c {A B} (m : M A) (k : A -> M B) :
  never_raises c (res_of m) ->
  (forall a, res_of m = Ok a -> never_raises c (res_of (k a))) ->
  never_raises c (res_of (m ≫= k)).
Proof.
  intros Hm Hk. unfold mbind, M_bind. destruct (res_of m) as [a|e]; simpl.
  - now apply Hk.
  - now apply (never_raises_err c (A:=A)).
Qed.

Lemma never_raises_foldM c {A B} (f : A -> B -> result A) l :
  (forall a b, never_raises c (f a b)) -> forall a, never_raises c (foldM f a l).
Proof.
  intros Hf. induction l as [|x l IH]; intros a; simpl.
  - apply never_raises_ok.
  - apply never_raises_bind; [apply Hf | intros; apply IH].
Qed.

Section Constructed.
Context `{Host}.

Variable tag : string.

Lemma never_raises_getitem d k : never_raises (OtherError tag) (getitem d k).
Proof.
  unfold getitem. destruct (dict_get d k);
    [apply never_raises_ok | now apply never_raises_raise].
Qed.

Lemma never_raises_iterate o : never_raises (OtherError tag) (iterate o).
Proof.
  destruct o; simpl;
    first [apply never_raises_ok | now apply never_raises_raise].
Qed.

Lemma never_raises_items o : never_raises (OtherError tag) (items o).
Proof.
  destruct o; simpl;
    first [apply never_raises_ok | now apply never_raises_raise].
Qed.

Lemma never_raises_setattr o attr v :
  never_raises (OtherError tag) (setattr o attr v).
Proof.
  unfold setattr.
  repeat case_match;
    first [ apply never_raises_ok | now apply never_raises_raise
          | match goal with
            | |- never_raises _ (raise (refusal_class ?why) _) =>
                destruct why; now apply never_raises_raise
            end
          | idtac ].
  apply never_raises_bind; [apply never_raises_iterate|].
  intros; apply never_raises_ok.
Qed.

Lemma never_raises_unsupported classname :
  never_raises (OtherError tag) (res_of (unsupported classname)).
Proof. now apply never_raises_raise. Qed.

Lemma never_raises_make_exception exceptiontype data :
  (forall args, never_raises (OtherError tag) (construct exceptiontype args)) ->
  never_raises (OtherError tag) (make_exception exceptiontype data).
Proof.
  intros Hc. unfold make_exception.
  apply never_raises_bind; [apply never_raises_getitem | intros args _].
  apply never_raises_bind; [apply never_raises_iterate | intros args' _].
  apply never_raises_bind; [apply Hc | intros ex _].
  destruct (dict_get data "attributes") as [attributes|];
    [|apply never_raises_ok].
  apply never_raises_bind; [apply never_raises_items | intros d _].
  apply never_raises_foldM. intros; apply never_raises_setattr.
Qed.

Lemma never_raises_lookup ns short base classname data :
  (forall c args, issubclass c base = true ->
     never_raises (OtherError tag) (construct c args)) ->
  never_raises (OtherError tag)
    (res_of (exceptiontype ← lift (exceptiontype ← module_getattr ns short;
                                   issubclass_obj exceptiontype base);
             match exceptiontype with
             | Some exceptiontype => lift (make_exception exceptiontype data)
             | None => unsupported classname
             end)).
Proof.
  intros Hc. apply never_raises_bindM.
  - cbn [lift res_of]. apply never_raises_bind.
    + unfold module_getattr. destruct (ns !! short);
        [apply never_raises_ok | now apply never_raises_raise].
    + intros t _. destruct t; simpl;
        first [apply never_raises_ok | now apply never_raises_raise].
  - intros [c|] Hlook; [|apply never_raises_unsupported].
    cbn [lift res_of]. apply never_raises_make_exception. intros args.
    apply Hc. cbn [lift res_of] in Hlook.
    unfold module_getattr in Hlook. destruct (ns !! short) as [t|]; [|discriminate].
    cbn [mbind result_bind] in Hlook. destruct t; try discriminate Hlook.
    cbn [issubclass_obj] in Hlook.
    destruct (issubclass c0 base) eqn:Hsub; [|discriminate].
    now injection Hlook as <-.
Qed.

Lemma all_exceptions_class name c :
  all_exceptions !! name = Some c ->
  issubclass c BaseException = true \/ issubclass c PyroError = true.
Proof.
  unfold all_exceptions, classes_below. rewrite lookup_union_Some_raw.
  intros [Herr|[_ Hb]].
  - right. apply lookup_omap_Some in Herr as (t & Ht & _).
    destruct t; try discriminate Ht.
    destruct (issubclass c0 PyroError) eqn:Hsub; [|discriminate].
    now injection Ht as <-.
  - left. apply lookup_omap_Some in Hb as (t & Ht & _).
    destruct t; try discriminate Ht.
    destruct (issubclass c0 BaseException) eqn:Hsub; [|discriminate].
    now injection Ht as <-.
Qed.

(** X15.  Of the classes that it finds by name, [dict_to_class]
    calls exception classes only.  Let the call of a class raise an
    exception of a class of its own, [tag], for every class that is
    neither a [BaseException] nor a [PyroError]; then, whatever the record
    and the depth, that exception never comes out of [dict_to_class], as
    long as the converters of the registry and the state restorers of
    [core] do not raise it themselves.  Nothing is assumed of
    [core._ExceptionWrapper]. *)
Theorem dict_to_class_constructs_exceptions_only
    (depth : nat) (reg : registries) (data : pydict) :
  (forall c args,
     issubclass c BaseException = true \/ issubclass c PyroError = true ->
     never_raises (OtherError tag) (construct c args)) ->
  (forall name converter record,
     custom_dict_to_class_registry reg !! name = Some converter ->
     never_raises (OtherError tag) (converter name record)) ->
  (forall name state,
     never_raises (OtherError tag) (core_setstate_from_dict name state)) ->
  never_raises (OtherError tag) (res_of (dict_to_class depth reg data)).
Proof.
  intros Hc Hconv Hs.
  destruct depth as [|depth]; [now apply never_raises_raise|].
  cbn [dict_to_class].
  destruct (classname_of data) as [classname|e] eqn:Hname.
  2:{ cbn [lift res_of mbind M_bind]. unfold classname_of, decode_utf8, raise in Hname.
      intros msg Heq. repeat case_match; congruence. }
  rewrite lift_bind.
  destruct (custom_dict_to_class_registry reg !! classname) as [conv|] eqn:Hreg.
  { now apply (Hconv classname). }
  destruct (contains "__" classname); [now apply never_raises_raise|].
  destruct (startswith classname "Pyro5.core.") eqn:Hcore.
  { repeat case_match; try apply never_raises_unsupported;
      (apply never_raises_bind; [apply never_raises_getitem | intros; apply Hs]). }
  destruct (startswith classname "Pyro5.util.").
  { repeat case_match; try apply never_raises_unsupported;
      apply never_raises_ok. }
  destruct (startswith classname "Pyro5.errors.").
  { apply never_raises_bindM.
    - cbn [lift res_of]. apply never_raises_bind.
      + unfold index. destruct (nth_error _ _);
          [apply never_raises_ok | now apply never_raises_raise].
      + intros name _. apply never_raises_bind.
        * unfold module_getattr. destruct (errors !! name);
            [apply never_raises_ok | now apply never_raises_raise].
        * intros t _. destruct t; simpl;
            first [apply never_raises_ok | now apply never_raises_raise].
    - intros [c|] Hlook; [|apply never_raises_unsupported].
      cbn [lift res_of]. apply never_raises_make_exception. intros args.
      apply Hc. right. cbn [lift res_of] in Hlook.
      destruct (index _ _) as [name|]; [|discriminate].
      cbn [mbind result_bind] in Hlook. unfold module_getattr in Hlook.
      destruct (errors !! name) as [t|]; [|discriminate].
      cbn [mbind result_bind] in Hlook. destruct t; try discriminate Hlook.
      cbn [issubclass_obj] in Hlook.
      destruct (issubclass c0 PyroError) eqn:Hsub; [|discriminate].
      now injection Hlook as <-. }
  rewrite (core_prefix_wrapper classname Hcore).
  destruct (truthy _); [|apply never_raises_unsupported].
  destruct (all_exceptions !! classname) as [c|] eqn:Hall.
  { cbn [lift res_of]. apply never_raises_make_exception. intros args.
    apply Hc. now apply all_exceptions_class with classname. }
  destruct (str_split "." 1 classname) as [|namespace [|short [|]]];
    try (now apply never_raises_raise).
  destruct (_ || _).
  { apply never_raises_lookup. intros c args Hsub. apply Hc. now left. }
  destruct (_ && _); [|apply never_raises_unsupported].
  destruct sqlite3; [|now apply never_raises_raise].
  apply never_raises_lookup. intros c args Hsub. apply Hc. now left.
Qed.

End Constructed.

(** ** The further properties on the sample host *)

Lemma class_to_dict_instance_witness :
  exists record,
    class_to_dict (H := Sample.host) "JsonSerializer" empty_registries
                  Sample.circle = Ok (PDict record)
    /\ dict_get record "__class__" = Some (PStr "shapes.Circle")
    /\ dict_get record "_pyroDaemon" = Some PNone
    /\ dict_get record "radius" = Some (PInt 2).
Proof.
  destruct (class_to_dict_instance (H := Sample.host) "JsonSerializer"
              empty_registries
              (PyClass "shapes" "Circle" ["builtins.object"] None) []
              [("radius", PInt 2); ("_pyroDaemon", PStr "daemon")] []
              Sample.circle eq_refl)
    as [_ Hvars].
  - intros clazz converter [].
  - reflexivity.
  - reflexivity.
  - destruct (Hvars I) as (record & Hrun & Htag & Hdaemon & Hattrs).
    exists record. split; [exact Hrun|]. split; [exact Htag|].
    split; [exact Hdaemon|]. now apply Hattrs.
Defined.

Lemma marshal_exception_round_trip_witness :
  exists w,
    MarshalSerializer.dumps (H := Sample.host) empty_registries
      (Sample.protocol_error [("extra", PInt 42)]) = Ok w
    /\ MarshalSerializer.loads (H := Sample.host) 1 empty_registries w
       = mret (Sample.protocol_error [("extra", PInt 42)]).
Proof.
  apply (marshal_exception_round_trip (H := Sample.host) 0 empty_registries
           (Sample.error_class "ProtocolError" ["Pyro5.errors.CommunicationError"])
           [PStr "bad request"] [("extra", PInt 42)] _ eq_refl);
    try reflexivity.
  - intros [Heq|[]]. discriminate Heq.
  - intros [Heq|[]]. discriminate Heq.
  - intros name [<-|[]]. reflexivity.
  - intros clazz converter [].
Defined.

Lemma json_exception_round_trip_witness :
  exists w,
    JsonSerializer.dumps (H := Sample.host) 6 ∅ empty_registries
      (Sample.protocol_error [("extra", PInt 42)]) = Ok w
    /\ JsonSerializer.loads (H := Sample.host) 1 empty_registries w
       = mret (Sample.protocol_error [("extra", PInt 42)]).
Proof.
  apply (json_exception_round_trip (H := Sample.host) 6 0 ∅ empty_registries
           (Sample.error_class "ProtocolError" ["Pyro5.errors.CommunicationError"])
           [PStr "bad request"] [("extra", PInt 42)] _ eq_refl);
    try reflexivity.
  - intros [Heq|[]]. discriminate Heq.
  - intros [Heq|[]]. discriminate Heq.
  - intros name [<-|[]]. reflexivity.
  - intros clazz converter [].
Defined.

Lemma msgpack_exception_round_trip_witness :
  exists w,
    MsgpackSerializer.dumps (H := Sample.host) ∅ empty_registries
      (Sample.protocol_error [("extra", PInt 42)]) = Ok w
    /\ MsgpackSerializer.loads (H := Sample.host) 1 empty_registries w
       = mret (Sample.protocol_error [("extra", PInt 42)]).
Proof.
  apply (msgpack_exception_round_trip (H := Sample.host) 0 ∅ empty_registries
           (Sample.error_class "ProtocolError" ["Pyro5.errors.CommunicationError"])
           [PStr "bad request"] [("extra", PInt 42)] _ eq_refl);
    try reflexivity.
  - intros [Heq|[]]. discriminate Heq.
  - intros [Heq|[]]. discriminate Heq.
  - intros name [<-|[]]. reflexivity.
  - intros clazz converter [].
  - vm_compute. lia.
  - vm_compute. lia.
Defined.

Lemma dict_to_class_short_exception_name_witness :
  dict_to_class (H := Sample.host) 1 empty_registries
    [(PStr "__class__", PStr "ValueError"); (PStr "__exception__", PBool true);
     (PStr "args", PTuple [PStr "x"])]
  = mret (PObject (builtin_class "ValueError" Sample.Exception_bases)
                  [PStr "x"] (Some []) []).
Proof.
  destruct (dict_to_class_short_exception_name (H := Sample.host) 0
              empty_registries
              [(PStr "__class__", PStr "ValueError");
               (PStr "__exception__", PBool true);
               (PStr "args", PTuple [PStr "x"])] "ValueError"
              eq_refl eq_refl eq_refl eq_refl eq_refl) as [_ Hbuiltin].
  now apply (Hbuiltin (builtin_class "ValueError" Sample.Exception_bases)).
Defined.

Lemma dict_to_class_builtin_exception_name_witness :
  dict_to_class (H := Sample.host) 1 empty_registries
    [(PStr "__class__", PStr "exceptions.KeyError");
     (PStr "__exception__", PBool true); (PStr "args", PTuple [PStr "k"])]
  = mret (PObject (builtin_class "KeyError"
                     ("builtins.LookupError" :: Sample.Exception_bases))
                  [PStr "k"] (Some []) [])
  /\ dict_to_class (H := Sample.host) 1 empty_registries
       [(PStr "__class__", PStr "builtins.len");
        (PStr "__exception__", PBool true)]
     = raiseM TypeError "issubclass() arg 1 must be a class".
Proof.
  split.
  - destruct (dict_to_class_builtin_exception_name (H := Sample.host) 0
                empty_registries
                [(PStr "__class__", PStr "exceptions.KeyError");
                 (PStr "__exception__", PBool true);
                 (PStr "args", PTuple [PStr "k"])] "exceptions" "KeyError"
                (or_intror eq_refl) eq_refl eq_refl eq_refl eq_refl eq_refl)
      as (Hclass & _).
    now apply (Hclass (builtin_class "KeyError"
                         ("builtins.LookupError" :: Sample.Exception_bases))).
  - destruct (dict_to_class_builtin_exception_name (H := Sample.host) 0
                empty_registries
                [(PStr "__class__", PStr "builtins.len");
                 (PStr "__exception__", PBool true)] "builtins" "len"
                (or_introl eq_refl) eq_refl eq_refl eq_refl eq_refl eq_refl)
      as (_ & _ & _ & Hother).
    apply (Hother (PFunction "len")); [reflexivity | discriminate].
Defined.

Lemma dict_to_class_sqlite3_exception_name_witness :
  dict_to_class (H := Sample.host) 1 empty_registries
    [(PStr "__class__", PStr "sqlite3.OperationalError");
     (PStr "__exception__", PBool true)]
  = raiseM ImportError "No module named 'sqlite3'"
  /\ dict_to_class (H := Sample.host) 1 empty_registries
       [(PStr "__class__", PStr "sqlite3.Row");
        (PStr "__exception__", PBool true)]
     = Logged ["unsupported serialized class: sqlite3.Row"]
              (raise SerializeError "unsupported serialized class: sqlite3.Row").
Proof.
  split.
  - destruct (dict_to_class_sqlite3_exception_name (H := Sample.host) 0
                empty_registries
                [(PStr "__class__", PStr "sqlite3.OperationalError");
                 (PStr "__exception__", PBool true)] "OperationalError"
                eq_refl eq_refl eq_refl eq_refl eq_refl) as (_ & Himport & _).
    now apply Himport.
  - destruct (dict_to_class_sqlite3_exception_name (H := Sample.host) 0
                empty_registries
                [(PStr "__class__", PStr "sqlite3.Row");
                 (PStr "__exception__", PBool true)] "Row"
                eq_refl eq_refl eq_refl eq_refl eq_refl) as (Hplain & _).
    now apply Hplain.
Defined.

Lemma json_call_round_trip_witness :
  exists w,
    JsonSerializer.dumpsCall (H := Sample.host) 8 ∅ empty_registries
      (PStr "obj") (PStr "method") (PTuple [PInt 1; PSet [PStr "a"]])
      (PDict [(PStr "key", PNone)]) = Ok w
    /\ JsonSerializer.loadsCall (H := Sample.host) 0 empty_registries w
       = mret (PStr "obj", PStr "method", PList [PInt 1; PList [PStr "a"]],
               PDict [(PStr "key", PNone)]).
Proof.
  apply (json_call_round_trip (H := Sample.host) 8 0 ∅ empty_registries
           (PStr "obj") (PStr "method") (PTuple [PInt 1; PSet [PStr "a"]])
           (PDict [(PStr "key", PNone)])); reflexivity.
Defined.

Lemma msgpack_call_extension_values_witness :
  exists w,
    MsgpackSerializer.dumpsCall (H := Sample.host) ∅ empty_registries
      (PStr "obj") (PStr "method") (PTuple [PInt (2 ^ 70)]) (PDict []) = Ok w
    /\ MsgpackSerializer.loadsCall (H := Sample.host) 0 empty_registries w
       = mret (PStr "obj", PStr "method",
               PList [PExtType 0x31 (encode_text "1180591620717411303424")],
               PDict [])
    /\ MsgpackSerializer.loads (H := Sample.host) 0 empty_registries w
       = mret (PList [PStr "obj"; PStr "method"; PList [PInt (2 ^ 70)]; PDict []]).
Proof.
  destruct (msgpack_call_extension_values (H := Sample.host) 0 ∅ empty_registries
              (PStr "obj") (PStr "method") (PTuple [PInt (2 ^ 70)]) (PDict []))
    as (w & Hdumps & Hcall & Hloads & _); try reflexivity.
  - vm_compute. lia.
  - exists w. split; [exact Hdumps|]. split; [exact Hcall | exact Hloads].
Defined.

Lemma compression_round_trip_witness :
  serializeData (H := Sample.with_codec Sample.host Sample.run_compress
                                        Sample.run_decompress)
                (fun _ => Ok Sample.three_hundred_bytes) PNone true
  = Ok (["x"; "001"; ","]%byte, true)
  /\ deserializeData (H := Sample.with_codec Sample.host Sample.run_compress
                                             Sample.run_decompress)
       (fun data => mret (PBytes data)) ["x"; "001"; ","]%byte true
     = mret (PBytes Sample.three_hundred_bytes).
Proof.
  destruct (compression_round_trip
              (H := Sample.with_codec Sample.host Sample.run_compress
                                      Sample.run_decompress)
              Sample.three_hundred_bytes true eq_refl) as [Hdata _].
  destruct (Hdata (fun _ => Ok Sample.three_hundred_bytes)
                  (fun data => mret (PBytes data)) PNone eq_refl)
    as (out & flag & Hser & Hdeser & _).
  assert (Hout : (out, flag) = (["x"; "001"; ","]%byte, true)).
  { assert (Hrun : serializeData
                     (H := Sample.with_codec Sample.host Sample.run_compress
                                             Sample.run_decompress)
                     (fun _ => Ok Sample.three_hundred_bytes) PNone true
                   = Ok (["x"; "001"; ","]%byte, true)) by (vm_compute; reflexivity).
    rewrite Hrun in Hser. now injection Hser as <- <-. }
  injection Hout as -> ->. split; [exact Hser | exact Hdeser].
Defined.

Lemma date_extension_between_machines_witness :
  exists data,
    MsgpackSerializer.default (H := Sample.host) ∅ empty_registries (PDate 738000)
    = Ok (PExtType 0x33 data)
    /\ MsgpackSerializer.ext_hook (H := Sample.host) 0x33 data
       = Ok (PDate 738000)
    /\ MsgpackSerializer.ext_hook
         (H := Sample.on_machine Sample.host (Platform LittleEndian 4)) 0x33 data
       = raise StructError "unpack requires a buffer of the size of the format".
Proof.
  destruct (date_extension_between_machines Sample.host Sample.host ∅
              empty_registries 738000) as (data & Hdefault & _ & Hsame & _).
  - reflexivity.
  - vm_compute. split; discriminate.
  - vm_compute. lia.
  - destruct (date_extension_between_machines Sample.host
                (Sample.on_machine Sample.host (Platform LittleEndian 4)) ∅
                empty_registries 738000)
      as (data' & Hdefault' & _ & _ & Hdiff).
    + reflexivity.
    + vm_compute. split; discriminate.
    + vm_compute. lia.
    + rewrite Hdefault in Hdefault'. injection Hdefault' as <-.
      exists data. split; [exact Hdefault|]. split; [now apply Hsame|].
      apply Hdiff. vm_compute. lia.
Defined.

Lemma supported_serializers_consistent_witness :
  exists t,
    res_of (supported_serializers Sample.int_of_ascii
                                  (Imports true None true)) = Ok t
    /\ get_serializer t "marshal" = Ok (new_serializer "MarshalSerializer")
    /\ get_serializer t "serpent"
       = raise SerializeError "serializer 'serpent' is unknown or not available".
Proof.
  eexists. split; [reflexivity|].
  destruct (supported_serializers_consistent Sample.int_of_ascii
              (Imports true None true) _ eq_refl)
    as (Hmarshal & _ & _ & _ & _ & Hunknown & _).
  split; [exact Hmarshal|]. now apply Hunknown.
Defined.

Lemma serpent_version_required_witness :
  supported_serializers Sample.int_of_ascii
                        (Imports true (Some "1.9-beta") true)
  = raiseM (OtherError "builtins.RuntimeError") "requires serpent 1.23 or better".
Proof.
  destruct (serpent_version_required Sample.int_of_ascii
              (Imports true (Some "1.9-beta") true) "1.9-beta" eq_refl)
    as (Hver & _).
  destruct (Hver [1; 9]) as (_ & Hold & _); [reflexivity|].
  now apply Hold.
Defined.

Lemma class_to_dict_slots_witness :
  exists record,
    class_to_dict (H := Sample.host) "MsgpackSerializer" empty_registries
                  Sample.point = Ok (PDict record)
    /\ dict_get record "__class__" = Some (PStr "shapes.Point")
    /\ dict_get record "x" = Some (PInt 1)
    /\ dict_get record "y" = Some (PInt 2).
Proof.
  destruct (class_to_dict_slots (H := Sample.host) "MsgpackSerializer"
              empty_registries
              (PyClass "shapes" "Point" ["builtins.object"] (Some ["x"; "y"]))
              [] [("x", PInt 1); ("y", PInt 2)] Sample.point eq_refl)
    as (_ & Hfilled & _); try reflexivity.
  - intros clazz converter [].
  - destruct (Hfilled ["x"; "y"] eq_refl) as (record & Hrun & Htag & Hslots).
    + intros n [<-|[<-|[]]]; eexists; reflexivity.
    + exists record. split; [exact Hrun|]. split; [exact Htag|].
      split; apply Hslots; simpl; try tauto; discriminate.
Defined.

Lemma dict_to_class_type_name_forms_witness :
  dict_to_class (H := Sample.host) 1 empty_registries
    [(PStr "args", PTuple [])]
  = Logged ["unsupported serialized class: <unknown>"]
           (raise SerializeError "unsupported serialized class: <unknown>")
  /\ dict_to_class (H := Sample.host) 1 empty_registries
       [(PStr "__class__", PBytes ["255"%byte]); (PStr "args", PTuple [])]
     = raiseM UnicodeDecodeError "'utf-8' codec can't decode bytes".
Proof.
  destruct (dict_to_class_type_name_forms (H := Sample.host) 0 empty_registries
              [(PStr "args", PTuple [])] eq_refl)
    as (Hmissing & _ & Hbad & _).
  split; [now apply Hmissing | now apply Hbad].
Defined.

Lemma serializer_instance_not_rebuilt_witness :
  class_to_dict (H := Sample.host) "MarshalSerializer" empty_registries
                (new_serializer "MarshalSerializer")
  = Ok (PDict [(PStr "__class__", PStr "Pyro5.serializers.MarshalSerializer")])
  /\ dict_to_class (H := Sample.host) 1 empty_registries
       [(PStr "__class__", PStr "Pyro5.serializers.MarshalSerializer")]
     = Logged ["unsupported serialized class: Pyro5.serializers.MarshalSerializer"]
              (raise SerializeError
                 "unsupported serialized class: Pyro5.serializers.MarshalSerializer").
Proof.
  destruct (serializer_instance_not_rebuilt (H := Sample.host)
              "MarshalSerializer" 0 empty_registries "MarshalSerializer")
    as (Hrecord & Hrefused & _); try reflexivity.
  - simpl. tauto.
  - now left.
  - intros clazz converter [].
  - split; [exact Hrecord | exact Hrefused].
Defined.

Lemma json_values_read_back_as_text_witness :
  JsonSerializer.dumps (H := Sample.host) 2 ∅ empty_registries (PDecimal "1.50")
  = Ok (json.String "1.50")
  /\ JsonSerializer.loads (H := Sample.host) 0 empty_registries
                          (json.String "1.50")
     = mret (PStr "1.50").
Proof.
  destruct (json_values_read_back_as_text (H := Sample.host) 0 0 ∅
              empty_registries (PDecimal "1.50") "1.50" (lookup_empty _) eq_refl)
    as (Hdumps & Hloads & _).
  split; [exact Hdumps | exact Hloads].
Defined.

Lemma nested_records_raw_or_rebuilt_witness :
  MarshalSerializer.loads (H := Sample.host) 1
    (register_dict_to_class empty_registries "outer"
                            (fun _ data => Ok (PDict data)))
    (PDict [(PStr "__class__", PStr "outer");
            (PStr "part", PDict [(PStr "__class__", PStr "os__system")])])
  = mret (PDict [(PStr "__class__", PStr "outer");
                 (PStr "part", PDict [(PStr "__class__", PStr "os__system")])]).
Proof.
  destruct (nested_records_raw_or_rebuilt (H := Sample.host) 0
              (register_dict_to_class empty_registries "outer"
                                      (fun _ data => Ok (PDict data)))
              "outer" (fun _ data => Ok (PDict data)) eq_refl)
    as (Hmarshal & _).
  apply Hmarshal.
Defined.

Lemma dict_to_class_constructs_exceptions_only_witness :
  @construct (Sample.with_construct Sample.host Sample.guarded_construct)
             (builtin_class "int" ["builtins.object"]) [PStr "7"]
  = raise (OtherError "constructed") "builtins.int"
  /\ match res_of (dict_to_class
                     (H := Sample.with_construct Sample.host
                                                 Sample.guarded_construct)
                     2 empty_registries
                     [(PStr "__class__", PStr "builtins.int");
                      (PStr "__exception__", PBool true);
                      (PStr "args", PTuple [PStr "7"])]) with
     | Err (Raise (OtherError raised) _) =>
         String.eqb raised "constructed" = false
     | _ => True
     end.
Proof.
  split; [reflexivity|].
  pose proof (dict_to_class_constructs_exceptions_only
                (H := Sample.with_construct Sample.host Sample.guarded_construct)
                "constructed" 2 empty_registries
                [(PStr "__class__", PStr "builtins.int");
                 (PStr "__exception__", PBool true);
                 (PStr "args", PTuple [PStr "7"])]) as Hnever.
  destruct (res_of _) as [value|[cls msg]]; [exact I|].
  destruct cls as [| | | | | | | | | | | | raised]; try exact I.
  destruct (String.eqb_spec raised "constructed") as [->|Hne]; [|reflexivity].
  exfalso. refine (Hnever _ _ _ msg eq_refl).
  - intros c args Hc msg' Heq. cbn in Heq. unfold Sample.guarded_construct in Heq.
    destruct Hc as [Hc|Hc]; unfold BaseException, PyroError in Hc;
      rewrite Hc, ?orb_true_r in Heq; discriminate.
  - intros name converter record Hlookup.
    unfold empty_registries in Hlookup; cbn in Hlookup.
    now rewrite lookup_empty in Hlookup.
  - intros name state msg' Heq. discriminate.
Defined.
